(** * StudyFriend backend: payment, wallet, session, OTP, test-scoring and
      rate-limiting logic, embedded from the Python sources under [app/].

    Conventions of the embedding.
    - Python [int] is [Z]; Python [float] (money amounts, percentages and
      [time.time()] readings) is taken as an exact rational [Q], so IEEE
      rounding, NaN and infinities are outside the model; [datetime] values
      are [Z] (microseconds).
    - A MongoDB collection is the list of its documents in insertion order;
      [find_one] returns the first document that matches, [update_one]
      changes the first document that matches, [insert_one] appends.
      The [users] collection is read and written by [_id] only and is a
      finite map from the id to the document.
    - Reads of the clock, [uuid4] and [random] are inputs of the functions.
    - A function that can raise returns an [outcome]; a function that
      writes to the database returns the database next to its result, so
      the writes made before an exception are kept. *)

From Stdlib Require Import ZArith QArith Qround Lqa Lia String.
From stdpp Require Import base gmap strings list fin_maps.

Set Warnings "-register-all".
Open Scope string_scope.

(** ** Python values and exceptions *)

Inductive py_exn : Type :=
| IndexError
| TypeError
| ValueError (msg : string)
| HTTPException (status_code : Z) (detail : string).

Inductive outcome (A : Type) : Type :=
| Return (a : A)
| Raise (e : py_exn).
Arguments Return {A} a.
Arguments Raise {A} e.

Definition bind {A B} (m : outcome A) (k : A -> outcome B) : outcome B :=
  match m with
  | Return a => k a
  | Raise e => Raise e
  end.

Notation "x <- m ;; k" := (bind m (fun x => k))
  (at level 100, m at next level, right associativity).

(** [l[i]] for [0 <= i]: Python raises [IndexError] past the end. *)
Definition py_index {A} (l : list A) (i : nat) : outcome A :=
  match l !! i with
  | Some a => Return a
  | None => Raise IndexError
  end.

(** Strict comparison on amounts and clock readings. *)
Definition Qlt_bool (x y : Q) : bool := negb (Qle_bool y x).

(** [round(x, 2)]: the nearest multiple of 1/100, ties to the even one. *)
Definition round_half_even (x : Q) : Z :=
  let f := Qfloor x in
  let r := (x - inject_Z f)%Q in
  if Qlt_bool r (1 # 2) then f
  else if Qlt_bool (1 # 2) r then (f + 1)%Z
  else if Z.even f then f else (f + 1)%Z.

Definition round2 (x : Q) : Q := (round_half_even (x * 100) # 100)%Q.

(** [int(x)]: truncation towards zero. *)
Definition py_int (x : Q) : Z := Z.quot (Qnum x) (Zpos (Qden x)).

(** A JSON-like Python value, for dictionaries handed to the HTTP layer. *)
Inductive py_value : Type :=
| PNone
| PBool (b : bool)
| PInt (n : Z)
| PFloat (x : Q)
| PStr (s : string)
| PList (l : list py_value)
| PDict (d : list (string * py_value)).

(** A [dict] keeps its keys in insertion order; [d[k] = v] overwrites the
    value of a key already present and appends a new key. *)
Abbreviation py_dict := (list (string * py_value)).

Fixpoint dict_set (d : py_dict) (k : string) (v : py_value) : py_dict :=
  match d with
  | [] => [(k, v)]
  | (k', v') :: d' =>
      if decide (k' = k) then (k, v) :: d' else (k', v') :: dict_set d' k v
  end.

Fixpoint dict_get (d : py_dict) (k : string) : option py_value :=
  match d with
  | [] => None
  | (k', v') :: d' => if decide (k' = k) then Some v' else dict_get d' k
  end.

Definition dict_keys (d : py_dict) : list string := d.*1.

(** ** app/services/test_service.py *)

Module TestService.

(** [app/db/models/test_model.py], class [Question]. *)
Record Question := {
  question_text : string;
  options : list string;
  correct_answer : Z;
  marks : Z
}.

(** One entry of [detailed_results]. *)
Record detail := {
  question_number : Z;
  d_question_text : string;
  submitted_answer : Z;
  d_correct_answer : Z;
  is_correct : bool;
  marks_obtained : Z;
  d_total_marks : Z
}.

Record evaluation := {
  test_id : string;
  student_id : string;
  score : Z;
  total_marks : Z;
  percentage : Q;
  detailed_results : list detail;
  submitted_at : Z
}.

(** The dictionary [evaluate_test] returns: the error dictionary or the
    evaluation. *)
Inductive result :=
| Error (error : string)
| Evaluated (e : evaluation).

(** The loop variables [score], [total_marks], [detailed_results]. *)
Record acc := {
  a_score : Z;
  a_total_marks : Z;
  a_detailed_results : list detail
}.

(** [for i, question in enumerate(questions): ...], started at index [i]. *)
Fixpoint loop (i : nat) (questions : list Question)
    (submitted_answers : list Z) (st : acc) : outcome acc :=
  match questions with
  | [] => Return st
  | question :: rest =>
      let total_marks := (a_total_marks st + marks question)%Z in
      a <- py_index submitted_answers i ;;
      let is_correct := (a =? correct_answer question)%Z in
      let score :=
        if is_correct then (a_score st + marks question)%Z else a_score st in
      a' <- py_index submitted_answers i ;;
      loop (S i) rest submitted_answers
        {| a_score := score;
           a_total_marks := total_marks;
           a_detailed_results :=
             a_detailed_results st ++
             [{| question_number := Z.of_nat i + 1;
                 d_question_text := question_text question;
                 submitted_answer := a';
                 d_correct_answer := correct_answer question;
                 is_correct := is_correct;
                 marks_obtained := if is_correct then marks question else 0;
                 d_total_marks := marks question |}] |}
  end.

Definition evaluate_test (questions : list Question)
    (submitted_answers : list Z) (student_id test_id : string)
    (utcnow : Z) : outcome result :=
  if negb (length submitted_answers =? length questions)%nat then
    Return (Error "Number of answers doesn't match number of questions")
  else
    st <- loop 0 questions submitted_answers
            {| a_score := 0; a_total_marks := 0; a_detailed_results := [] |} ;;
    let score := a_score st in
    let total_marks := a_total_marks st in
    let percentage :=
      if (0 <? total_marks)%Z
      then (inject_Z score / inject_Z total_marks * 100)%Q
      else 0%Q in
    Return (Evaluated
      {| test_id := test_id;
         student_id := student_id;
         score := score;
         total_marks := total_marks;
         percentage := round2 percentage;
         detailed_results := a_detailed_results st;
         submitted_at := utcnow |}).

(** The score and the total as the specification words them. *)
Fixpoint marks_earned (questions : list Question) (answers : list Z) : Z :=
  match questions, answers with
  | q :: qs, a :: ans =>
      ((if (a =? correct_answer q)%Z then marks q else 0)
       + marks_earned qs ans)%Z
  | _, _ => 0%Z
  end.

Fixpoint marks_available (questions : list Question) : Z :=
  match questions with
  | [] => 0%Z
  | q :: qs => (marks q + marks_available qs)%Z
  end.

End TestService.

(** ** The document store *)

(** [app/db/models/user_model.py]: the fields of a user document that the
    modelled handlers read or write. *)
Module User.
Record t := {
  name : string;
  email : string;
  role : string;
  verified : bool;
  wallet_balance : Q
}.

(** [{"$inc": {"wallet_balance": x}}] *)
Definition inc_wallet_balance (x : Q) (u : t) : t :=
  {| name := name u; email := email u; role := role u;
     verified := verified u;
     wallet_balance := (wallet_balance u + x)%Q |}.
End User.

(** A document of [db.payments], as [initiate_payment] inserts it, with the
    fields that [verify_payment] and [process_refund] set later. *)
Module Payment.
Record t := {
  payment_id : string;
  order_id : string;
  user_id : string;
  amount : Q;
  fee_amount : Q;
  total_amount : Q;
  currency : string;
  purpose : string;
  gateway : string;
  payment_method : string;
  status : string;
  metadata : py_dict;
  created_at : Z;
  expires_at : Z;
  verified_at : option Z;
  signature : option string;
  gateway_response : option py_dict;
  refund_id : option string;
  refund_amount : option Q;
  refund_reason : option string;
  refunded_at : option Z
}.

(** [{"$set": {"status": s}}] *)
Definition set_status (s : string) (p : t) : t :=
  {| payment_id := payment_id p; order_id := order_id p;
     user_id := user_id p; amount := amount p; fee_amount := fee_amount p;
     total_amount := total_amount p; currency := currency p;
     purpose := purpose p; gateway := gateway p;
     payment_method := payment_method p;
     status := s;
     metadata := metadata p; created_at := created_at p;
     expires_at := expires_at p; verified_at := verified_at p;
     signature := signature p; gateway_response := gateway_response p;
     refund_id := refund_id p; refund_amount := refund_amount p;
     refund_reason := refund_reason p; refunded_at := refunded_at p |}.

(** [{"$set": {"status": "completed", "verified_at": now,
               "signature": sig, "gateway_response": data}}] *)
Definition set_completed (now : Z) (sig : option string)
    (data : option py_dict) (p : t) : t :=
  {| payment_id := payment_id p; order_id := order_id p;
     user_id := user_id p; amount := amount p; fee_amount := fee_amount p;
     total_amount := total_amount p; currency := currency p;
     purpose := purpose p; gateway := gateway p;
     payment_method := payment_method p;
     status := "completed";
     metadata := metadata p; created_at := created_at p;
     expires_at := expires_at p;
     verified_at := Some now;
     signature := sig;
     gateway_response := data;
     refund_id := refund_id p; refund_amount := refund_amount p;
     refund_reason := refund_reason p; refunded_at := refunded_at p |}.

(** [{"$set": {"status": "refunded", "refund_id": .., "refund_amount": ..,
               "refund_reason": .., "refunded_at": now}}] *)
Definition set_refunded (rid : string) (x : Q) (reason : string) (now : Z)
    (p : t) : t :=
  {| payment_id := payment_id p; order_id := order_id p;
     user_id := user_id p; amount := amount p; fee_amount := fee_amount p;
     total_amount := total_amount p; currency := currency p;
     purpose := purpose p; gateway := gateway p;
     payment_method := payment_method p;
     status := "refunded";
     metadata := metadata p; created_at := created_at p;
     expires_at := expires_at p; verified_at := verified_at p;
     signature := signature p; gateway_response := gateway_response p;
     refund_id := Some rid;
     refund_amount := Some x;
     refund_reason := Some reason;
     refunded_at := Some now |}.
End Payment.

(** A document of [db.transactions]. *)
Module Transaction.
Record t := {
  user_id : string;
  amount : Q;
  fee_amount : option Q;
  type : string;
  purpose : string;
  reference_id : string;
  gateway : option string;
  payment_method : option string;
  timestamp : Z;
  metadata : py_dict
}.
End Transaction.

(** A document of [db.sessions] ([app/db/models/session_model.py]). *)
Module Session.
Record t := {
  session_id : string;
  student_id : string;
  faculty_id : string;
  course_id : string;
  scheduled_time : Z;
  duration_minutes : Z;
  topic : string;
  amount : Q;
  status : string;
  payment_status : string;
  created_at : Z;
  updated_at : Z;
  meeting_link : option string;
  notes : option string
}.
End Session.

(** A document of [db.notifications]. *)
Module Notification.
Record t := {
  user_id : string;
  message : string;
  type : string;
  read_status : bool;
  timestamp : Z
}.
End Notification.

(** A document of [db.otps] ([app/db/models/otp_model.py]); its [_id] is
    its position in the collection. *)
Module OTP.
Record t := {
  email : string;
  otp_code : string;
  purpose : string;
  expires_at : Z;
  is_used : bool;
  created_at : Z
}.

(** [{"$set": {"is_used": True}}] *)
Definition set_used (o : t) : t :=
  {| email := email o; otp_code := otp_code o; purpose := purpose o;
     expires_at := expires_at o; is_used := true;
     created_at := created_at o |}.
End OTP.

Record database := {
  users : gmap string User.t;
  payments : list Payment.t;
  transactions : list Transaction.t;
  sessions : list Session.t;
  notifications : list Notification.t;
  otps : list OTP.t
}.

Definition with_users (f : gmap string User.t -> gmap string User.t)
    (db : database) : database :=
  {| users := f (users db); payments := payments db;
     transactions := transactions db; sessions := sessions db;
     notifications := notifications db; otps := otps db |}.

Definition with_payments (f : list Payment.t -> list Payment.t)
    (db : database) : database :=
  {| users := users db; payments := f (payments db);
     transactions := transactions db; sessions := sessions db;
     notifications := notifications db; otps := otps db |}.

Definition with_transactions
    (f : list Transaction.t -> list Transaction.t)
    (db : database) : database :=
  {| users := users db; payments := payments db;
     transactions := f (transactions db); sessions := sessions db;
     notifications := notifications db; otps := otps db |}.

Definition with_sessions (f : list Session.t -> list Session.t)
    (db : database) : database :=
  {| users := users db; payments := payments db;
     transactions := transactions db; sessions := f (sessions db);
     notifications := notifications db; otps := otps db |}.

Definition with_notifications
    (f : list Notification.t -> list Notification.t)
    (db : database) : database :=
  {| users := users db; payments := payments db;
     transactions := transactions db; sessions := sessions db;
     notifications := f (notifications db); otps := otps db |}.

Definition with_otps (f : list OTP.t -> list OTP.t)
    (db : database) : database :=
  {| users := users db; payments := payments db;
     transactions := transactions db; sessions := sessions db;
     notifications := notifications db; otps := f (otps db) |}.

(** [collection.find_one(filter)] *)
Definition find_one {A} (P : A -> Prop) `{forall x, Decision (P x)}
    (l : list A) : option A :=
  snd <$> list_find P l.

(** [collection.update_one(filter, update)]: the first match is updated,
    nothing happens without a match. *)
Definition update_one {A} (P : A -> Prop) `{forall x, Decision (P x)}
    (f : A -> A) (l : list A) : list A :=
  match list_find P l with
  | Some (i, x) => <[i := f x]> l
  | None => l
  end.

(** [collection.update_many(filter, update)] *)
Definition update_many {A} (P : A -> Prop) `{forall x, Decision (P x)}
    (f : A -> A) (l : list A) : list A :=
  (fun x => if decide (P x) then f x else x) <$> l.

(** [collection.insert_one(doc)] *)
Definition insert_one {A} (doc : A) (l : list A) : list A := l ++ [doc].

(** [db.users.update_one({"_id": ObjectId(id)},
                         {"$inc": {"wallet_balance": x}})] *)
Definition inc_wallet (id : string) (x : Q) (db : database) : database :=
  with_users (alter (User.inc_wallet_balance x) id) db.

(** ** app/services/payment_service.py *)

Module PaymentService.

Definition supported_gateways : list string :=
  ["razorpay"; "stripe"; "paypal"].
Definition supported_currencies : list string := ["INR"; "USD"; "EUR"].
Definition supported_payment_methods : list string :=
  ["card"; "upi"; "wallet"; "netbanking"; "bank_transfer"].

(** [d.get(k)] on a dictionary literal with string keys. *)
Fixpoint get {V} (d : list (string * V)) (k : string) : option V :=
  match d with
  | [] => None
  | (k', v) :: d' => if decide (k' = k) then Some v else get d' k
  end.

Definition fee_rates : list (string * list (string * Q)) :=
  [("razorpay",
     [("card", 0.0299%Q); ("upi", 0.0%Q); ("wallet", 0.0199%Q);
      ("netbanking", 0.0199%Q); ("bank_transfer", 0.0%Q)]);
   ("stripe",
     [("card", 0.029%Q); ("upi", 0.029%Q); ("wallet", 0.029%Q);
      ("netbanking", 0.029%Q); ("bank_transfer", 0.029%Q)]);
   ("paypal",
     [("card", 0.029%Q); ("upi", 0.029%Q); ("wallet", 0.029%Q);
      ("netbanking", 0.029%Q); ("bank_transfer", 0.029%Q)])].

Definition _calculate_fees (amount : Q) (gateway payment_method : string)
    : Q :=
  let base_rate :=
    default 0.02%Q (get (default [] (get fee_rates gateway)) payment_method)
  in
  let fee := (amount * base_rate)%Q in
  let fee :=
    if decide (gateway = "stripe") then (fee + 0.30)%Q
    else if decide (gateway = "paypal") then (fee + 0.30)%Q
    else fee in
  round2 fee.






(** [s.lower()] on ASCII letters. *)
Definition ascii_lower (c : Ascii.ascii) : Ascii.ascii :=
  let n := Ascii.nat_of_ascii c in
  if ((65 <=? n) && (n <=? 90))%nat then Ascii.ascii_of_nat (n + 32) else c.

Fixpoint lower (s : string) : string :=
  match s with
  | EmptyString => EmptyString
  | String c s' => String (ascii_lower c) (lower s')
  end.

(** What [initiate_payment] returns. *)
Record initiated := {
  i_payment_id : string;
  i_order_id : string;
  i_amount : Q;
  i_fee_amount : Q;
  i_total_amount : Q;
  i_currency : string;
  i_gateway : string;
  i_payment_method : string;
  i_status : string;
  i_gateway_data : py_dict;
  i_expires_at : Z
}.

(** What [verify_payment] returns. *)
Inductive verify_result :=
| VerifyFailure (message : string)
| Verified (message payment_id status : string) (amount fee_amount : Q).

(** What [process_refund] returns. *)
Inductive refund_result :=
| RefundFailure (message : string)
| Refunded (message refund_id : string) (amount : Q) (gateway : string).

(** The ["success"] entry of a result dictionary. *)
Definition verify_success (r : verify_result) : bool :=
  match r with VerifyFailure _ => false | Verified _ _ _ _ _ => true end.

Definition refund_success (r : refund_result) : bool :=
  match r with RefundFailure _ => false | Refunded _ _ _ _ => true end.

(** Thirty minutes, in microseconds. *)
Definition minutes (n : Z) : Z := (n * 60 * 1000000)%Z.

Section Service.

(** The environment of the service: [os.getenv(name, default)],
    [hmac.new(key, msg, sha256).hexdigest()] and [str] on a float. *)
Variable getenv : string -> string -> string.
Variable hmac_sha256_hexdigest : string -> string -> string.
Variable str_of_float : Q -> string.

Definition razorpay_key_id : string :=
  getenv "RAZORPAY_KEY_ID" "rzp_test_mock".
Definition razorpay_key_secret : string :=
  getenv "RAZORPAY_KEY_SECRET" "mock_secret".

(** [uuid] is the hexadecimal prefix drawn for the Stripe client
    secret. *)
Definition _generate_gateway_response (payment_data : Payment.t)
    (gateway : string) (uuid : string) : py_dict :=
  if decide (gateway = "razorpay") then
    [("key_id", PStr razorpay_key_id);
     ("order_id", PStr (Payment.order_id payment_data));
     ("amount", PInt (py_int (Payment.total_amount payment_data * 100)));
     ("currency", PStr (Payment.currency payment_data));
     ("name", PStr "StudyFriend");
     ("description",
       PStr ("Payment for " ++ Payment.purpose payment_data));
     ("prefill",
       PDict [("email", PStr "user@example.com");
              ("contact", PStr "9999999999")])]
  else if decide (gateway = "stripe") then
    [("client_secret", PStr ("cs_test_" ++ uuid));
     ("amount", PInt (py_int (Payment.total_amount payment_data * 100)));
     ("currency", PStr (lower (Payment.currency payment_data)));
     ("metadata",
       PDict [("order_id", PStr (Payment.order_id payment_data));
              ("purpose", PStr (Payment.purpose payment_data))])]
  else if decide (gateway = "paypal") then
    [("order_id", PStr ("PAYPAL_" ++ Payment.order_id payment_data));
     ("amount",
       PDict [("value",
                PStr (str_of_float (Payment.total_amount payment_data)));
              ("currency_code", PStr (Payment.currency payment_data))]);
     ("intent", PStr "CAPTURE")]
  else [].

(** [uuid1], [uuid2], [uuid3] are the hexadecimal prefixes of the
    [uuid4] values drawn for the payment id, the order id and the
    gateway response. *)
Definition initiate_payment (db : database) (utcnow : Z)
    (uuid1 uuid2 uuid3 : string)
    (user_id : string) (amount : Q) (currency purpose gateway : string)
    (metadata : option py_dict) (payment_method : string)
    : outcome initiated * database :=
  if decide (gateway ∉ supported_gateways) then
    (Raise (ValueError ("Unsupported gateway: " ++ gateway)), db)
  else if decide (currency ∉ supported_currencies) then
    (Raise (ValueError ("Unsupported currency: " ++ currency)), db)
  else if decide (payment_method ∉ supported_payment_methods) then
    (Raise (ValueError ("Unsupported payment method: " ++ payment_method)),
     db)
  else
    let payment_id := "pay_" ++ uuid1 in
    let order_id := "order_" ++ uuid2 in
    let fee_amount := _calculate_fees amount gateway payment_method in
    let total_amount := (amount + fee_amount)%Q in
    let payment_data :=
      {| Payment.payment_id := payment_id;
         Payment.order_id := order_id;
         Payment.user_id := user_id;
         Payment.amount := amount;
         Payment.fee_amount := fee_amount;
         Payment.total_amount := total_amount;
         Payment.currency := currency;
         Payment.purpose := purpose;
         Payment.gateway := gateway;
         Payment.payment_method := payment_method;
         Payment.status := "created";
         Payment.metadata := default [] metadata;
         Payment.created_at := utcnow;
         Payment.expires_at := (utcnow + minutes 30)%Z;
         Payment.verified_at := None;
         Payment.signature := None;
         Payment.gateway_response := None;
         Payment.refund_id := None;
         Payment.refund_amount := None;
         Payment.refund_reason := None;
         Payment.refunded_at := None |} in
    let db := with_payments (insert_one payment_data) db in
    let gateway_response :=
      _generate_gateway_response payment_data gateway uuid3 in
    (Return
       {| i_payment_id := payment_id;
          i_order_id := order_id;
          i_amount := amount;
          i_fee_amount := fee_amount;
          i_total_amount := total_amount;
          i_currency := currency;
          i_gateway := gateway;
          i_payment_method := payment_method;
          i_status := "created";
          i_gateway_data := gateway_response;
          i_expires_at := Payment.expires_at payment_data |},
     db).

Definition _verify_gateway_signature (payment : Payment.t)
    (signature : option string) (gateway_data : option py_dict) : bool :=
  let gateway := Payment.gateway payment in
  if decide (gateway = "razorpay") then
    let key_secret := razorpay_key_secret in
    let order_id := Payment.order_id payment in
    let payment_id := Payment.payment_id payment in
    let message := order_id ++ "|" ++ payment_id in
    let expected_signature := hmac_sha256_hexdigest key_secret message in
    bool_decide (signature = Some expected_signature)
  else if decide (gateway = "stripe") then
    match signature with
    | Some s => negb (String.eqb s "") && String.prefix "whsec_" s
    | None => false
    end
  else if decide (gateway = "paypal") then
    match gateway_data with
    | Some ((_ :: _) as d) =>
        match dict_get d "status" with
        | Some (PStr s) => String.eqb s "COMPLETED"
        | _ => false
        end
    | _ => false
    end
  else true.

Definition verify_payment (db : database) (utcnow : Z)
    (payment_id order_id : string) (signature : option string)
    (gateway_data : option py_dict) : verify_result * database :=
  match find_one (fun p => Payment.payment_id p = payment_id)
                 (payments db) with
  | None => (VerifyFailure "Payment not found", db)
  | Some payment =>
      if (Payment.expires_at payment <? utcnow)%Z then
        (VerifyFailure "Payment has expired",
         with_payments
           (update_one (fun p => Payment.payment_id p = payment_id)
                       (Payment.set_status "expired")) db)
      else if negb (_verify_gateway_signature payment signature
                      gateway_data) then
        (VerifyFailure "Invalid payment signature", db)
      else
        let db :=
          with_payments
            (update_one (fun p => Payment.payment_id p = payment_id)
               (Payment.set_completed utcnow signature gateway_data)) db in
        let db :=
          if decide (Payment.purpose payment = "wallet_recharge")
          then inc_wallet (Payment.user_id payment)
                          (Payment.amount payment) db
          else db in
        let transaction :=
          {| Transaction.user_id := Payment.user_id payment;
             Transaction.amount := Payment.amount payment;
             Transaction.fee_amount := Some (Payment.fee_amount payment);
             Transaction.type := "credit";
             Transaction.purpose := Payment.purpose payment;
             Transaction.reference_id := payment_id;
             Transaction.gateway := Some (Payment.gateway payment);
             Transaction.payment_method :=
               Some (Payment.payment_method payment);
             Transaction.timestamp := utcnow;
             Transaction.metadata := [] |} in
        let db := with_transactions (insert_one transaction) db in
        (Verified "Payment verified successfully" payment_id "completed"
           (Payment.amount payment) (Payment.fee_amount payment),
         db)
  end.

(** [amount or payment["amount"]]: an absent or zero amount is falsy. *)
Definition amount_or (amount : option Q) (dflt : Q) : Q :=
  match amount with
  | Some a => if Qeq_bool a 0 then dflt else a
  | None => dflt
  end.

(** [uuid] is the hexadecimal prefix drawn for the refund id. *)
Definition process_refund (db : database) (utcnow : Z) (uuid : string)
    (payment_id : string) (amount : option Q) (reason : string)
    : refund_result * database :=
  match find_one (fun p => Payment.payment_id p = payment_id)
                 (payments db) with
  | None => (RefundFailure "Payment not found", db)
  | Some payment =>
      if negb (String.eqb (Payment.status payment) "completed") then
        (RefundFailure "Only completed payments can be refunded", db)
      else
        let refund_amount := amount_or amount (Payment.amount payment) in
        if Qlt_bool (Payment.amount payment) refund_amount then
          (RefundFailure "Refund amount cannot exceed payment amount", db)
        else
          let refund_id := "rfnd_" ++ uuid in
          let db :=
            with_payments
              (update_one (fun p => Payment.payment_id p = payment_id)
                 (Payment.set_refunded refund_id refund_amount reason
                    utcnow)) db in
          let db := inc_wallet (Payment.user_id payment) refund_amount db in
          let transaction :=
            {| Transaction.user_id := Payment.user_id payment;
               Transaction.amount := refund_amount;
               Transaction.fee_amount := None;
               Transaction.type := "credit";
               Transaction.purpose := "refund";
               Transaction.reference_id := refund_id;
               Transaction.gateway := Some (Payment.gateway payment);
               Transaction.payment_method := None;
               Transaction.timestamp := utcnow;
               Transaction.metadata :=
                 [("original_payment_id", PStr payment_id);
                  ("reason", PStr reason)] |} in
          let db := with_transactions (insert_one transaction) db in
          (Refunded "Refund processed successfully" refund_id
             refund_amount (Payment.gateway payment),
           db)
  end.

End Service.

End PaymentService.

(** ** app/utils/helpers.py *)

Module Helpers.

Definition success_response (data : py_value) (message : string)
    : py_dict :=
  [("success", PBool true);
   ("message", PStr message);
   ("data", data)].

End Helpers.

(** ** app/utils/enhanced_responses.py *)

Module EnhancedResponses.

(** [isoformat] is the text of [datetime.utcnow().isoformat()]. *)
Definition success_response (data : py_value) (message : string)
    (status_code : Z) (meta : option py_dict) (isoformat : string)
    : py_dict :=
  let response :=
    [("success", PBool true);
     ("message", PStr message);
     ("timestamp", PStr isoformat)] in
  let response :=
    match data with
    | PNone => response
    | _ => dict_set response "data" data
    end in
  let response :=
    match meta with
    | Some ((_ :: _) as m) => dict_set response "meta" (PDict m)
    | _ => response
    end in
  response.

End EnhancedResponses.

(** ** app/routes/student_routes.py *)

Module StudentRoutes.

(** [SessionCreate] *)
Record SessionCreate := {
  faculty_id : string;
  course_id : string;
  scheduled_time : Z;
  duration_minutes : Z;
  topic : string;
  amount : Q
}.

(** [uuid] is the hexadecimal prefix drawn for the session id and
    [inserted_id] the id the store gives the new document. *)
Definition book_session (db : database) (utcnow : Z)
    (uuid inserted_id : string)
    (session : SessionCreate) (current_user_id : string)
    : outcome py_dict * database :=
  match
    (match users db !! faculty_id session with
     | Some f =>
         if bool_decide (User.role f = "faculty") && User.verified f
         then Some f else None
     | None => None
     end)
  with
  | None =>
      (Raise (HTTPException 404 "Faculty not found or not verified"), db)
  | Some faculty =>
      match users db !! current_user_id with
      | None => (Raise TypeError, db)
      | Some student =>
          if Qlt_bool (User.wallet_balance student) (amount session) then
            (Raise (HTTPException 400 "Insufficient wallet balance"), db)
          else
            let session_id := "sess_" ++ uuid in
            let session_doc :=
              {| Session.session_id := session_id;
                 Session.student_id := current_user_id;
                 Session.faculty_id := faculty_id session;
                 Session.course_id := course_id session;
                 Session.scheduled_time := scheduled_time session;
                 Session.duration_minutes := duration_minutes session;
                 Session.topic := topic session;
                 Session.amount := amount session;
                 Session.status := "pending";
                 Session.payment_status := "pending";
                 Session.created_at := utcnow;
                 Session.updated_at := utcnow;
                 Session.meeting_link := None;
                 Session.notes := None |} in
            let db := with_sessions (insert_one session_doc) db in
            let db := inc_wallet current_user_id (- amount session)%Q db in
            let db :=
              with_transactions
                (insert_one
                   {| Transaction.user_id := current_user_id;
                      Transaction.amount := amount session;
                      Transaction.fee_amount := None;
                      Transaction.type := "debit";
                      Transaction.purpose :=
                        "Session booking: " ++ session_id;
                      Transaction.reference_id := session_id;
                      Transaction.gateway := None;
                      Transaction.payment_method := None;
                      Transaction.timestamp := utcnow;
                      Transaction.metadata := [] |}) db in
            let db :=
              with_notifications
                (insert_one
                   {| Notification.user_id := faculty_id session;
                      Notification.message :=
                        "New session booking request from "
                        ++ User.name student ++ " for " ++ topic session;
                      Notification.type := "info";
                      Notification.read_status := false;
                      Notification.timestamp := utcnow |}) db in
            (Return
               (Helpers.success_response
                  (PDict
                     [("session_id", PStr session_id);
                      ("id", PStr inserted_id);
                      ("status", PStr "pending");
                      ("message",
                        PStr "Session booked. Waiting for faculty confirmation.")])
                  "Session booked successfully"),
             db)
      end
  end.

End StudentRoutes.

(** ** app/routes/faculty_routes.py *)

Module FacultyRoutes.

(** The values [SessionUpdate.status] admits. *)
Inductive StatusUpdate := accepted | rejected | completed | cancelled.

Definition status_name (s : StatusUpdate) : string :=
  match s with
  | accepted => "accepted"
  | rejected => "rejected"
  | completed => "completed"
  | cancelled => "cancelled"
  end.

(** [SessionUpdate] *)
Record SessionUpdate := {
  status : option StatusUpdate;
  meeting_link : option string;
  notes : option string
}.

(** The dictionary [update_data] handed to [$set]. *)
Record update_data := {
  u_updated_at : Z;
  u_status : option string;
  u_payment_status : option string;
  u_meeting_link : option string;
  u_notes : option string
}.

(** [{"$set": update_data}] *)
Definition set_fields (u : update_data) (s : Session.t) : Session.t :=
  {| Session.session_id := Session.session_id s;
     Session.student_id := Session.student_id s;
     Session.faculty_id := Session.faculty_id s;
     Session.course_id := Session.course_id s;
     Session.scheduled_time := Session.scheduled_time s;
     Session.duration_minutes := Session.duration_minutes s;
     Session.topic := Session.topic s;
     Session.amount := Session.amount s;
     Session.status := default (Session.status s) (u_status u);
     Session.payment_status :=
       default (Session.payment_status s) (u_payment_status u);
     Session.created_at := Session.created_at s;
     Session.updated_at := u_updated_at u;
     Session.meeting_link :=
       match u_meeting_link u with
       | Some l => Some l
       | None => Session.meeting_link s
       end;
     Session.notes :=
       match u_notes u with
       | Some n => Some n
       | None => Session.notes s
       end |}.

(** A string option that is neither [None] nor empty. *)
Definition truthy (s : option string) : option string :=
  match s with
  | Some x => if String.eqb x "" then None else Some x
  | None => None
  end.

(** The refund is due for a rejected or cancelled session whose payment
    is not yet refunded. *)
Definition refund_due (st : option StatusUpdate) (session : Session.t)
    : bool :=
  match st with
  | Some rejected | Some cancelled =>
      negb (String.eqb (Session.payment_status session) "refunded")
  | _ => false
  end.

Definition status_message (st : option StatusUpdate) : string :=
  match st with
  | Some accepted => "accepted your session request"
  | Some rejected => "declined your session request"
  | Some completed => "marked your session as completed"
  | Some cancelled => "cancelled your session"
  | None => "updated your session"
  end.

Definition update_session (db : database) (utcnow : Z)
    (session_id : string) (update : SessionUpdate)
    (current_user_id : string) : outcome py_dict * database :=
  match find_one (fun s => Session.session_id s = session_id)
                 (sessions db) with
  | None => (Raise (HTTPException 404 "Session not found"), db)
  | Some session =>
      if negb (String.eqb (Session.faculty_id session) current_user_id) then
        (Raise (HTTPException 403 "Not authorized to update this session"),
         db)
      else
        let refund := refund_due (status update) session in
        let db :=
          if refund then
            let db :=
              inc_wallet (Session.student_id session)
                         (Session.amount session) db in
            with_transactions
              (insert_one
                 {| Transaction.user_id := Session.student_id session;
                    Transaction.amount := Session.amount session;
                    Transaction.fee_amount := None;
                    Transaction.type := "credit";
                    Transaction.purpose := "Session refund: " ++ session_id;
                    Transaction.reference_id := session_id;
                    Transaction.gateway := None;
                    Transaction.payment_method := None;
                    Transaction.timestamp := utcnow;
                    Transaction.metadata := [] |}) db
          else db in
        let data :=
          {| u_updated_at := utcnow;
             u_status := status_name <$> status update;
             u_payment_status :=
               match status update with
               | Some accepted => Some "completed"
               | _ => if refund then Some "refunded" else None
               end;
             u_meeting_link := truthy (meeting_link update);
             u_notes := truthy (notes update) |} in
        let db :=
          with_sessions
            (update_one (fun s => Session.session_id s = session_id)
                        (set_fields data)) db in
        match users db !! current_user_id with
        | None => (Raise TypeError, db)
        | Some faculty =>
            let db :=
              with_notifications
                (insert_one
                   {| Notification.user_id := Session.student_id session;
                      Notification.message :=
                        User.name faculty ++ " "
                        ++ status_message (status update);
                      Notification.type :=
                        match status update with
                        | Some accepted => "info"
                        | _ => "warning"
                        end;
                      Notification.read_status := false;
                      Notification.timestamp := utcnow |}) db in
            (Return
               (Helpers.success_response
                  (PDict
                     [("session_id", PStr session_id);
                      ("status",
                        match status update with
                        | Some s => PStr (status_name s)
                        | None => PNone
                        end)])
                  "Session updated successfully"),
             db)
        end
  end.

End FacultyRoutes.

(** ** app/middleware/rate_limiting.py *)

Module RateLimiter.

(** [self.rate_limits]: the limit and the window (seconds) per type. *)
Definition rate_limits : list (string * (Z * Q)) :=
  [("auth", (5%Z, 60%Q));
   ("api", (100%Z, 60%Q));
   ("webhook", (10%Z, 60%Q));
   ("ai", (50%Z, 60%Q))].

(** [self.rate_limits.get(limit_type, (100, 60))] *)
Definition rate_limit (limit_type : string) : Z * Q :=
  default (100%Z, 60%Q) (PaymentService.get rate_limits limit_type).

(** [self.requests]: a [defaultdict(list)] of admission times per key. *)
Abbreviation requests := (gmap string (list Q)).

(** [self.requests[key]] *)
Definition times_of (rs : requests) (key : string) : list Q :=
  default [] (rs !! key).

(** [req_time] is kept when [now - req_time < window]. *)
Definition recent (now window req_time : Q) : bool :=
  Qlt_bool (now - req_time) window.

(** [now] is the reading of [time.time()]. *)
Definition is_allowed (rs : requests) (now : Q) (key limit_type : string)
    : bool * requests :=
  let '(limit, window) := rate_limit limit_type in
  let kept := List.filter (recent now window) (times_of rs key) in
  let rs := <[key := kept]> rs in
  if (limit <=? Z.of_nat (length kept))%Z then (false, rs)
  else (true, <[key := (kept ++ [now])%list]> rs).

(** One request reaching the middleware. *)
Record call := {
  at_time : Q;
  client : string;
  limit_type : string
}.

(** The limiter serving a sequence of requests: each one with the
    answer it got. *)
Fixpoint serve (rs : requests) (calls : list call) : list (call * bool) :=
  match calls with
  | [] => []
  | c :: cs =>
      let '(ok, rs') := is_allowed rs (at_time c) (client c) (limit_type c) in
      (c, ok) :: serve rs' cs
  end.

(** The requests of [key] admitted in a log, by time. *)
Definition admitted (key : string) (log : list (call * bool)) : list Q :=
  (fun e => at_time (fst e)) <$>
    List.filter (fun e => snd e && bool_decide (client (fst e) = key)) log.

(** The clock does not run backwards along the sequence. *)
Fixpoint monotone (prev : Q) (calls : list call) : Prop :=
  match calls with
  | [] => True
  | c :: cs => (prev <= at_time c)%Q /\ monotone (at_time c) cs
  end.

End RateLimiter.

(** ** app/services/otp_service.py *)

Module OTPService.

Definition otp_expiry_minutes : Z := 10.

(** The filter of [verify_otp]'s [find_one]. *)
Definition valid_for (email otp_code purpose : string) (utcnow : Z)
    (o : OTP.t) : Prop :=
  OTP.email o = email /\ OTP.otp_code o = otp_code /\
  OTP.purpose o = purpose /\ OTP.is_used o = false /\
  (utcnow < OTP.expires_at o)%Z.

#[global] Instance valid_for_dec email otp_code purpose utcnow o :
  Decision (valid_for email otp_code purpose utcnow o).
Proof. unfold valid_for. apply _. Defined.

(** The filter of [resend_otp]'s [update_many]. *)
Definition pending_for (email purpose : string) (o : OTP.t) : Prop :=
  OTP.email o = email /\ OTP.purpose o = purpose /\ OTP.is_used o = false.

#[global] Instance pending_for_dec email purpose o :
  Decision (pending_for email purpose o).
Proof. unfold pending_for. apply _. Defined.

(** [otp_code] is the code [generate_otp] drew; sending the mail leaves
    the store alone. *)
Definition create_otp (db : database) (utcnow : Z) (otp_code : string)
    (email purpose : string) : string * database :=
  let expires_at := (utcnow + PaymentService.minutes otp_expiry_minutes)%Z in
  let otp_data :=
    {| OTP.email := email;
       OTP.otp_code := otp_code;
       OTP.purpose := purpose;
       OTP.expires_at := expires_at;
       OTP.is_used := false;
       OTP.created_at := utcnow |} in
  (otp_code, with_otps (insert_one otp_data) db).

Definition verify_otp (db : database) (utcnow : Z)
    (email otp_code purpose : string) : bool * database :=
  match list_find (valid_for email otp_code purpose utcnow) (otps db) with
  | None => (false, db)
  | Some (_id, otp) =>
      (true, with_otps (fun l => <[_id := OTP.set_used otp]> l) db)
  end.

Definition resend_otp (db : database) (utcnow : Z) (otp_code : string)
    (email purpose : string) : string * database :=
  let db :=
    with_otps (update_many (pending_for email purpose) OTP.set_used) db in
  create_otp db utcnow otp_code email purpose.

End OTPService.

(** ** The lifecycles as the specification draws them *)

(** Payment: created -> completed / expired, completed -> refunded; a
    status may also stay as it is. *)
Definition payment_lifecycle (s s' : string) : Prop :=
  s' = s \/
  (s = "created" /\ (s' = "completed" \/ s' = "expired")) \/
  (s = "completed" /\ s' = "refunded").

(** Session: pending -> accepted / rejected / completed / cancelled, and a
    session that is rejected, cancelled or completed stays so. *)
Definition session_lifecycle (s s' : string) : Prop :=
  s' = s \/
  (s <> "rejected" /\ s <> "cancelled" /\ s <> "completed" /\
   (s' = "accepted" \/ s' = "rejected" \/ s' = "completed" \/
    s' = "cancelled")).

(** ** Sample documents *)

Definition sample_user (name role : string) (balance : Q) : User.t :=
  {| User.name := name; User.email := name ++ "@example.com";
     User.role := role; User.verified := true;
     User.wallet_balance := balance |}.

Definition sample_payment (status : string) : Payment.t :=
  {| Payment.payment_id := "pay_1"; Payment.order_id := "order_1";
     Payment.user_id := "u1"; Payment.amount := 100;
     Payment.fee_amount := 3.2; Payment.total_amount := 103.2;
     Payment.currency := "USD"; Payment.purpose := "wallet_recharge";
     Payment.gateway := "stripe"; Payment.payment_method := "card";
     Payment.status := status; Payment.metadata := [];
     Payment.created_at := 0; Payment.expires_at := 1000;
     Payment.verified_at := None; Payment.signature := None;
     Payment.gateway_response := None; Payment.refund_id := None;
     Payment.refund_amount := None; Payment.refund_reason := None;
     Payment.refunded_at := None |}.

Definition sample_db (ps : list Payment.t) : database :=
  {| users := {[ "u1" := sample_user "Asha" "student" 50;
                 "f1" := sample_user "Ravi" "faculty" 0 ]};
     payments := ps; transactions := []; sessions := [];
     notifications := []; otps := [] |}.

(** An environment for running the samples: no variable is set, and the
    digest and the float printer are constant. *)
Definition sample_getenv (name dflt : string) : string := dflt.
Definition sample_hmac (key msg : string) : string := "digest".
Definition sample_str (x : Q) : string := "0.0".

Definition sample_session (status payment_status : string) : Session.t :=
  {| Session.session_id := "sess_1"; Session.student_id := "u1";
     Session.faculty_id := "f1"; Session.course_id := "c1";
     Session.scheduled_time := 0; Session.duration_minutes := 60;
     Session.topic := "Limits"; Session.amount := 30;
     Session.status := status; Session.payment_status := payment_status;
     Session.created_at := 0; Session.updated_at := 0;
     Session.meeting_link := None; Session.notes := None |}.

Definition sample_sessions_db (ss : list Session.t) : database :=
  {| users := {[ "u1" := sample_user "Asha" "student" 50;
                 "f1" := sample_user "Ravi" "faculty" 0 ]};
     payments := []; transactions := []; sessions := ss;
     notifications := []; otps := [] |}.

Definition sample_update (st : FacultyRoutes.StatusUpdate)
    : FacultyRoutes.SessionUpdate :=
  {| FacultyRoutes.status := Some st;
     FacultyRoutes.meeting_link := None;
     FacultyRoutes.notes := None |}.

Definition sample_booking (faculty_id : string) (amount : Q)
    : StudentRoutes.SessionCreate :=
  {| StudentRoutes.faculty_id := faculty_id;
     StudentRoutes.course_id := "c1";
     StudentRoutes.scheduled_time := 0;
     StudentRoutes.duration_minutes := 60;
     StudentRoutes.topic := "Limits";
     StudentRoutes.amount := amount |}.

(** The faculty lookup of [book_session]. *)
Definition verified_faculty (db : database) (id : string) : Prop :=
  exists f, users db !! id = Some f /\ User.role f = "faculty" /\
            User.verified f = true.

(** The limiter state agrees with a log of served requests when, seen
    from any later time, the times it keeps for a key are the admitted
    requests of that key that are still within the window. *)
Definition agrees (rs : RateLimiter.requests)
    (log : list (RateLimiter.call * bool)) : Prop :=
  forall key now,
    Forall (fun e => (RateLimiter.at_time e.1 <= now)%Q) log ->
    List.filter (RateLimiter.recent now 60) (RateLimiter.times_of rs key) =
    List.filter (RateLimiter.recent now 60) (RateLimiter.admitted key log).

(** A client calling an [auth] endpoint at the given second. *)
Definition auth_call (t : Q) : RateLimiter.call :=
  {| RateLimiter.at_time := t;
     RateLimiter.client := "10.0.0.7";
     RateLimiter.limit_type := "auth" |}.

Definition six_auth_calls : list RateLimiter.call :=
  auth_call <$> [0; 1; 2; 3; 4; 5]%Q.

(** ** Counting one-time passwords *)

(** An OTP that is stored for the email, code and purpose and not yet
    used, whether expired or not. *)
Definition unused_for (email otp_code purpose : string) (o : OTP.t) : Prop :=
  OTP.email o = email /\ OTP.otp_code o = otp_code /\
  OTP.purpose o = purpose /\ OTP.is_used o = false.

#[global] Instance unused_for_dec email otp_code purpose o :
  Decision (unused_for email otp_code purpose o).
Proof. unfold unused_for. apply _. Defined.

Definition unused_count (email otp_code purpose : string) (l : list OTP.t)
    : nat :=
  length (filter (unused_for email otp_code purpose) l).

(** [verify_otp] called again and again for the same email, code and
    purpose, at the given times: the answers, in order. *)
Fixpoint verify_each (db : database) (times : list Z)
    (email otp_code purpose : string) : list bool :=
  match times with
  | [] => []
  | utcnow :: rest =>
      let out := OTPService.verify_otp db utcnow email otp_code purpose in
      out.1 :: verify_each out.2 rest email otp_code purpose
  end.

Definition empty_db : database :=
  {| users := ∅; payments := []; transactions := []; sessions := [];
     notifications := []; otps := [] |}.

(** Two registrations for one address that happen to draw the same code. *)
Definition twice_same_code : database :=
  (OTPService.create_otp
     (OTPService.create_otp empty_db 0 "482913" "a@example.com"
        "registration").2
     1 "482913" "a@example.com" "registration").2.

(** * The rest of the payment code *)

(** Exceptions beyond [py_exn] that the code below can raise. *)
Inductive py_error : Type :=
| KeyError (key : string)
| AttributeError
| ZeroDivisionError
| InvalidId
| Exn (e : py_exn).

Inductive raising (A : Type) : Type :=
| Returns (a : A)
| Raises (e : py_error).
Arguments Returns {A} a.
Arguments Raises {A} e.

Definition and_then {A B} (m : raising A) (k : A -> raising B) : raising B :=
  match m with
  | Returns a => k a
  | Raises e => Raises e
  end.

(** [v.get(k, dflt)]: only a dictionary has [get]. *)
Definition value_get (v : py_value) (k : string) (dflt : py_value)
    : raising py_value :=
  match v with
  | PDict d => Returns (default dflt (dict_get d k))
  | _ => Raises AttributeError
  end.

(** [v == "text"] for a text literal. *)
Definition is_text (v : py_value) (text : string) : bool :=
  match v with
  | PStr s => String.eqb s text
  | _ => false
  end.

(** [s[-16:]] on a string. *)
Definition last16 (s : string) : string :=
  String.substring (String.length s - 16) 16 s.

(** ** app/services/payment_service.py, the webhooks *)

Module PaymentWebhooks.

(** A result dictionary of [handle_webhook]: the two-key dictionary of the
    webhook code itself, or the dictionary of [verify_payment]. *)
Inductive webhook_result :=
| Processed (success : bool) (message : string)
| Verification (r : PaymentService.verify_result).

Definition webhook_success (r : webhook_result) : bool :=
  match r with
  | Processed success _ => success
  | Verification v => PaymentService.verify_success v
  end.

Definition webhook_message (r : webhook_result) : string :=
  match r with
  | Processed _ message => message
  | Verification (PaymentService.VerifyFailure message) => message
  | Verification (PaymentService.Verified message _ _ _ _) => message
  end.

Section Webhooks.

Variable getenv : string -> string -> string.
Variable hmac_sha256_hexdigest : string -> string -> string.
(** [str(v)], as an f-string renders a value. *)
Variable py_str : py_value -> string.
(** What [d[-16:]] raises for a dictionary [d]. *)
Variable dict_slice_error : py_error.

Definition _verify_webhook_signature (gateway : string) (payload : py_dict)
    (signature : option string) : bool :=
  true.

(** [f"pay_{payment_id[-16:]}"] *)
Definition our_payment_id (payment_id : py_value) : raising string :=
  match payment_id with
  | PStr s => Returns ("pay_" ++ last16 s)
  | PList l => Returns ("pay_" ++ py_str (PList (drop (length l - 16) l)))
  | PDict _ => Raises dict_slice_error
  | _ => Raises (Exn TypeError)
  end.

(** [verify_payment] does not read its [order_id] argument; a value that
    is not a string is handed over as the empty text. *)
Definition order_id_text (v : py_value) : string :=
  match v with
  | PStr s => s
  | _ => ""
  end.

Definition _process_razorpay_webhook (db : database) (utcnow : Z)
    (payload : py_dict) : raising webhook_result * database :=
  let event := default PNone (dict_get payload "event") in
  match
    and_then (value_get (PDict payload) "payload" (PDict [])) (fun p =>
    and_then (value_get p "payment" (PDict [])) (fun pay =>
    value_get pay "entity" (PDict [])))
  with
  | Raises e => (Raises e, db)
  | Returns payment_entity =>
      if is_text event "payment.captured" then
        match payment_entity with
        | PDict entity =>
            let payment_id := default PNone (dict_get entity "id") in
            let order_id := default PNone (dict_get entity "order_id") in
            match our_payment_id payment_id with
            | Raises e => (Raises e, db)
            | Returns id =>
                let '(r, db') :=
                  PaymentService.verify_payment getenv
                    hmac_sha256_hexdigest db utcnow id
                    (order_id_text order_id) None (Some entity) in
                (Returns (Verification r), db')
            end
        | _ => (Raises AttributeError, db)
        end
      else
        (Returns (Processed true ("Event " ++ py_str event ++ " processed")),
         db)
  end.

Definition _process_stripe_webhook (db : database) (payload : py_dict)
    : raising webhook_result * database :=
  (Returns (Processed true "Stripe webhook processed"), db).

Definition _process_paypal_webhook (db : database) (payload : py_dict)
    : raising webhook_result * database :=
  (Returns (Processed true "PayPal webhook processed"), db).

Definition handle_webhook (db : database) (utcnow : Z) (gateway : string)
    (payload : py_dict) (signature : option string)
    : raising webhook_result * database :=
  if negb (_verify_webhook_signature gateway payload signature) then
    (Returns (Processed false "Invalid webhook signature"), db)
  else if decide (gateway = "razorpay") then
    _process_razorpay_webhook db utcnow payload
  else if decide (gateway = "stripe") then
    _process_stripe_webhook db payload
  else if decide (gateway = "paypal") then
    _process_paypal_webhook db payload
  else
    (Returns (Processed false ("Unsupported gateway: " ++ gateway)), db).

End Webhooks.

End PaymentWebhooks.

(** ** app/routes/payment_routes.py *)

Module PaymentRoutes.

Record PaymentInitiateRequest := {
  amount : Q;
  currency : string;
  purpose : string;
  gateway : string;
  payment_method : string;
  metadata : option py_dict
}.

Record PaymentVerifyRequest := {
  payment_id : string;
  order_id : string;
  signature : option string;
  gateway_data : option py_dict
}.

Record RefundRequest := {
  r_amount : option Q;
  reason : string
}.

(** The result dictionaries of the service, as the [data] of a response;
    a [datetime] is shown by its microseconds. *)
Definition initiated_data (r : PaymentService.initiated) : py_value :=
  PDict
    [("payment_id", PStr (PaymentService.i_payment_id r));
     ("order_id", PStr (PaymentService.i_order_id r));
     ("amount", PFloat (PaymentService.i_amount r));
     ("fee_amount", PFloat (PaymentService.i_fee_amount r));
     ("total_amount", PFloat (PaymentService.i_total_amount r));
     ("currency", PStr (PaymentService.i_currency r));
     ("gateway", PStr (PaymentService.i_gateway r));
     ("payment_method", PStr (PaymentService.i_payment_method r));
     ("status", PStr (PaymentService.i_status r));
     ("gateway_data", PDict (PaymentService.i_gateway_data r));
     ("expires_at", PInt (PaymentService.i_expires_at r))].

Definition verify_data (r : PaymentService.verify_result) : py_value :=
  match r with
  | PaymentService.VerifyFailure message =>
      PDict [("success", PBool false); ("message", PStr message)]
  | PaymentService.Verified message payment_id status amount fee_amount =>
      PDict [("success", PBool true); ("message", PStr message);
             ("payment_id", PStr payment_id); ("status", PStr status);
             ("amount", PFloat amount); ("fee_amount", PFloat fee_amount)]
  end.

Definition verify_message (r : PaymentService.verify_result) : string :=
  match r with
  | PaymentService.VerifyFailure message => message
  | PaymentService.Verified message _ _ _ _ => message
  end.

Definition refund_data (r : PaymentService.refund_result) : py_value :=
  match r with
  | PaymentService.RefundFailure message =>
      PDict [("success", PBool false); ("message", PStr message)]
  | PaymentService.Refunded message refund_id amount gateway =>
      PDict [("success", PBool true); ("message", PStr message);
             ("refund_id", PStr refund_id); ("amount", PFloat amount);
             ("gateway", PStr gateway)]
  end.

Definition refund_message (r : PaymentService.refund_result) : string :=
  match r with
  | PaymentService.RefundFailure message => message
  | PaymentService.Refunded message _ _ _ => message
  end.

Section Routes.

Variable getenv : string -> string -> string.
Variable hmac_sha256_hexdigest : string -> string -> string.
Variable str_of_float : Q -> string.

Definition initiate_payment (db : database) (utcnow : Z)
    (uuid1 uuid2 uuid3 : string) (request : PaymentInitiateRequest)
    (current_user_id : string) : outcome py_dict * database :=
  if Qle_bool (amount request) 0 then
    (Raise (HTTPException 400 "Amount must be greater than 0"), db)
  else
    match
      PaymentService.initiate_payment getenv str_of_float db utcnow
        uuid1 uuid2 uuid3 current_user_id (amount request)
        (currency request) (purpose request) (gateway request)
        (metadata request) (payment_method request)
    with
    | (Return result, db') =>
        (Return (Helpers.success_response (initiated_data result)
                   "Payment initiated successfully"), db')
    | (Raise (ValueError msg), db') => (Raise (HTTPException 400 msg), db')
    | (Raise e, db') => (Raise e, db')
    end.

Definition verify_payment (db : database) (utcnow : Z)
    (request : PaymentVerifyRequest) (current_user_id : string)
    : outcome py_dict * database :=
  let '(result, db') :=
    PaymentService.verify_payment getenv hmac_sha256_hexdigest db utcnow
      (payment_id request) (order_id request) (signature request)
      (gateway_data request) in
  if negb (PaymentService.verify_success result) then
    (Raise (HTTPException 400 (verify_message result)), db')
  else
    (Return (Helpers.success_response (verify_data result)
               "Payment verified successfully"), db').

Definition refund_payment (db : database) (utcnow : Z) (uuid : string)
    (payment_id : string) (request : RefundRequest)
    (current_user_id : string) : outcome py_dict * database :=
  let '(result, db') :=
    PaymentService.process_refund db utcnow uuid payment_id
      (r_amount request) (reason request) in
  if negb (PaymentService.refund_success result) then
    (Raise (HTTPException 400 (refund_message result)), db')
  else
    (Return (Helpers.success_response (refund_data result)
               "Refund processed successfully"), db').

Definition get_wallet_balance (db : database) (current_user_id : string)
    : outcome py_dict :=
  match users db !! current_user_id with
  | None => Raise (HTTPException 404 "User not found")
  | Some user =>
      Return (Helpers.success_response
                (PDict [("user_id", PStr current_user_id);
                        ("wallet_balance",
                          PFloat (User.wallet_balance user))])
                "Wallet balance retrieved successfully")
  end.

End Routes.

End PaymentRoutes.

(** ** app/services/otp_service.py, the clean-up *)

Module OTPCleanup.

Definition hours (n : Z) : Z := (n * 60 * 60 * 1000000)%Z.

(** The filter of [cleanup_expired_otps]: expired, or used and created
    more than an hour ago. *)
Definition stale (utcnow : Z) (o : OTP.t) : Prop :=
  (OTP.expires_at o < utcnow)%Z \/
  (OTP.is_used o = true /\ (OTP.created_at o < utcnow - hours 1)%Z).

#[global] Instance stale_dec utcnow o : Decision (stale utcnow o).
Proof. unfold stale. apply _. Defined.

(** [db.otps.delete_many(filter)] keeps what the filter does not match. *)
Definition cleanup_expired_otps (db : database) (utcnow : Z) : database :=
  with_otps (filter (fun o => ~ stale utcnow o)) db.

End OTPCleanup.

(** ** app/services/test_service.py, analytics and reports *)

Module TestAnalytics.

(** [app/db/models/test_model.py], class [TestAttempt]. *)
Record TestAttempt := {
  test_id : string;
  student_id : string;
  answers : list Z;
  score : Z;
  total_marks : Z;
  percentage : Q;
  started_at : Z;
  submitted_at : Z
}.

(** [sum], [max] and [min] of Python, the last two on a list with a first
    element. *)
Definition sum_int (l : list Z) : Z := foldr Z.add 0%Z l.
Definition sum_float (l : list Q) : Q := foldr Qplus 0%Q l.
Definition max_int (x : Z) (l : list Z) : Z := foldl Z.max x l.
Definition min_int (x : Z) (l : list Z) : Z := foldl Z.min x l.

(** [sum(1 for p in percentages if p >= 40)] *)
Definition pass_count (percentages : list Q) : nat :=
  length (List.filter (fun p => Qle_bool 40 p) percentages).

(** [len(l)] as a float. *)
Definition len_float {A} (l : list A) : Q := inject_Z (Z.of_nat (length l)).

Definition calculate_analytics (test_attempts : list TestAttempt) : py_dict :=
  match test_attempts with
  | [] =>
      [("total_attempts", PInt 0);
       ("average_score", PInt 0);
       ("highest_score", PInt 0);
       ("lowest_score", PInt 0);
       ("pass_rate", PInt 0)]
  | first :: rest =>
      let scores := score <$> test_attempts in
      let percentages := percentage <$> test_attempts in
      let pass_count := pass_count percentages in
      [("total_attempts", PInt (Z.of_nat (length test_attempts)));
       ("average_score",
         PFloat (round2 (inject_Z (sum_int scores) / len_float scores)));
       ("average_percentage",
         PFloat (round2 (sum_float percentages / len_float percentages)));
       ("highest_score", PInt (max_int (score first) (score <$> rest)));
       ("lowest_score", PInt (min_int (score first) (score <$> rest)));
       ("pass_rate",
         PFloat (round2 (inject_Z (Z.of_nat pass_count)
                         / len_float test_attempts * 100)))]
  end.






End TestAnalytics.

(** Sample attempts. *)
Definition sample_attempt (score : Z) (percentage : Q)
    : TestAnalytics.TestAttempt :=
  {| TestAnalytics.test_id := "t1"; TestAnalytics.student_id := "u1";
     TestAnalytics.answers := []; TestAnalytics.score := score;
     TestAnalytics.total_marks := 10;
     TestAnalytics.percentage := percentage;
     TestAnalytics.started_at := 0; TestAnalytics.submitted_at := 0 |}.

(** ** app/utils/enhanced_responses.py, pagination *)

Module Pagination.

(** The dictionary under [data] is built first, so a zero [limit] raises
    before any response exists. *)
Definition paginated_response (items : list py_value) (total page limit : Z)
    (message isoformat : string) : raising py_dict :=
  if (limit =? 0)%Z then Raises ZeroDivisionError
  else
    Returns
      (EnhancedResponses.success_response
         (PDict
            [("items", PList items);
             ("pagination",
               PDict [("total", PInt total);
                      ("page", PInt page);
                      ("limit", PInt limit);
                      ("pages", PInt ((total + limit - 1) / limit))])])
         message 200
         (Some [("total_count", PInt total);
                ("current_page", PInt page);
                ("per_page", PInt limit)])
         isoformat).

(** The [pages] entry of a paginated response. *)
Definition pages_of (response : py_dict) : option py_value :=
  match dict_get response "data" with
  | Some (PDict data) =>
      match dict_get data "pagination" with
      | Some (PDict pagination) => dict_get pagination "pages"
      | _ => None
      end
  | _ => None
  end.

End Pagination.

(** ** app/middleware/rate_limiting.py, the middleware *)

Module RateLimitMiddleware.

(** What the middleware answers: its own refusal, or what the rest of the
    stack answers. *)
Inductive answer (R : Type) : Type :=
| JSONResponse (status_code : Z) (content : py_dict)
| Passed (response : R).
Arguments JSONResponse {R} status_code content.
Arguments Passed {R} response.

Definition limit_type_of (path : string) : string :=
  if String.prefix "/auth" path then "auth"
  else if String.prefix "/payment/webhook" path then "webhook"
  else if String.prefix "/ai" path then "ai"
  else "api".

(** [client_host] is [request.client.host], absent without a client;
    [call_next] runs the rest of the stack on its state [W]. *)
Definition rate_limiting_middleware {R W : Type}
    (rs : RateLimiter.requests) (now : Q) (client_host : option string)
    (path : string) (call_next : W -> R * W) (w : W)
    : answer R * RateLimiter.requests * W :=
  let client_ip := default "unknown" client_host in
  let limit_type := limit_type_of path in
  let '(allowed, rs) := RateLimiter.is_allowed rs now client_ip limit_type in
  if negb allowed then
    (JSONResponse 429
       [("success", PBool false);
        ("message", PStr "Too many requests. Please try again later.");
        ("error_code", PStr "RATE_LIMIT_EXCEEDED")],
     rs, w)
  else
    let '(response, w) := call_next w in
    (Passed response, rs, w).

End RateLimitMiddleware.

(** ** app/middleware/caching.py *)

Module Caching.

(** One entry of [SimpleCache.cache]: the value and the time it expires. *)
Record item : Type := { value : py_value; expires : Q }.

Abbreviation store := (gmap string item).

(** [now] is the reading of [time.time()]. *)
Definition get (c : store) (now : Q) (key : string) : py_value * store :=
  match c !! key with
  | Some it =>
      if Qlt_bool now (expires it) then (value it, c)
      else (PNone, base.delete key c)
  | None => (PNone, c)
  end.

Definition set (c : store) (now : Q) (key : string) (v : py_value)
    (ttl : Z) : store :=
  <[key := {| value := v; expires := now + inject_Z ttl |}]> c.

Definition delete (c : store) (key : string) : store :=
  match c !! key with
  | Some _ => base.delete key c
  | None => c
  end.

Definition clear (c : store) : store := ∅.

Definition is_none (v : py_value) : bool :=
  match v with PNone => true | _ => false end.

(** The wrapper that [cached] puts around [func]. [cache_key] is the key
    built from the prefix, the name of the function and the digest of the
    arguments; [func] runs on its state [W] and may raise; [now_get] and
    [now_set] are the two readings of the clock. *)
Definition cached {W : Type} (ttl : Z) (cache_key : string)
    (func : W -> outcome py_value * W)
    (c : store) (now_get now_set : Q) (w : W)
    : outcome py_value * store * W :=
  let '(cached_result, c) := get c now_get cache_key in
  if negb (is_none cached_result) then (Return cached_result, c, w)
  else
    match func w with
    | (Return result, w) =>
        (Return result, set c now_set cache_key result ttl, w)
    | (Raise e, w) => (Raise e, c, w)
    end.

(** [pattern in key] on strings. *)
Fixpoint contains (pattern key : string) : bool :=
  String.prefix pattern key ||
  match key with
  | EmptyString => false
  | String _ rest => contains pattern rest
  end.

Definition invalidate_cache (c : store) (pattern : string) : store :=
  let keys_to_delete :=
    List.filter (contains pattern) (map_to_list c).*1 in
  foldl delete c keys_to_delete.

Definition clear_expired_cache (c : store) (current_time : Q) : store :=
  let expired_keys :=
    (List.filter (fun kv => Qlt_bool (expires kv.2) current_time)
       (map_to_list c)).*1 in
  foldl (fun c key => base.delete key c) c expired_keys.

End Caching.

Definition sample_cache : Caching.store :=
  Caching.set
    (Caching.set ∅ 0 "user:get_profile:ab12" (PStr "profile") 300)
    10 "course:list_courses:cd34" (PList []) 300.

(** A function behind the cache: it counts its calls and returns its
    argument. *)
Definition counting (v : py_value) (calls : nat) : outcome py_value * nat :=
  (Return v, S calls).

(** ** Assignments: app/routes/student_routes.py, faculty_routes.py *)

Module Assignments.

(** An entry of the [submissions] array; the marks and the feedback are
    absent until the submission is graded. *)
Record Submission : Type := {
  student_id : string;
  submission_text : option string;
  file_url : option string;
  submitted_at : Z;
  marks_obtained : option Z;
  feedback : option string
}.

(** A document of [db.assignments], with the fields the two routes read. *)
Record t : Type := {
  _id : string;
  created_by : string;
  assigned_to : list string;
  submissions : list Submission
}.

(** [{"$push": {"submissions": submission}}] *)
Definition push (submission : Submission) (a : t) : t :=
  {| _id := _id a; created_by := created_by a;
     assigned_to := assigned_to a;
     submissions := (submissions a ++ [submission])%list |}.

(** [{"$set": {"submissions": submissions}}] *)
Definition set_submissions (subs : list Submission) (a : t) : t :=
  {| _id := _id a; created_by := created_by a;
     assigned_to := assigned_to a; submissions := subs |}.

Definition grade (marks : Z) (text : option string) (s : Submission)
    : Submission :=
  {| student_id := student_id s; submission_text := submission_text s;
     file_url := file_url s; submitted_at := submitted_at s;
     marks_obtained := Some marks; feedback := text |}.

(** The loop of [grade_submission]: the first submission of the student
    is graded, and the loop stops there. *)
Fixpoint grade_first (student : string) (marks : Z) (text : option string)
    (subs : list Submission) : list Submission * bool :=
  match subs with
  | [] => ([], false)
  | s :: rest =>
      if String.eqb (student_id s) student then
        (grade marks text s :: rest, true)
      else
        let '(rest, found) := grade_first student marks text rest in
        (s :: rest, found)
  end.

Definition students (a : t) : list string := student_id <$> submissions a.

Section Routes.
(** [ObjectId s] is the identifier that bson reads from [s], or [None]
    where bson raises [InvalidId]. *)
Variable ObjectId : string -> option string.

Definition submit_assignment (assignments : list t) (utcnow : Z)
    (assignment_id : string) (text file : option string)
    (current_user_id : string) : raising py_dict * list t :=
  match ObjectId assignment_id with
  | None => (Raises InvalidId, assignments)
  | Some oid =>
      match find_one (fun a => _id a = oid) assignments with
      | None =>
          (Raises (Exn (HTTPException 404 "Assignment not found")),
           assignments)
      | Some assignment =>
          if negb (bool_decide (current_user_id ∈ assigned_to assignment))
          then
            (Raises
               (Exn (HTTPException 403
                       "You are not assigned to this assignment")),
             assignments)
          else
            match
              List.find
                (fun sub => String.eqb (student_id sub) current_user_id)
                (submissions assignment)
            with
            | Some _ =>
                (Raises
                   (Exn (HTTPException 400
                           "You have already submitted this assignment")),
                 assignments)
            | None =>
                let submission_data :=
                  {| student_id := current_user_id;
                     submission_text := text;
                     file_url := file;
                     submitted_at := utcnow;
                     marks_obtained := None;
                     feedback := None |} in
                (Returns
                   (Helpers.success_response
                      (PDict [("assignment_id", PStr assignment_id);
                              ("submitted", PBool true)])
                      "Assignment submitted successfully"),
                 update_one (fun a => _id a = oid) (push submission_data)
                   assignments)
            end
      end
  end.

Definition grade_submission (assignments : list t)
    (assignment_id student : string) (marks : Z) (text : option string)
    (current_user_id : string) : raising py_dict * list t :=
  match ObjectId assignment_id with
  | None => (Raises InvalidId, assignments)
  | Some oid =>
      match
        find_one (fun a => _id a = oid /\ created_by a = current_user_id)
          assignments
      with
      | None =>
          (Raises
             (Exn (HTTPException 404
                     "Assignment not found or access denied")),
           assignments)
      | Some assignment =>
          let '(subs, submission_found) :=
            grade_first student marks text (submissions assignment) in
          if negb submission_found then
            (Raises (Exn (HTTPException 404 "Submission not found")),
             assignments)
          else
            (Returns
               (Helpers.success_response
                  (PDict [("assignment_id", PStr assignment_id);
                          ("student_id", PStr student);
                          ("marks_obtained", PInt marks);
                          ("feedback",
                            match text with
                            | Some f => PStr f
                            | None => PNone
                            end)])
                  "Submission graded successfully"),
             update_one (fun a => _id a = oid) (set_submissions subs)
               assignments)
      end
  end.

End Routes.

End Assignments.

(** ** Enrolments: app/routes/student_routes.py *)

Module Enrollments.

(** [EnrollmentCreate] *)
Record EnrollmentCreate : Type := {
  c_student_id : string;
  c_course_id : string;
  c_enrolled_at : Z;
  c_status : string
}.

(** A document of [db.enrollments]. *)
Record t : Type := {
  student_id : string;
  course_id : string;
  enrolled_at : Z;
  status : string;
  progress_percentage : Q
}.

Section Routes.
(** [ObjectId] as above; [respond data id] is the response built from
    the stored data and the id of the insertion, or the error of its
    validation. [courses] holds the [_id] of every course document. *)
Variable ObjectId : string -> option string.
Variable respond : t -> string -> raising py_dict.

Definition enroll_in_course (courses : list string) (enrollments : list t)
    (inserted_id : string) (enrollment : EnrollmentCreate)
    (current_user_id : string) : raising py_dict * list t :=
  if negb (String.eqb (c_student_id enrollment) current_user_id) then
    (Raises (Exn (HTTPException 403 "Cannot enroll for another student")),
     enrollments)
  else
    match ObjectId (c_course_id enrollment) with
    | None => (Raises InvalidId, enrollments)
    | Some oid =>
        match find_one (fun c => c = oid) courses with
        | None =>
            (Raises (Exn (HTTPException 404 "Course not found")),
             enrollments)
        | Some _ =>
            match
              find_one
                (fun e => student_id e = c_student_id enrollment /\
                          course_id e = c_course_id enrollment)
                enrollments
            with
            | Some _ =>
                (Raises
                   (Exn (HTTPException 400
                           "Already enrolled in this course")),
                 enrollments)
            | None =>
                let enrollment_data :=
                  {| student_id := c_student_id enrollment;
                     course_id := c_course_id enrollment;
                     enrolled_at := c_enrolled_at enrollment;
                     status := c_status enrollment;
                     progress_percentage := 0 |} in
                (respond enrollment_data inserted_id,
                 insert_one enrollment_data enrollments)
            end
        end
    end.

End Routes.

End Enrollments.

Definition sample_assignment : Assignments.t :=
  {| Assignments._id := "a1"; Assignments.created_by := "f1";
     Assignments.assigned_to := ["u1"; "u2"];
     Assignments.submissions := [] |}.

(** Identifiers that are read as they are written. *)
Definition sample_object_id (s : string) : option string := Some s.

(** * Properties *)

(** ** Comparison and rounding *)

Lemma Qlt_bool_iff x y : Qlt_bool x y = true <-> (x < y)%Q.
Proof.
  unfold Qlt_bool. rewrite negb_true_iff. split.
  - intros H. apply Qnot_le_lt. intros Hle.
    apply Qle_bool_iff in Hle. congruence.
  - intros H. destruct (Qle_bool y x) eqn:E; [|reflexivity].
    apply Qle_bool_iff in E. exfalso. exact (Qlt_not_le _ _ H E).
Qed.

Lemma Qlt_bool_false_iff x y : Qlt_bool x y = false <-> (y <= x)%Q.
Proof.
  unfold Qlt_bool. rewrite negb_false_iff. apply Qle_bool_iff.
Qed.

Example round2_down : round2 (2.674)%Q = (267 # 100)%Q.
Proof. reflexivity. Qed.

Example round2_tie_to_even : round2 (0.125)%Q = (12 # 100)%Q.
Proof. reflexivity. Qed.

Example round2_tie_up_to_even : round2 (0.375)%Q = (38 # 100)%Q.
Proof. reflexivity. Qed.

Example round2_negative_tie : round2 (-0.025)%Q = (-2 # 100)%Q.
Proof. reflexivity. Qed.

Example py_int_truncates : py_int (-3.7)%Q = (-3)%Z /\ py_int (3.7)%Q = 3%Z.
Proof. split; reflexivity. Qed.

(** ** Test scoring *)

Section TestScoring.
Import TestService.

Lemma py_index_lookup {A} (l : list A) i a :
  l !! i = Some a -> py_index l i = Return a.
Proof. intros H. unfold py_index. by rewrite H. Qed.

(** The loop never indexes past the answers when as many answers as
    questions remain, and it accumulates the two sums. *)
Lemma loop_sums questions : forall i answers st,
  length (drop i answers) = length questions ->
  exists st',
    loop i questions answers st = Return st' /\
    a_score st' = (a_score st + marks_earned questions (drop i answers))%Z /\
    a_total_marks st' = (a_total_marks st + marks_available questions)%Z.
Proof.
  induction questions as [|q qs IH]; intros i answers st Hlen.
  - exists st. destruct (drop i answers); simpl in *; split_and!; [done|lia..].
  - destruct (answers !! i) as [a|] eqn:Ha.
    + rewrite (drop_S _ _ _ Ha) in Hlen |- *. simpl in Hlen.
      cbn [loop]. rewrite (py_index_lookup _ _ _ Ha). cbn [bind].
      edestruct (IH (S i) answers) as (st' & Hrun & Hs & Ht); [lia|].
      exists st'. split; [exact Hrun|].
      rewrite Hs, Ht. cbn [a_score a_total_marks marks_earned marks_available].
      destruct (a =? correct_answer q)%Z; split; lia.
    + apply lookup_ge_None in Ha. rewrite drop_ge in Hlen by lia.
      simpl in Hlen. lia.
Qed.

End TestScoring.

(** With as many answers as questions the evaluation is returned, with the
    two sums. *)
Lemma evaluate_test_equal_lengths :
  forall questions answers student_id test_id utcnow,
    length answers = length questions ->
    exists e,
      TestService.evaluate_test questions answers student_id test_id utcnow
        = Return (TestService.Evaluated e) /\
      TestService.score e = TestService.marks_earned questions answers /\
      TestService.total_marks e = TestService.marks_available questions /\
      TestService.percentage e =
        round2 (if (0 <? TestService.total_marks e)%Z
                then inject_Z (TestService.score e)
                     / inject_Z (TestService.total_marks e) * 100
                else 0).
Proof.
  intros questions answers student_id test_id utcnow Hlen.
  unfold TestService.evaluate_test.
  rewrite Hlen, Nat.eqb_refl. cbn [negb].
  destruct (loop_sums questions 0 answers
              {| TestService.a_score := 0; TestService.a_total_marks := 0;
                 TestService.a_detailed_results := [] |})
    as (st & Hrun & Hs & Ht); [by rewrite drop_0|].
  rewrite Hrun. cbn [bind]. eexists. split; [reflexivity|].
  rewrite drop_0 in Hs. cbn in Hs, Ht |- *.
  split_and!; [lia | lia | reflexivity].
Qed.




(** C9. With a number of answers different from the number of questions
    [evaluate_test] returns the error dictionary, which holds no score;
    and on no input does it raise [IndexError]. *)
Theorem evaluate_test_mismatch_and_bounds :
  forall questions answers student_id test_id utcnow,
    (length answers <> length questions ->
       TestService.evaluate_test questions answers student_id test_id utcnow
         = Return (TestService.Error
                     "Number of answers doesn't match number of questions")) /\
    TestService.evaluate_test questions answers student_id test_id utcnow
      <> Raise IndexError.
Proof.
  intros questions answers student_id test_id utcnow.
  destruct (decide (length answers = length questions)) as [Heq|Hne].
  - split; [done|].
    destruct (evaluate_test_equal_lengths questions answers student_id
                test_id utcnow Heq) as (e & -> & _); discriminate.
  - assert (TestService.evaluate_test questions answers student_id test_id
              utcnow
            = Return (TestService.Error
                "Number of answers doesn't match number of questions")) as ->.
    { unfold TestService.evaluate_test.
      apply Nat.eqb_neq in Hne. by rewrite Hne. }
    split; [done|discriminate].
Qed.

(** ** Payment fees *)

Lemma Qlt_bool_proper x x' y y' :
  (x == x')%Q -> (y == y')%Q -> Qlt_bool x y = Qlt_bool x' y'.
Proof.
  intros Hx Hy. unfold Qlt_bool. f_equal. by apply Qleb_comp.
Qed.

Lemma round_half_even_proper x y :
  (x == y)%Q -> round_half_even x = round_half_even y.
Proof.
  intros Hxy. unfold round_half_even.
  rewrite (Qfloor_comp _ _ Hxy).
  rewrite (Qlt_bool_proper (x - inject_Z (Qfloor y))
             (y - inject_Z (Qfloor y)) (1 # 2) (1 # 2))
    by (rewrite ?Hxy; reflexivity).
  rewrite (Qlt_bool_proper (1 # 2) (1 # 2) (x - inject_Z (Qfloor y))
             (y - inject_Z (Qfloor y)))
    by (rewrite ?Hxy; reflexivity).
  reflexivity.
Qed.


Section PaymentFees.
Import PaymentService.




End PaymentFees.

Example razorpay_card_fee :
  PaymentService._calculate_fees 1000 "razorpay" "card" = (2990 # 100)%Q.
Proof. vm_compute. reflexivity. Qed.

Example razorpay_upi_fee :
  PaymentService._calculate_fees 1000 "razorpay" "upi" = (0 # 100)%Q.
Proof. vm_compute. reflexivity. Qed.

Example paypal_wallet_fee :
  PaymentService._calculate_fees 50 "paypal" "wallet" = (175 # 100)%Q.
Proof. vm_compute. reflexivity. Qed.


(** ** The store operations *)

Section Store.
Context {A : Type} (P : A -> Prop) `{forall x, Decision (P x)}.

Lemma find_one_Some (l : list A) x :
  find_one P l = Some x <-> exists i, list_find P l = Some (i, x).
Proof.
  unfold find_one. destruct (list_find P l) as [[i y]|]; simpl; split.
  - intros [= ->]. by exists i.
  - intros [j [= -> ->]]. done.
  - done.
  - intros [j ?]. done.
Qed.

Lemma find_one_None (l : list A) :
  find_one P l = None <-> list_find P l = None.
Proof.
  unfold find_one. destruct (list_find P l) as [[i y]|]; simpl; split; done.
Qed.

Lemma find_one_holds (l : list A) x : find_one P l = Some x -> P x.
Proof.
  intros [i Hi]%find_one_Some. apply list_find_Some in Hi. tauto.
Qed.

Lemma update_one_found (f : A -> A) (l : list A) i x :
  list_find P l = Some (i, x) -> update_one P f l = <[i := f x]> l.
Proof. intros Hf. unfold update_one. by rewrite Hf. Qed.

Lemma update_one_length (f : A -> A) (l : list A) :
  length (update_one P f l) = length l.
Proof.
  unfold update_one. destruct (list_find P l) as [[i y]|]; [|done].
  apply length_insert.
Qed.

(** A document is either left as it was, or it is the one [find_one]
    returns and it is rewritten. *)
Lemma update_one_lookup (f : A -> A) (l : list A) j q :
  l !! j = Some q ->
  update_one P f l !! j = Some q \/
  (find_one P l = Some q /\ update_one P f l !! j = Some (f q)).
Proof.
  intros Hj. unfold update_one, find_one.
  destruct (list_find P l) as [[i y]|] eqn:Hf; [|by left].
  pose proof Hf as (Hi & _ & _)%list_find_Some.
  destruct (decide (i = j)) as [->|Hne].
  - right. assert (y = q) as -> by congruence. split; [done|].
    apply list_lookup_insert_eq. by eapply lookup_lt_Some.
  - left. by rewrite list_lookup_insert_ne.
Qed.

End Store.



(** ** Refunds *)

Section Refunds.
Import PaymentService.




(** A refund that succeeds was asked of a completed payment, for no
    more than was paid, and makes exactly the three writes. *)
Lemma process_refund_success db utcnow uuid payment_id amount reason :
  refund_success
    (process_refund db utcnow uuid payment_id amount reason).1 = true ->
  exists i p,
    list_find (fun p => Payment.payment_id p = payment_id) (payments db)
      = Some (i, p) /\
    Payment.status p = "completed" /\
    (amount_or amount (Payment.amount p) <= Payment.amount p)%Q /\
    process_refund db utcnow uuid payment_id amount reason =
      (Refunded "Refund processed successfully" ("rfnd_" ++ uuid)
         (amount_or amount (Payment.amount p)) (Payment.gateway p),
       with_transactions
         (insert_one
            {| Transaction.user_id := Payment.user_id p;
               Transaction.amount := amount_or amount (Payment.amount p);
               Transaction.fee_amount := None;
               Transaction.type := "credit";
               Transaction.purpose := "refund";
               Transaction.reference_id := "rfnd_" ++ uuid;
               Transaction.gateway := Some (Payment.gateway p);
               Transaction.payment_method := None;
               Transaction.timestamp := utcnow;
               Transaction.metadata :=
                 [("original_payment_id", PStr payment_id);
                  ("reason", PStr reason)] |})
         (inc_wallet (Payment.user_id p)
            (amount_or amount (Payment.amount p))
            (with_payments
               (fun l =>
                  <[i := Payment.set_refunded ("rfnd_" ++ uuid)
                           (amount_or amount (Payment.amount p)) reason
                           utcnow p]> l)
               db))).
Proof.
  unfold process_refund.
  destruct (find_one _ (payments db)) as [p|] eqn:Hp; [|done].
  apply find_one_Some in Hp as [i Hi].
  destruct (String.eqb (Payment.status p) "completed") eqn:Hst;
    cbn [negb]; [|done].
  destruct (Qlt_bool _ _) eqn:Hlt; [done|].
  intros _. exists i, p.
  apply String.eqb_eq in Hst. apply Qlt_bool_false_iff in Hlt.
  split_and!; [done..|].
  f_equal. unfold with_payments. by rewrite (update_one_found _ _ _ _ _ Hi).
Qed.

End Refunds.


(** ** Payment verification *)

Section Verification.
Import PaymentService.
Variable getenv : string -> string -> string.
Variable hmac : string -> string -> string.


Lemma verify_payment_not_found db utcnow payment_id order_id sig data :
  find_one (fun p => Payment.payment_id p = payment_id) (payments db)
     = None ->
  verify_payment getenv hmac db utcnow payment_id order_id sig
    data
    = (VerifyFailure "Payment not found", db).
Proof. intros Hf. unfold verify_payment. by rewrite Hf. Qed.

Lemma verify_payment_expired db utcnow payment_id order_id sig data p :
  find_one (fun p => Payment.payment_id p = payment_id) (payments db)
    = Some p ->
  (Payment.expires_at p < utcnow)%Z ->
  verify_payment getenv hmac db utcnow payment_id order_id sig
    data
    = (VerifyFailure "Payment has expired",
       with_payments
         (update_one (fun p => Payment.payment_id p = payment_id)
            (Payment.set_status "expired")) db).
Proof.
  intros Hf Hexp. unfold verify_payment. rewrite Hf.
  apply Z.ltb_lt in Hexp. by rewrite Hexp.
Qed.

Lemma verify_payment_bad_signature db utcnow payment_id order_id sig data p :
  find_one (fun p => Payment.payment_id p = payment_id) (payments db)
    = Some p ->
  ~ (Payment.expires_at p < utcnow)%Z ->
  _verify_gateway_signature getenv hmac p sig data = false ->
  verify_payment getenv hmac db utcnow payment_id order_id sig
    data
    = (VerifyFailure "Invalid payment signature", db).
Proof.
  intros Hf Hexp Hsig. unfold verify_payment. rewrite Hf.
  apply Z.ltb_nlt in Hexp. by rewrite Hexp, Hsig.
Qed.

Lemma verify_payment_completed db utcnow payment_id order_id sig data p :
  find_one (fun p => Payment.payment_id p = payment_id) (payments db)
    = Some p ->
  ~ (Payment.expires_at p < utcnow)%Z ->
  _verify_gateway_signature getenv hmac p sig data = true ->
  exists db',
    verify_payment getenv hmac db utcnow payment_id order_id sig
    data
      = (Verified "Payment verified successfully" payment_id "completed"
           (Payment.amount p) (Payment.fee_amount p), db') /\
    payments db' =
      update_one (fun p => Payment.payment_id p = payment_id)
        (Payment.set_completed utcnow sig data) (payments db) /\
    users db' =
      (if decide (Payment.purpose p = "wallet_recharge")
       then alter (User.inc_wallet_balance (Payment.amount p))
                  (Payment.user_id p) (users db)
       else users db).
Proof.
  intros Hf Hexp Hsig. unfold verify_payment. rewrite Hf.
  apply Z.ltb_nlt in Hexp. rewrite Hexp, Hsig. cbn [negb].
  eexists. split; [reflexivity|].
  destruct (decide (Payment.purpose p = "wallet_recharge")); done.
Qed.

(** The four ways through [verify_payment]. *)
Lemma verify_payment_cases db utcnow payment_id order_id sig data :
  let v := verify_payment getenv hmac db utcnow payment_id order_id sig
    data in
  (v = (VerifyFailure "Payment not found", db) /\
   find_one (fun p => Payment.payment_id p = payment_id) (payments db)
     = None) \/
  (exists p,
     find_one (fun p => Payment.payment_id p = payment_id) (payments db)
    = Some p /\
     (Payment.expires_at p < utcnow)%Z /\
     v = (VerifyFailure "Payment has expired",
          with_payments
            (update_one (fun p => Payment.payment_id p = payment_id)
               (Payment.set_status "expired")) db)) \/
  (exists p,
     find_one (fun p => Payment.payment_id p = payment_id) (payments db)
    = Some p /\
     ~ (Payment.expires_at p < utcnow)%Z /\
     v = (VerifyFailure "Invalid payment signature", db)) \/
  (exists p,
     find_one (fun p => Payment.payment_id p = payment_id) (payments db)
    = Some p /\
     ~ (Payment.expires_at p < utcnow)%Z /\
     verify_success v.1 = true /\
     payments v.2 =
       update_one (fun p => Payment.payment_id p = payment_id)
         (Payment.set_completed utcnow sig data) (payments db) /\
     users v.2 =
       (if decide (Payment.purpose p = "wallet_recharge")
        then alter (User.inc_wallet_balance (Payment.amount p))
                   (Payment.user_id p) (users db)
        else users db)).
Proof.
  intros v. subst v.
  destruct (find_one (fun p => Payment.payment_id p = payment_id)
              (payments db)) as [p|] eqn:Hf.
  - right.
    destruct (decide (Payment.expires_at p < utcnow)%Z) as [Hexp|Hexp].
    + left. exists p. split_and!; [done..|].
      by eapply verify_payment_expired.
    + right.
      destruct (_verify_gateway_signature getenv hmac
                  p sig data) eqn:Hsig.
      * right. exists p.
        destruct (verify_payment_completed db utcnow payment_id order_id
                    sig data p Hf Hexp Hsig) as (db' & -> & Hp & Hu).
        by split_and!.
      * left. exists p. split_and!; [done..|].
        by eapply verify_payment_bad_signature.
  - left. split; [|done]. by apply verify_payment_not_found.
Qed.

End Verification.

(** A payment enters the store in status 'created', behind the payments
    already there. *)
Lemma initiate_payment_created getenv str_of_float db utcnow uuid1 uuid2 uuid3
    user_id amount currency purpose gateway metadata payment_method r db' :
  PaymentService.initiate_payment getenv str_of_float db utcnow uuid1 uuid2
    uuid3 user_id amount currency purpose gateway metadata payment_method
    = (Return r, db') ->
  exists p,
    payments db' = (payments db ++ [p])%list /\
    Payment.status p = "created" /\
    users db' = users db.
Proof.
  unfold PaymentService.initiate_payment.
  destruct (decide (gateway ∉ _)); [done|].
  destruct (decide (currency ∉ _)); [done|].
  destruct (decide (payment_method ∉ _)); [done|].
  intros [= _ <-]. eexists. split; [reflexivity|]. done.
Qed.

(** The writes of [verify_payment] and [process_refund] to one stored
    payment. *)
Section PaymentSteps.
Import PaymentService.
Variable getenv : string -> string -> string.
Variable hmac_sha256_hexdigest : string -> string -> string.

Lemma verify_payment_step db utcnow payment_id order_id sig data j q :
  let v := verify_payment getenv hmac_sha256_hexdigest db utcnow payment_id
             order_id sig data in
  payments db !! j = Some q ->
  exists q',
    payments v.2 !! j = Some q' /\
    (q' = q \/
     (find_one (fun p => Payment.payment_id p = payment_id) (payments db)
        = Some q /\
      ~ (Payment.expires_at q < utcnow)%Z /\
      verify_success v.1 = true /\
      q' = Payment.set_completed utcnow sig data q) \/
     (find_one (fun p => Payment.payment_id p = payment_id) (payments db)
        = Some q /\
      (Payment.expires_at q < utcnow)%Z /\
      verify_success v.1 = false /\
      q' = Payment.set_status "expired" q)).
Proof.
  intros v Hj.
  destruct (verify_payment_cases getenv hmac_sha256_hexdigest db utcnow
              payment_id order_id sig data)
    as [[Hv _]|[(p & Hf & Hexp & Hv)|[(p & Hf & Hexp & Hv)
       |(p & Hf & Hexp & Hok & Hp & _)]]]; fold v in Hv || fold v in Hok, Hp.
  - exists q. rewrite Hv. by split; [|left].
  - rewrite Hv. cbn [fst snd payments with_payments verify_success].
    destruct (update_one_lookup (fun p => Payment.payment_id p = payment_id)
                (Payment.set_status "expired") _ _ _ Hj) as [Hq|[Hq Hq']].
    + exists q. by split; [|left].
    + eexists. split; [exact Hq'|]. right; right.
      assert (p = q) as -> by congruence. done.
  - exists q. rewrite Hv. by split; [|left].
  - rewrite Hp.
    destruct (update_one_lookup (fun p => Payment.payment_id p = payment_id)
                (Payment.set_completed utcnow sig data) _ _ _ Hj)
      as [Hq|[Hq Hq']].
    + exists q. by split; [|left].
    + eexists. split; [exact Hq'|]. right; left.
      assert (p = q) as -> by congruence. done.
Qed.

Lemma process_refund_step db utcnow uuid payment_id amount reason j q :
  let r := process_refund db utcnow uuid payment_id amount reason in
  payments db !! j = Some q ->
  exists q',
    payments r.2 !! j = Some q' /\
    (q' = q \/
     (Payment.status q = "completed" /\ Payment.status q' = "refunded" /\
      refund_success r.1 = true)).
Proof.
  intros r Hj.
  destruct (refund_success r.1) eqn:Hok.
  - destruct (process_refund_success db utcnow uuid payment_id amount reason
                Hok) as (i & p & Hfind & Hst & _ & Hrun).
    subst r. rewrite Hrun. cbn [fst snd payments with_transactions inc_wallet
      with_users with_payments].
    pose proof Hfind as (Hi & _ & _)%list_find_Some.
    destruct (decide (i = j)) as [->|Hne].
    + eexists. split.
      * apply list_lookup_insert_eq. by eapply lookup_lt_Some.
      * right. assert (p = q) as -> by congruence. done.
    + exists q. split; [|by left]. by rewrite list_lookup_insert_ne.
  - exists q. split; [|by left].
    subst r. revert Hok. unfold process_refund.
    destruct (find_one _ (payments db)) as [p|]; [|done].
    destruct (negb _); [done|]. destruct (Qlt_bool _ _); done.
Qed.

End PaymentSteps.

(** C1 (as amended). The status of a stored payment is written by
    [verify_payment] and [process_refund] only, each under its own guard.
    [verify_payment] looks at the expiry time and not at the current
    status: it leaves every stored payment as it was, or moves the payment
    it found to 'completed' when that payment is not past [expires_at] (and
    then credits the wallet of its user exactly when the purpose is
    'wallet_recharge'), or marks it 'expired' and reports failure when it
    is past [expires_at]. [process_refund] leaves every stored payment as
    it was or moves a 'completed' payment to 'refunded'. No payment is
    added or removed by either, and [initiate_payment] only appends a
    payment in status 'created'. *)
Theorem payment_status_updates :
  forall getenv hmac db utcnow payment_id order_id sig data uuid amount reason,
    let v := PaymentService.verify_payment getenv hmac db utcnow payment_id
               order_id sig data in
    let r := PaymentService.process_refund db utcnow uuid payment_id amount
               reason in
    (forall str_of_float uuid1 uuid2 uuid3 user_id paid currency purpose
            gateway metadata payment_method i db',
       PaymentService.initiate_payment getenv str_of_float db utcnow uuid1
         uuid2 uuid3 user_id paid currency purpose gateway metadata
         payment_method = (Return i, db') ->
       exists p, payments db' = (payments db ++ [p])%list /\
                 Payment.status p = "created") /\
    (forall j q, payments db !! j = Some q ->
       exists q',
         payments v.2 !! j = Some q' /\
         (Payment.status q' = Payment.status q \/
          (Payment.status q' = "completed" /\
           ~ (Payment.expires_at q < utcnow)%Z /\
           PaymentService.verify_success v.1 = true) \/
          (Payment.status q' = "expired" /\
           (Payment.expires_at q < utcnow)%Z /\
           PaymentService.verify_success v.1 = false))) /\
    (forall p,
       find_one (fun p => Payment.payment_id p = payment_id) (payments db)
         = Some p ->
       (Payment.expires_at p < utcnow)%Z ->
       v.1 = PaymentService.VerifyFailure "Payment has expired" /\
       users v.2 = users db /\
       exists i,
         payments db !! i = Some p /\
         payments v.2 = <[i := Payment.set_status "expired" p]> (payments db)) /\
    (PaymentService.verify_success v.1 = true ->
     exists i p,
       find_one (fun p => Payment.payment_id p = payment_id) (payments db)
         = Some p /\
       payments db !! i = Some p /\
       ~ (Payment.expires_at p < utcnow)%Z /\
       payments v.2 =
         <[i := Payment.set_completed utcnow sig data p]> (payments db) /\
       users v.2 =
         (if decide (Payment.purpose p = "wallet_recharge")
          then alter (User.inc_wallet_balance (Payment.amount p))
                     (Payment.user_id p) (users db)
          else users db)) /\
    (PaymentService.verify_success v.1 = false -> users v.2 = users db) /\
    (forall j q, payments db !! j = Some q ->
       exists q',
         payments r.2 !! j = Some q' /\
         (Payment.status q' = Payment.status q \/
          (Payment.status q = "completed" /\
           Payment.status q' = "refunded" /\
           PaymentService.refund_success r.1 = true))) /\
    length (payments v.2) = length (payments db) /\
    length (payments r.2) = length (payments db).
Proof.
  intros getenv hmac db utcnow payment_id order_id sig data uuid amount reason
    v r.
  pose proof (verify_payment_cases getenv hmac db utcnow payment_id order_id
                sig data) as Hcases. fold v in Hcases.
  split_and!.
  - intros str_of_float uuid1 uuid2 uuid3 user_id paid currency purpose
      gateway metadata payment_method i db' Hrun.
    destruct (initiate_payment_created _ _ _ _ _ _ _ _ _ _ _ _ _ _ _ _ Hrun)
      as (p & Hp & Hst & _).
    by exists p.
  - intros j q Hj.
    destruct (verify_payment_step getenv hmac db utcnow payment_id order_id
                sig data j q Hj) as (q' & Hq' & Hstep).
    exists q'. split; [exact Hq'|].
    destruct Hstep as [->|[(_ & Hexp & Hok & ->)|(_ & Hexp & Hok & ->)]];
      [by left | right; left | right; right]; done.
  - intros p Hf Hexp.
    subst v.
    rewrite (verify_payment_expired getenv hmac db utcnow payment_id order_id
               sig data p Hf Hexp). cbn [fst snd].
    split_and!; [done..|].
    apply find_one_Some in Hf as [i Hi]. exists i.
    pose proof Hi as (Hp & _ & _)%list_find_Some. split; [done|].
    cbn [payments with_payments]. by apply update_one_found.
  - intros Hok.
    destruct Hcases as [[Hv _]|[(p & _ & _ & Hv)|[(p & _ & _ & Hv)
       |(p & Hf & Hexp & _ & Hp & Hu)]]];
      try (rewrite Hv in Hok; discriminate).
    pose proof Hf as [i Hi]%find_one_Some. exists i, p.
    pose proof Hi as (Hpi & _ & _)%list_find_Some.
    split_and!; [done..| |done].
    rewrite Hp. by apply update_one_found.
  - intros Hfail.
    destruct Hcases as [[Hv _]|[(p & _ & _ & Hv)|[(p & _ & _ & Hv)
       |(p & _ & _ & Hok & _)]]];
      try (by rewrite Hv); congruence.
  - intros j q Hj.
    destruct (process_refund_step db utcnow uuid payment_id amount reason
                j q Hj) as (q' & Hq' & Hstep).
    exists q'. split; [exact Hq'|].
    destruct Hstep as [->|?]; [by left | by right].
  - destruct Hcases as [[Hv _]|[(p & _ & _ & Hv)|[(p & _ & _ & Hv)
       |(p & _ & _ & _ & Hp & _)]]];
      try (by rewrite Hv); [|].
    + rewrite Hv. cbn [snd payments with_payments]. apply update_one_length.
    + rewrite Hp. apply update_one_length.
  - destruct (PaymentService.refund_success r.1) eqn:Hok.
    + destruct (process_refund_success db utcnow uuid payment_id amount
                  reason Hok) as (i & p & _ & _ & _ & Hrun).
      subst r. rewrite Hrun. cbn. apply length_insert.
    + subst r. revert Hok. unfold PaymentService.process_refund.
      destruct (find_one _ (payments db)) as [p|]; [|done].
      destruct (negb _); [done|]. destruct (Qlt_bool _ _); done.
Qed.

(** C1 (as stated) fails: a payment that is already 'refunded' and not
    yet past [expires_at] is moved back to 'completed' by [verify_payment],
    a step the lifecycle does not have, and the wallet is credited again. *)
Lemma verify_payment_leaves_lifecycle :
  let db := sample_db [sample_payment "refunded"] in
  let v := PaymentService.verify_payment sample_getenv sample_hmac db 10
             "pay_1" "order_1" (Some "whsec_1") None in
  Payment.status <$> payments db !! 0%nat = Some "refunded" /\
  Payment.status <$> payments v.2 !! 0%nat = Some "completed" /\
  PaymentService.verify_success v.1 = true /\
  User.wallet_balance <$> users db !! "u1" = Some 50%Q /\
  User.wallet_balance <$> users v.2 !! "u1" = Some (50 + 100)%Q /\
  ~ payment_lifecycle "refunded" "completed".
Proof.
  split_and!; try (vm_compute; reflexivity).
  unfold payment_lifecycle. intros [H|[[H _]|[H _]]]; discriminate.
Qed.

(** ** Booking a session *)

Section Booking.
Import StudentRoutes.

Lemma book_session_no_faculty db utcnow uuid inserted_id session user :
  ~ verified_faculty db (faculty_id session) ->
  book_session db utcnow uuid inserted_id session user =
    (Raise (HTTPException 404 "Faculty not found or not verified"), db).
Proof.
  intros Hno. unfold book_session.
  destruct (users db !! faculty_id session) as [f|] eqn:Hf; [|done].
  destruct (bool_decide (User.role f = "faculty")) eqn:Hr; [|done].
  destruct (User.verified f) eqn:Hv; [|done].
  exfalso. apply Hno. exists f. apply bool_decide_eq_true in Hr. done.
Qed.


End Booking.




(** ** Updating a session *)

Section SessionUpdates.
Import FacultyRoutes.

Lemma refund_due_iff st session :
  refund_due st session = true <->
  (st = Some rejected \/ st = Some cancelled) /\
  Session.payment_status session <> "refunded".
Proof.
  unfold refund_due.
  destruct st as [[]|]; rewrite ?negb_true_iff;
    (split; [intros Hne | intros [[?|?] Hne]]); try discriminate.
  - split; [by left|]. intros Heq. apply String.eqb_neq in Hne. done.
  - by apply String.eqb_neq.
  - split; [by right|]. intros Heq. apply String.eqb_neq in Hne. done.
  - by apply String.eqb_neq.
Qed.

(** The writes of [update_session] for a session that is found and owned
    by the caller; the notification comes after them. *)
Lemma update_session_owned db utcnow session_id update user i session :
  list_find (fun s => Session.session_id s = session_id) (sessions db)
    = Some (i, session) ->
  Session.faculty_id session = user ->
  let refund := refund_due (status update) session in
  let data :=
    {| u_updated_at := utcnow;
       u_status := status_name <$> status update;
       u_payment_status :=
         match status update with
         | Some accepted => Some "completed"
         | _ => if refund then Some "refunded" else None
         end;
       u_meeting_link := truthy (meeting_link update);
       u_notes := truthy (notes update) |} in
  let out := update_session db utcnow session_id update user in
  sessions out.2 = <[i := set_fields data session]> (sessions db) /\
  users out.2 =
    (if refund
     then alter (User.inc_wallet_balance (Session.amount session))
                (Session.student_id session) (users db)
     else users db) /\
  transactions out.2 =
    (if refund
     then (transactions db ++
           [{| Transaction.user_id := Session.student_id session;
               Transaction.amount := Session.amount session;
               Transaction.fee_amount := None;
               Transaction.type := "credit";
               Transaction.purpose := "Session refund: " ++ session_id;
               Transaction.reference_id := session_id;
               Transaction.gateway := None;
               Transaction.payment_method := None;
               Transaction.timestamp := utcnow;
               Transaction.metadata := [] |}])%list
     else transactions db).
Proof.
  intros Hfind Hown refund data out. subst out.
  unfold update_session.
  assert (find_one (fun s => Session.session_id s = session_id) (sessions db)
          = Some session) as -> by (apply find_one_Some; by exists i).
  rewrite Hown, String.eqb_refl. cbn [negb].
  fold refund. fold data.
  set (db1 := if refund then _ else db).
  assert (Hs1 : sessions db1 = sessions db) by (subst db1; by destruct refund).
  set (db2 := with_sessions _ db1).
  assert (Hs2 : sessions db2 = <[i := set_fields data session]> (sessions db)).
  { subst db2. cbn [sessions with_sessions]. rewrite Hs1.
    by apply update_one_found. }
  assert (Hu2 : users db2 =
    (if refund
     then alter (User.inc_wallet_balance (Session.amount session))
                (Session.student_id session) (users db)
     else users db)) by (subst db2 db1; by destruct refund).
  assert (Ht2 : transactions db2 = transactions db1) by reflexivity.
  destruct (users db2 !! user) as [faculty|]; cbn [fst snd];
    (split_and!; [done | done |]); cbn [transactions with_notifications];
    rewrite ?Ht2; subst db1; by destruct refund.
Qed.

End SessionUpdates.

Lemma book_session_pending db utcnow uuid inserted_id session user response :
  (StudentRoutes.book_session db utcnow uuid inserted_id session user).1
    = Return response ->
  exists s,
    sessions
      (StudentRoutes.book_session db utcnow uuid inserted_id session user).2
      = (sessions db ++ [s])%list /\
    Session.status s = "pending" /\
    Session.payment_status s = "pending".
Proof.
  unfold StudentRoutes.book_session.
  destruct (users db !! StudentRoutes.faculty_id session) as [f|]; [|done].
  destruct (bool_decide _ && User.verified f); [|done].
  destruct (users db !! user) as [student|]; [|done].
  destruct (Qlt_bool _ _); [done|].
  intros _. eexists. split; [reflexivity|]. done.
Qed.

(** C4 (as amended). A session is created in status 'pending'. For a
    session that exists and belongs to the calling faculty,
    [update_session] sets the status to the requested one of accepted,
    rejected, completed and cancelled, whatever the status was. When the
    requested status is 'rejected' or 'cancelled' and the payment status
    is not 'refunded', the student's wallet is credited the session amount
    once, a credit transaction is appended and the payment status becomes
    'refunded'; nothing is credited otherwise, in particular never when
    the payment status is already 'refunded'. On 'accepted' the payment
    status becomes 'completed'. *)
Theorem session_status_updates :
  forall db utcnow uuid inserted_id booking session_id update user i session,
    let booked :=
      StudentRoutes.book_session db utcnow uuid inserted_id booking user in
    let out :=
      FacultyRoutes.update_session db utcnow session_id update user in
    (forall response, booked.1 = Return response ->
       exists s, sessions booked.2 = (sessions db ++ [s])%list /\
                 Session.status s = "pending") /\
    (list_find (fun s => Session.session_id s = session_id) (sessions db)
       = Some (i, session) ->
     Session.faculty_id session = user ->
     exists session',
       sessions out.2 = <[i := session']> (sessions db) /\
       (forall st, FacultyRoutes.status update = Some st ->
          Session.status session' = FacultyRoutes.status_name st) /\
       (FacultyRoutes.status update = None ->
          Session.status session' = Session.status session) /\
       (FacultyRoutes.status update = Some FacultyRoutes.accepted ->
          Session.payment_status session' = "completed") /\
       ((FacultyRoutes.status update = Some FacultyRoutes.rejected \/
         FacultyRoutes.status update = Some FacultyRoutes.cancelled) ->
        Session.payment_status session <> "refunded" ->
        Session.payment_status session' = "refunded" /\
        users out.2 =
          alter (User.inc_wallet_balance (Session.amount session))
                (Session.student_id session) (users db) /\
        exists t,
          transactions out.2 = (transactions db ++ [t])%list /\
          Transaction.type t = "credit" /\
          Transaction.user_id t = Session.student_id session /\
          Transaction.amount t = Session.amount session) /\
       (Session.payment_status session = "refunded" ->
        users out.2 = users db /\ transactions out.2 = transactions db) /\
       (FacultyRoutes.status update <> Some FacultyRoutes.rejected ->
        FacultyRoutes.status update <> Some FacultyRoutes.cancelled ->
        users out.2 = users db /\ transactions out.2 = transactions db)).
Proof.
  intros db utcnow uuid inserted_id booking session_id update user i session
    booked out.
  split.
  - intros response Hret.
    destruct (book_session_pending db utcnow uuid inserted_id booking user
                response Hret) as (s & Hs & Hst & _).
    by exists s.
  - intros Hfind Hown.
    destruct (update_session_owned db utcnow session_id update user i session
                Hfind Hown) as (Hs & Hu & Ht).
    fold out in Hs, Hu, Ht.
    pose proof (refund_due_iff (FacultyRoutes.status update) session) as Hdue.
    eexists. split; [exact Hs|].
    cbn [Session.status Session.payment_status FacultyRoutes.set_fields
         FacultyRoutes.u_status FacultyRoutes.u_payment_status].
    split_and!.
    + by intros st ->.
    + by intros ->.
    + by intros ->.
    + intros Hst Hne.
      assert (Hd : FacultyRoutes.refund_due (FacultyRoutes.status update)
                     session = true) by (by apply Hdue).
      rewrite Hd in Hu, Ht |- *. split_and!.
      * by destruct Hst as [-> | ->].
      * exact Hu.
      * eexists. split; [exact Ht|]. done.
    + intros Href.
      assert (Hd : FacultyRoutes.refund_due (FacultyRoutes.status update)
                     session = false).
      { apply not_true_is_false. intros E.
        apply Hdue in E as [_ E]. done. }
      by rewrite Hd in Hu, Ht.
    + intros Hnr Hnc.
      assert (Hd : FacultyRoutes.refund_due (FacultyRoutes.status update)
                     session = false).
      { apply not_true_is_false. intros E.
        apply Hdue in E as [[E|E] _]; done. }
      by rewrite Hd in Hu, Ht.
Qed.

Lemma session_status_updates_witness :
  let db := sample_sessions_db [sample_session "pending" "pending"] in
  let out := FacultyRoutes.update_session db 9 "sess_1"
               (sample_update FacultyRoutes.rejected) "f1" in
  exists session',
    sessions out.2 = [session'] /\
    Session.status session' = "rejected" /\
    Session.payment_status session' = "refunded" /\
    users out.2 =
      alter (User.inc_wallet_balance 30) "u1" (users db).
Proof.
  destruct (session_status_updates
              (sample_sessions_db [sample_session "pending" "pending"])
              9 "ab12" "id1" (sample_booking "f1" 30) "sess_1"
              (sample_update FacultyRoutes.rejected) "f1" 0%nat
              (sample_session "pending" "pending"))
    as (_ & Hupd).
  destruct Hupd as (session' & Hs & Hst & _ & _ & Href & _);
    [reflexivity | reflexivity |].
  exists session'. split; [exact Hs|].
  split; [exact (Hst _ eq_refl)|].
  destruct Href as (Hp & Hu & _); [by left | discriminate |].
  split; [exact Hp | exact Hu].
Defined.

(** C4 (as stated) fails: a session that is already 'rejected' is moved to
    'accepted' by a later update, and the acceptance resets the payment
    status, so a second rejection credits the student's wallet again: the
    balance goes 50, 80, 80, 110 for one session of amount 30. *)
Lemma update_session_leaves_lifecycle :
  let db0 := sample_sessions_db [sample_session "pending" "pending"] in
  let db1 := (FacultyRoutes.update_session db0 1 "sess_1"
                (sample_update FacultyRoutes.rejected) "f1").2 in
  let db2 := (FacultyRoutes.update_session db1 2 "sess_1"
                (sample_update FacultyRoutes.accepted) "f1").2 in
  let db3 := (FacultyRoutes.update_session db2 3 "sess_1"
                (sample_update FacultyRoutes.rejected) "f1").2 in
  Session.status <$> sessions db1 !! 0%nat = Some "rejected" /\
  Session.status <$> sessions db2 !! 0%nat = Some "accepted" /\
  ~ session_lifecycle "rejected" "accepted" /\
  User.wallet_balance <$> users db0 !! "u1" = Some 50%Q /\
  User.wallet_balance <$> users db1 !! "u1" = Some (50 + 30)%Q /\
  User.wallet_balance <$> users db2 !! "u1" = Some (50 + 30)%Q /\
  User.wallet_balance <$> users db3 !! "u1" = Some (50 + 30 + 30)%Q /\
  length (transactions db3) = 2%nat.
Proof.
  split_and!; try (vm_compute; reflexivity).
  unfold session_lifecycle. intros [H|(H & _)]; [discriminate|done].
Qed.

(** ** The response envelope *)

(** C6 (as amended). A success response of [app/utils/helpers.py] has
    exactly the keys success (true), message and data; a success response
    of [app/utils/enhanced_responses.py] has the keys success (true),
    message and timestamp, then data exactly when the data is not [None],
    then meta exactly when a non-empty meta is given. *)
Theorem success_response_keys :
  forall data message status_code meta isoformat,
    dict_keys (Helpers.success_response data message)
      = ["success"; "message"; "data"] /\
    dict_get (Helpers.success_response data message) "success"
      = Some (PBool true) /\
    dict_keys (EnhancedResponses.success_response data message status_code
                 meta isoformat)
      = (["success"; "message"; "timestamp"]
         ++ (match data with PNone => [] | _ => ["data"] end)
         ++ (match meta with Some (_ :: _) => ["meta"] | _ => [] end))%list /\
    dict_get (EnhancedResponses.success_response data message status_code
                meta isoformat) "success"
      = Some (PBool true).
Proof.
  intros data message status_code meta isoformat.
  split_and!; try reflexivity.
  - destruct data, meta as [[|]|]; reflexivity.
  - destruct data, meta as [[|]|]; reflexivity.
Qed.

(** C6 (as stated) fails: the helper used by most routes returns no
    timestamp, and the enhanced helper returns no data key for [None] and
    a fifth key, meta, when meta is given. *)
Lemma success_response_not_uniform :
  ("timestamp" ∉
     dict_keys (Helpers.success_response (PStr "x") "Success")) /\
  ("data" ∉
     dict_keys (EnhancedResponses.success_response PNone "Success" 200
                  None "2026-01-01T00:00:00")) /\
  ("meta" ∈
     dict_keys (EnhancedResponses.success_response (PInt 1) "Success"
                  200 (Some [("total_count", PInt 1)])
                  "2026-01-01T00:00:00")).
Proof.
  split_and!; apply (bool_decide_unpack _); vm_compute; exact I.
Qed.

(** ** The rate limiter *)

Section Limiter.
Import RateLimiter.

Lemma rate_limit_window limit_type : (rate_limit limit_type).2 = 60%Q.
Proof.
  unfold rate_limit, rate_limits. cbn [PaymentService.get].
  repeat case_decide; reflexivity.
Qed.

Lemma recent_iff now window t :
  recent now window t = true <-> (now - t < window)%Q.
Proof. apply Qlt_bool_iff. Qed.

Lemma recent_earlier now now' window t :
  (now <= now')%Q -> recent now' window t = true -> recent now window t = true.
Proof. rewrite !recent_iff. intros. lra. Qed.

Lemma filter_filter_weaker {A} (f g : A -> bool) (l : list A) :
  (forall x, f x = true -> g x = true) ->
  List.filter f (List.filter g l) = List.filter f l.
Proof.
  intros Hfg. induction l as [|x l IH]; [done|]. simpl.
  destruct (g x) eqn:Hg, (f x) eqn:Hf; simpl; rewrite ?Hf, ?IH; try done.
  apply Hfg in Hf. congruence.
Qed.

Lemma admitted_snoc key log c ok :
  admitted key (log ++ [(c, ok)]) =
    (admitted key log ++
     (if ok && bool_decide (client c = key) then [at_time c] else []))%list.
Proof.
  unfold admitted. rewrite List.filter_app, fmap_app. f_equal.
  simpl. by destruct (ok && bool_decide (client c = key)).
Qed.

(** What [is_allowed] answers and what it leaves for the key. *)
Lemma is_allowed_spec rs now key limit_type :
  let kept := List.filter (recent now 60) (times_of rs key) in
  let ok := negb ((rate_limit limit_type).1 <=? Z.of_nat (length kept))%Z in
  (is_allowed rs now key limit_type).1 = ok /\
  times_of (is_allowed rs now key limit_type).2 key =
    (kept ++ (if ok then [now] else []))%list /\
  forall key', key' <> key ->
    times_of (is_allowed rs now key limit_type).2 key' = times_of rs key'.
Proof.
  intros kept ok. subst kept ok. unfold is_allowed.
  pose proof (rate_limit_window limit_type) as Hw.
  destruct (rate_limit limit_type) as [limit window]. simpl in Hw. subst window.
  cbn [fst snd]. unfold times_of.
  destruct (limit <=? _)%Z; cbn [fst snd negb]; split_and!; try done.
  - by rewrite lookup_insert_eq, app_nil_r.
  - intros key' Hne. by rewrite lookup_insert_ne.
  - by rewrite lookup_insert_eq.
  - intros key' Hne. by rewrite !lookup_insert_ne.
Qed.

Lemma agrees_empty : agrees ∅ [].
Proof. intros key now _. unfold times_of. by rewrite lookup_empty. Qed.

(** Serving one more request keeps the agreement, and the request is
    admitted exactly when fewer than the limit were admitted for its key
    within the window before it. *)
Lemma is_allowed_agrees rs log c :
  agrees rs log ->
  Forall (fun e => (at_time e.1 <= at_time c)%Q) log ->
  let out := is_allowed rs (at_time c) (client c) (limit_type c) in
  agrees out.2 (log ++ [(c, out.1)]) /\
  out.1 = negb ((rate_limit (limit_type c)).1 <=?
                Z.of_nat (length (List.filter (recent (at_time c) 60)
                                    (admitted (client c) log))))%Z.
Proof.
  intros Hag Hle out.
  destruct (is_allowed_spec rs (at_time c) (client c) (limit_type c))
    as (Hok & Hkey & Hother). fold out in Hok, Hkey, Hother.
  rewrite (Hag (client c) (at_time c) Hle) in Hok, Hkey.
  rewrite <- Hok in Hkey.
  split; [|exact Hok].
  intros key now Hnow.
  apply Forall_app in Hnow as [Hnow Hc].
  apply Forall_inv in Hc. cbn [fst] in Hc.
  rewrite admitted_snoc, List.filter_app.
  destruct (decide (key = client c)) as [->|Hne].
  - rewrite Hkey, List.filter_app, bool_decide_eq_true_2 by done.
    rewrite andb_true_r. f_equal.
    rewrite filter_filter_weaker; [by rewrite <- Hag|].
    intros t. apply recent_earlier. exact Hc.
  - rewrite (Hother key Hne), (Hag key now Hnow).
    rewrite bool_decide_eq_false_2 by done.
    by rewrite andb_false_r, app_nil_r.
Qed.

(** The agreement carried along a whole sequence of requests. *)
Lemma serve_agrees calls : forall rs log prev,
  agrees rs log ->
  Forall (fun e => (at_time e.1 <= prev)%Q) log ->
  monotone prev calls ->
  forall pre c ok post,
    serve rs calls = (pre ++ (c, ok) :: post)%list ->
    ok = negb ((rate_limit (limit_type c)).1 <=?
               Z.of_nat (length (List.filter (recent (at_time c) 60)
                                   (admitted (client c) (log ++ pre)))))%Z.
Proof.
  induction calls as [|c0 cs IH]; intros rs log prev Hag Hprev Hmono
    pre c ok post Hserve.
  - destruct pre; discriminate.
  - destruct Hmono as [Hle Hmono].
    assert (Hlog : Forall (fun e => (at_time e.1 <= at_time c0)%Q) log).
    { eapply Forall_impl; [exact Hprev|]. intros e He. simpl in He. lra. }
    destruct (is_allowed_agrees rs log c0 Hag Hlog) as [Hag' Hok].
    cbn [serve] in Hserve.
    destruct (is_allowed rs (at_time c0) (client c0) (limit_type c0))
      as [ok0 rs'] eqn:Hrun.
    cbn [fst snd] in Hag', Hok.
    destruct pre as [|e pre].
    + injection Hserve as -> -> _. by rewrite app_nil_r.
    + injection Hserve as <- Hserve.
      rewrite (IH rs' (log ++ [(c0, ok0)])%list (at_time c0) Hag'
                 ltac:(apply Forall_app; split;
                         [exact Hlog | apply Forall_singleton; simpl; lra])
                 Hmono pre c ok post Hserve).
      by rewrite <- app_assoc.
Qed.

End Limiter.

(** C7. The limits are the configured ones (5 per 60 seconds for 'auth',
    100 per 60 seconds for 'api'). Along any sequence of requests served
    from the empty state with a clock that does not run backwards, a
    request is admitted exactly when fewer than the limit of its type were
    admitted for its key within the window before it, so it is refused
    while the window still holds that many, and with an admitted request
    the window holds at most the limit. On every call the times that are
    a window old or older are dropped from the state of the key. *)
Theorem rate_limiter_window :
  RateLimiter.rate_limit "auth" = (5%Z, 60%Q) /\
  RateLimiter.rate_limit "api" = (100%Z, 60%Q) /\
  (forall calls prev pre c ok post,
     RateLimiter.monotone prev calls ->
     RateLimiter.serve ∅ calls = (pre ++ (c, ok) :: post)%list ->
     let limit := (RateLimiter.rate_limit (RateLimiter.limit_type c)).1 in
     let window := (RateLimiter.rate_limit (RateLimiter.limit_type c)).2 in
     let within log :=
       List.filter (RateLimiter.recent (RateLimiter.at_time c) window)
         (RateLimiter.admitted (RateLimiter.client c) log) in
     (ok = true <-> (Z.of_nat (length (within pre)) < limit)%Z) /\
     (ok = true ->
      (Z.of_nat (length (within (pre ++ [(c, ok)])%list)) <= limit)%Z)) /\
  (forall rs now key limit_type,
     let limit := (RateLimiter.rate_limit limit_type).1 in
     let window := (RateLimiter.rate_limit limit_type).2 in
     let kept :=
       List.filter (RateLimiter.recent now window)
         (RateLimiter.times_of rs key) in
     let out := RateLimiter.is_allowed rs now key limit_type in
     (out.1 = false <-> (limit <= Z.of_nat (length kept))%Z) /\
     RateLimiter.times_of out.2 key
       = (kept ++ (if out.1 then [now] else []))%list /\
     Forall (fun t => (now - t < window)%Q) kept).
Proof.
  split; [reflexivity|]. split; [reflexivity|]. split.
  - intros calls prev pre c ok post Hmono Hserve limit window within.
    pose proof (serve_agrees calls ∅ [] prev agrees_empty (Forall_nil_2 _)
                  Hmono pre c ok post Hserve) as Hok.
    rewrite app_nil_l in Hok.
    assert (Hw : window = 60%Q) by apply rate_limit_window.
    subst within. cbn beta. rewrite Hw. fold limit in Hok.
    assert (Hiff : ok = true <->
      (Z.of_nat (length (List.filter
         (RateLimiter.recent (RateLimiter.at_time c) 60)
         (RateLimiter.admitted (RateLimiter.client c) pre))) < limit)%Z).
    { rewrite Hok, negb_true_iff, Z.leb_gt. done. }
    split; [exact Hiff|].
    intros Htrue. apply Hiff in Htrue.
    rewrite admitted_snoc, List.filter_app, length_app.
    destruct (ok && _); simpl; [destruct (RateLimiter.recent _ _ _)|];
      simpl; lia.
  - intros rs now key limit_type limit window kept out.
    destruct (is_allowed_spec rs now key limit_type) as (Hok & Hkey & _).
    fold out in Hok, Hkey.
    assert (Hw : window = 60%Q) by apply rate_limit_window.
    subst kept. rewrite Hw. split_and!.
    + rewrite Hok, negb_false_iff. fold limit. apply Z.leb_le.
    + rewrite Hkey. by rewrite <- Hok.
    + apply Forall_forall. intros t Ht.
      apply list_elem_of_In, List.filter_In in Ht as [_ Ht].
      by apply recent_iff.
Qed.

Lemma rate_limiter_window_witness :
  snd <$> RateLimiter.serve ∅ six_auth_calls
    = [true; true; true; true; true; false] /\
  (false = true <-> (5 < 5)%Z).
Proof.
  split; [vm_compute; reflexivity|].
  destruct rate_limiter_window as (_ & _ & Hserve & _).
  assert (Hmono : RateLimiter.monotone 0 six_auth_calls).
  { cbn. repeat split; apply Qle_bool_iff; reflexivity. }
  assert (Hrun : RateLimiter.serve ∅ six_auth_calls =
    (((fun c => (c, true)) <$> (auth_call <$> [0; 1; 2; 3; 4]%Q))
     ++ (auth_call 5, false) :: [])%list) by (vm_compute; reflexivity).
  destruct (Hserve six_auth_calls 0%Q _ _ _ _ Hmono Hrun) as [Hiff _].
  exact Hiff.
Defined.

(** ** One-time passwords *)

Section OneTimePasswords.
Import OTPService.

Lemma valid_is_unused email otp_code purpose utcnow o :
  valid_for email otp_code purpose utcnow o ->
  unused_for email otp_code purpose o.
Proof. unfold valid_for, unused_for. tauto. Qed.

Lemma set_used_not_unused email otp_code purpose o :
  ~ unused_for email otp_code purpose (OTP.set_used o).
Proof. unfold unused_for. cbn. intros (_ & _ & _ & ?). done. Qed.

(** The two answers of [verify_otp]. *)
Lemma verify_otp_cases db utcnow email otp_code purpose :
  let out := verify_otp db utcnow email otp_code purpose in
  (out.1 = true /\
   exists i o,
     list_find (valid_for email otp_code purpose utcnow) (otps db)
       = Some (i, o) /\
     otps out.2 = <[i := OTP.set_used o]> (otps db)) \/
  (out.1 = false /\ out.2 = db /\
   list_find (valid_for email otp_code purpose utcnow) (otps db) = None).
Proof.
  intros out. subst out. unfold verify_otp.
  destruct (list_find _ (otps db)) as [[i o]|] eqn:Hf.
  - left. split; [done|]. by exists i, o.
  - by right.
Qed.

(** Marking one unused matching OTP as used lowers the count by one. *)
Lemma unused_count_consume email otp_code purpose (l : list OTP.t) i o :
  l !! i = Some o ->
  unused_for email otp_code purpose o ->
  S (unused_count email otp_code purpose (<[i := OTP.set_used o]> l))
    = unused_count email otp_code purpose l.
Proof.
  intros Hi Hun. unfold unused_count.
  rewrite insert_take_drop by (by eapply lookup_lt_Some).
  rewrite <- (take_drop_middle l i o Hi) at 3.
  rewrite !filter_app, !filter_cons.
  destruct (decide (unused_for email otp_code purpose o)); [|done].
  destruct (decide (unused_for email otp_code purpose (OTP.set_used o)))
    as [Hbad|_]; [by apply set_used_not_unused in Hbad|].
  rewrite !length_app. simpl. lia.
Qed.

Lemma verify_otp_count db utcnow email otp_code purpose :
  let out := verify_otp db utcnow email otp_code purpose in
  (unused_count email otp_code purpose (otps out.2)
   + (if out.1 then 1 else 0))%nat
    = unused_count email otp_code purpose (otps db).
Proof.
  intros out.
  destruct (verify_otp_cases db utcnow email otp_code purpose)
    as [(Hok & i & o & Hf & Hdb)|(Hok & Hdb & _)];
    fold out in Hok, Hdb; rewrite Hok, Hdb; [|lia].
  apply list_find_Some in Hf as (Hi & Hv & _).
  rewrite <- (unused_count_consume email otp_code purpose _ i o Hi);
    [lia | by eapply valid_is_unused].
Qed.

(** However often [verify_otp] is asked, it says yes at most as many
    times as there are unused OTPs stored for the email, code and
    purpose. *)
Lemma verify_each_bound times : forall db email otp_code purpose,
  length (filter (fun b => b = true)
            (verify_each db times email otp_code purpose))
    <= unused_count email otp_code purpose (otps db).
Proof.
  induction times as [|t rest IH]; intros db email otp_code purpose.
  - simpl. lia.
  - cbn [verify_each].
    pose proof (verify_otp_count db t email otp_code purpose) as Hc.
    cbn zeta in Hc.
    specialize (IH (verify_otp db t email otp_code purpose).2
                   email otp_code purpose).
    rewrite filter_cons.
    destruct ((verify_otp db t email otp_code purpose).1);
      [rewrite decide_True by done | rewrite decide_False by done];
      simpl; lia.
Qed.

Lemma verify_otp_none_unused db utcnow email otp_code purpose :
  unused_count email otp_code purpose (otps db) = 0%nat ->
  (verify_otp db utcnow email otp_code purpose).1 = false.
Proof.
  intros Hz.
  pose proof (verify_otp_count db utcnow email otp_code purpose) as Hc.
  cbn zeta in Hc.
  destruct ((verify_otp db utcnow email otp_code purpose).1); [lia|done].
Qed.

(** What [resend_otp] leaves in the store. *)
Lemma resend_otp_store db utcnow otp_code email purpose :
  otps (resend_otp db utcnow otp_code email purpose).2 =
    (update_many (pending_for email purpose) OTP.set_used (otps db)
     ++ [{| OTP.email := email; OTP.otp_code := otp_code;
            OTP.purpose := purpose;
            OTP.expires_at :=
              (utcnow + PaymentService.minutes otp_expiry_minutes)%Z;
            OTP.is_used := false; OTP.created_at := utcnow |}])%list.
Proof. reflexivity. Qed.

Lemma update_many_lookup (l : list OTP.t) email purpose j o :
  l !! j = Some o ->
  update_many (pending_for email purpose) OTP.set_used l !! j =
    Some (if decide (pending_for email purpose o) then OTP.set_used o else o).
Proof.
  intros Hj. unfold update_many. by rewrite list_lookup_fmap, Hj.
Qed.

End OneTimePasswords.

(** C8 (as amended). [verify_otp] returns True only when an unused,
    unexpired OTP with the given email, code and purpose is stored, and it
    marks that OTP as used; a used OTP is never touched nor accepted
    again, so over any number of calls for the same email, code and
    purpose it returns True at most once per stored unused OTP, and after
    a success a later call returns False when no other unused OTP with
    that email, code and purpose is stored. [resend_otp] marks every
    unused OTP of the email and purpose as used, leaves the others as
    they are, and then appends the new, unused OTP. *)
Theorem otp_single_use :
  forall db utcnow email otp_code purpose,
    let out := OTPService.verify_otp db utcnow email otp_code purpose in
    (out.1 = true ->
     exists i o,
       otps db !! i = Some o /\
       OTPService.valid_for email otp_code purpose utcnow o /\
       otps out.2 = <[i := OTP.set_used o]> (otps db) /\
       OTP.is_used (OTP.set_used o) = true) /\
    (out.1 = false ->
     out.2 = db /\
     Forall (fun o => ~ OTPService.valid_for email otp_code purpose utcnow o)
            (otps db)) /\
    (forall j o, otps db !! j = Some o -> OTP.is_used o = true ->
       otps out.2 !! j = Some o) /\
    (forall times,
       length (filter (fun b => b = true)
                 (verify_each db times email otp_code purpose))
         <= unused_count email otp_code purpose (otps db)) /\
    (forall later,
       out.1 = true ->
       unused_count email otp_code purpose (otps db) = 1%nat ->
       (OTPService.verify_otp out.2 later email otp_code purpose).1 = false) /\
    (forall new_code,
       let r := OTPService.resend_otp db utcnow new_code email purpose in
       (forall j o, otps db !! j = Some o ->
          exists o',
            otps r.2 !! j = Some o' /\
            (OTP.email o = email -> OTP.purpose o = purpose ->
               OTP.is_used o' = true) /\
            (~ OTPService.pending_for email purpose o -> o' = o)) /\
       (exists new,
          otps r.2 !! length (otps db) = Some new /\
          OTP.otp_code new = new_code /\ OTP.email new = email /\
          OTP.purpose new = purpose /\ OTP.is_used new = false) /\
       length (otps r.2) = S (length (otps db))).
Proof.
  intros db utcnow email otp_code purpose out.
  pose proof (verify_otp_cases db utcnow email otp_code purpose) as Hcases.
  fold out in Hcases.
  split_and!.
  - intros Hok.
    destruct Hcases as [(_ & i & o & Hf & Hdb)|(Hno & _)]; [|congruence].
    apply list_find_Some in Hf as (Hi & Hv & _).
    by exists i, o.
  - intros Hno.
    destruct Hcases as [(Hok & _)|(_ & Hdb & Hf)]; [congruence|].
    split; [done|]. by apply (list_find_None _ (otps db)).
  - intros j o Hj Hused.
    destruct Hcases as [(_ & i & o' & Hf & Hdb)|(_ & Hdb & _)];
      [|by rewrite Hdb].
    apply list_find_Some in Hf as (Hi & Hv & _).
    rewrite Hdb. rewrite list_lookup_insert_ne; [done|].
    intros ->. destruct Hv as (_ & _ & _ & Hfresh & _). congruence.
  - intros times. apply verify_each_bound.
  - intros later Hok Hone.
    apply verify_otp_none_unused.
    pose proof (verify_otp_count db utcnow email otp_code purpose) as Hc.
    cbn zeta in Hc. fold out in Hc. rewrite Hok in Hc. lia.
  - intros new_code r. subst r.
    rewrite resend_otp_store. split_and!.
    + intros j o Hj.
      exists (if decide (OTPService.pending_for email purpose o)
              then OTP.set_used o else o).
      split_and!.
      * rewrite lookup_app_l
          by (unfold update_many; rewrite length_fmap;
              by eapply lookup_lt_Some).
        by apply update_many_lookup.
      * intros He Hp. destruct (decide _) as [_|Hn]; [done|].
        destruct (OTP.is_used o) eqn:Hu; [done|].
        exfalso. apply Hn. by split_and!.
      * intros Hn. by rewrite decide_False.
    + eexists. split.
      * rewrite lookup_app_r by (unfold update_many; by rewrite length_fmap).
        unfold update_many. by rewrite length_fmap, Nat.sub_diag.
      * done.
    + rewrite length_app. unfold update_many. rewrite length_fmap.
      simpl. lia.
Qed.

Lemma otp_single_use_witness :
  let db := (OTPService.create_otp empty_db 0 "482913" "a@example.com"
               "registration").2 in
  let out := OTPService.verify_otp db 5 "a@example.com" "482913"
               "registration" in
  out.1 = true /\
  (OTPService.verify_otp out.2 6 "a@example.com" "482913"
     "registration").1 = false.
Proof.
  split; [reflexivity|].
  destruct (otp_single_use
              (OTPService.create_otp empty_db 0 "482913" "a@example.com"
                 "registration").2
              5 "a@example.com" "482913" "registration")
    as (_ & _ & _ & _ & Hlater & _).
  apply Hlater; reflexivity.
Defined.

(** C8 (as stated) fails when two unused OTPs with the same email, code
    and purpose are stored, as after two registrations that draw the same
    code: the first call uses one of them, and the later call for the same
    email, code and purpose still returns True. *)
Lemma verify_otp_twice_same_code :
  let first := OTPService.verify_otp twice_same_code 5 "a@example.com"
                 "482913" "registration" in
  let later := OTPService.verify_otp first.2 6 "a@example.com" "482913"
                 "registration" in
  length (otps twice_same_code) = 2%nat /\
  first.1 = true /\
  later.1 = true /\
  (OTPService.verify_otp later.2 7 "a@example.com" "482913"
     "registration").1 = false.
Proof. split_and!; reflexivity. Qed.

(** ** The theorems at sample inputs *)

Lemma payment_status_updates_witness :
  let db := sample_db [sample_payment "created"] in
  let v := PaymentService.verify_payment sample_getenv sample_hmac db 10
             "pay_1" "order_1" (Some "whsec_1") None in
  (exists q',
     payments v.2 !! 0%nat = Some q' /\
     (Payment.status q' = "created" \/
      (Payment.status q' = "completed" /\ ~ (1000 < 10)%Z /\
       PaymentService.verify_success v.1 = true) \/
      (Payment.status q' = "expired" /\ (1000 < 10)%Z /\
       PaymentService.verify_success v.1 = false))) /\
  Payment.status <$> payments v.2 !! 0%nat = Some "completed".
Proof.
  split; [|reflexivity].
  destruct (payment_status_updates sample_getenv sample_hmac
              (sample_db [sample_payment "created"]) 10 "pay_1" "order_1"
              (Some "whsec_1") None "r1" None "customer_request")
    as (_ & Hstep & _).
  exact (Hstep 0%nat (sample_payment "created") eq_refl).
Defined.


Lemma evaluate_test_mismatch_and_bounds_witness :
  TestService.evaluate_test
    [{| TestService.question_text := "2 + 2";
        TestService.options := ["3"; "4"];
        TestService.correct_answer := 1;
        TestService.marks := 2 |}]
    [] "student" "test" 0
    = Return (TestService.Error
                "Number of answers doesn't match number of questions").
Proof.
  apply (proj1 (evaluate_test_mismatch_and_bounds
    [{| TestService.question_text := "2 + 2";
        TestService.options := ["3"; "4"];
        TestService.correct_answer := 1;
        TestService.marks := 2 |}]
    [] "student" "test" 0%Z)).
  simpl. lia.
Defined.


(** * The rest of the payment code: properties *)






(** What the service stores and returns when it accepts a request. *)
Lemma initiate_payment_accepted getenv str_of_float db utcnow uuid1 uuid2
    uuid3 user_id amount currency purpose gateway metadata payment_method
    r db' :
  PaymentService.initiate_payment getenv str_of_float db utcnow uuid1 uuid2
    uuid3 user_id amount currency purpose gateway metadata payment_method
    = (Return r, db') ->
  gateway ∈ PaymentService.supported_gateways /\
  currency ∈ PaymentService.supported_currencies /\
  payment_method ∈ PaymentService.supported_payment_methods /\
  exists p,
    db' = with_payments (insert_one p) db /\
    Payment.payment_id p = "pay_" ++ uuid1 /\
    PaymentService.i_payment_id r = "pay_" ++ uuid1 /\
    Payment.user_id p = user_id /\
    Payment.amount p = amount /\
    Payment.fee_amount p =
      PaymentService._calculate_fees amount gateway payment_method /\
    Payment.total_amount p = (amount + Payment.fee_amount p)%Q /\
    Payment.purpose p = purpose /\
    Payment.gateway p = gateway /\
    Payment.status p = "created" /\
    Payment.expires_at p = (utcnow + PaymentService.minutes 30)%Z.
Proof.
  unfold PaymentService.initiate_payment.
  destruct (decide (gateway ∉ _)) as [|Hg]; [done|].
  destruct (decide (currency ∉ _)) as [|Hc]; [done|].
  destruct (decide (payment_method ∉ _)) as [|Hm]; [done|].
  intros [= <- <-].
  split_and!; [by apply dec_stable..|].
  eexists. split; [reflexivity|]. done.
Qed.

Lemma initiate_payment_unsupported getenv str_of_float db utcnow uuid1 uuid2
    uuid3 user_id amount currency purpose gateway metadata payment_method :
  gateway ∉ PaymentService.supported_gateways \/
  currency ∉ PaymentService.supported_currencies \/
  payment_method ∉ PaymentService.supported_payment_methods ->
  exists msg,
    PaymentService.initiate_payment getenv str_of_float db utcnow uuid1 uuid2
      uuid3 user_id amount currency purpose gateway metadata payment_method
      = (Raise (ValueError msg), db).
Proof.
  intros H. unfold PaymentService.initiate_payment.
  destruct (decide (gateway ∉ _)) as [?|Hg]; [by eexists|].
  destruct (decide (currency ∉ _)) as [?|Hc]; [by eexists|].
  destruct (decide (payment_method ∉ _)) as [?|Hm]; [by eexists|].
  destruct H as [H|[H|H]]; contradiction.
Qed.

(** X1. The initiation route refuses an amount that is not positive, and a
    gateway, currency or payment method that is not supported, with HTTP
    400, and then stores nothing. *)
Theorem initiate_route_refusals :
  forall getenv str_of_float db utcnow uuid1 uuid2 uuid3 request user,
    let out :=
      PaymentRoutes.initiate_payment getenv str_of_float db utcnow uuid1
        uuid2 uuid3 request user in
    ((PaymentRoutes.amount request <= 0)%Q ->
     out = (Raise (HTTPException 400 "Amount must be greater than 0"), db)) /\
    ((0 < PaymentRoutes.amount request)%Q ->
     (PaymentRoutes.gateway request ∉ PaymentService.supported_gateways \/
      PaymentRoutes.currency request ∉ PaymentService.supported_currencies \/
      PaymentRoutes.payment_method request
        ∉ PaymentService.supported_payment_methods) ->
     exists msg, out = (Raise (HTTPException 400 msg), db)).
Proof.
  intros getenv str_of_float db utcnow uuid1 uuid2 uuid3 request user out.
  subst out. unfold PaymentRoutes.initiate_payment. split.
  - intros Hle. apply Qle_bool_iff in Hle. by rewrite Hle.
  - intros Hpos Hbad.
    destruct (Qle_bool _ 0) eqn:Hle.
    { apply Qle_bool_iff in Hle. exfalso. exact (Qlt_not_le _ _ Hpos Hle). }
    destruct (initiate_payment_unsupported getenv str_of_float db utcnow
                uuid1 uuid2 uuid3 user (PaymentRoutes.amount request)
                (PaymentRoutes.currency request)
                (PaymentRoutes.purpose request)
                (PaymentRoutes.gateway request)
                (PaymentRoutes.metadata request)
                (PaymentRoutes.payment_method request) Hbad) as [msg ->].
    by exists msg.
Qed.

Lemma initiate_route_refusals_witness :
  let request amount gateway :=
    {| PaymentRoutes.amount := amount; PaymentRoutes.currency := "USD";
       PaymentRoutes.purpose := "wallet_recharge";
       PaymentRoutes.gateway := gateway;
       PaymentRoutes.payment_method := "card";
       PaymentRoutes.metadata := None |} in
  PaymentRoutes.initiate_payment sample_getenv sample_str empty_db 0
    "a1" "b2" "c3" (request 0%Q "stripe") "u1"
  = (Raise (HTTPException 400 "Amount must be greater than 0"), empty_db) /\
  exists msg,
    PaymentRoutes.initiate_payment sample_getenv sample_str empty_db 0
      "a1" "b2" "c3" (request 100%Q "venmo") "u1"
    = (Raise (HTTPException 400 msg), empty_db).
Proof.
  intros request. split.
  - apply (proj1 (initiate_route_refusals sample_getenv sample_str empty_db
                    0 "a1" "b2" "c3" (request 0%Q "stripe") "u1")).
    apply Qle_refl.
  - apply (proj2 (initiate_route_refusals sample_getenv sample_str empty_db
                    0 "a1" "b2" "c3" (request 100%Q "venmo") "u1")).
    + reflexivity.
    + left. apply (bool_decide_unpack _). vm_compute. exact I.
Defined.



(** ** Signatures *)

Section Signatures.
Import PaymentService.
Variable getenv : string -> string -> string.
Variable hmac : string -> string -> string.

Lemma stripe_signature p sig data :
  Payment.gateway p = "stripe" ->
  _verify_gateway_signature getenv hmac p sig data = true <->
  exists s, sig = Some s /\ String.prefix "whsec_" s = true.
Proof.
  intros Hg. unfold _verify_gateway_signature. rewrite Hg.
  destruct (decide ("stripe" = "razorpay")) as [|_]; [done|].
  destruct (decide ("stripe" = "stripe")) as [_|]; [|done].
  destruct sig as [s|]; split.
  - intros H. apply andb_true_iff in H as [_ H]. by exists s.
  - intros (s' & [= <-] & H). rewrite H, andb_true_r.
    destruct s; [done|reflexivity].
  - done.
  - by intros (s & ? & _).
Qed.

Lemma no_signature p data :
  Payment.gateway p = "razorpay" \/ Payment.gateway p = "stripe" ->
  _verify_gateway_signature getenv hmac p None data = false.
Proof.
  intros [Hg|Hg]; unfold _verify_gateway_signature; rewrite Hg.
  - destruct (decide ("razorpay" = "razorpay")) as [_|]; [|done].
    by apply bool_decide_eq_false_2.
  - destruct (decide ("stripe" = "razorpay")) as [|_]; [done|].
    by destruct (decide ("stripe" = "stripe")).
Qed.

(** A verification that succeeds found the payment unexpired and its
    signature accepted. *)
Lemma verify_payment_success db utcnow payment_id order_id sig data :
  verify_success
    (verify_payment getenv hmac db utcnow payment_id order_id sig data).1
    = true ->
  exists i p,
    list_find (fun p => Payment.payment_id p = payment_id) (payments db)
      = Some (i, p) /\
    ~ (Payment.expires_at p < utcnow)%Z /\
    _verify_gateway_signature getenv hmac p sig data = true /\
    payments
      (verify_payment getenv hmac db utcnow payment_id order_id sig data).2
      = <[i := Payment.set_completed utcnow sig data p]> (payments db) /\
    users
      (verify_payment getenv hmac db utcnow payment_id order_id sig data).2
      = (if decide (Payment.purpose p = "wallet_recharge")
         then alter (User.inc_wallet_balance (Payment.amount p))
                    (Payment.user_id p) (users db)
         else users db) /\
    transactions
      (verify_payment getenv hmac db utcnow payment_id order_id sig data).2
      = (transactions db ++
         [{| Transaction.user_id := Payment.user_id p;
             Transaction.amount := Payment.amount p;
             Transaction.fee_amount := Some (Payment.fee_amount p);
             Transaction.type := "credit";
             Transaction.purpose := Payment.purpose p;
             Transaction.reference_id := payment_id;
             Transaction.gateway := Some (Payment.gateway p);
             Transaction.payment_method := Some (Payment.payment_method p);
             Transaction.timestamp := utcnow;
             Transaction.metadata := [] |}])%list.
Proof.
  unfold verify_payment.
  destruct (find_one _ (payments db)) as [p|] eqn:Hf; [|done].
  apply find_one_Some in Hf as [i Hi].
  destruct (Payment.expires_at p <? utcnow)%Z eqn:Hexp; [done|].
  destruct (_verify_gateway_signature getenv hmac p sig data) eqn:Hsig;
    [|done].
  intros _. exists i, p. apply Z.ltb_nlt in Hexp.
  cbn [negb fst snd].
  split_and!; try done.
  - destruct (decide _); cbn; by rewrite (update_one_found _ _ _ _ _ Hi).
  - by destruct (decide _).
  - by destruct (decide _).
Qed.

End Signatures.

(** X3. For a stored payment that is not past its expiry: when its
    gateway is 'stripe', [verify_payment] succeeds exactly when a signature
    is given and starts with "whsec_"; and without a signature a payment
    of gateway 'razorpay' or 'stripe' is not verified, the answer being
    'Invalid payment signature' and the store left as it was. *)
Theorem verify_payment_signature :
  forall getenv hmac db utcnow payment_id order_id sig data p,
    find_one (fun p => Payment.payment_id p = payment_id) (payments db)
      = Some p ->
    ~ (Payment.expires_at p < utcnow)%Z ->
    (Payment.gateway p = "stripe" ->
     (PaymentService.verify_success
        (PaymentService.verify_payment getenv hmac db utcnow payment_id
           order_id sig data).1 = true <->
      exists s, sig = Some s /\ String.prefix "whsec_" s = true)) /\
    (Payment.gateway p = "razorpay" \/ Payment.gateway p = "stripe" ->
     PaymentService.verify_payment getenv hmac db utcnow payment_id
       order_id None data
       = (PaymentService.VerifyFailure "Invalid payment signature", db)).
Proof.
  intros getenv hmac db utcnow payment_id order_id sig data p Hf Hexp.
  split.
  - intros Hg. rewrite <- (stripe_signature getenv hmac p sig data Hg).
    destruct (PaymentService._verify_gateway_signature getenv hmac p sig data)
      eqn:Hsig.
    + destruct (verify_payment_completed getenv hmac db utcnow payment_id
                  order_id sig data p Hf Hexp Hsig) as (db' & -> & _).
      done.
    + by rewrite (verify_payment_bad_signature getenv hmac db utcnow
                    payment_id order_id sig data p Hf Hexp Hsig).
  - intros Hg. apply (verify_payment_bad_signature _ _ _ _ _ _ _ _ p);
      [done..|]. by apply no_signature.
Qed.

Lemma verify_payment_signature_witness :
  PaymentService.verify_success
    (PaymentService.verify_payment sample_getenv sample_hmac
       (sample_db [sample_payment "created"]) 10 "pay_1" "order_1"
       (Some "whsec_1") None).1 = true /\
  PaymentService.verify_payment sample_getenv sample_hmac
    (sample_db [sample_payment "created"]) 10 "pay_1" "order_1" None None
    = (PaymentService.VerifyFailure "Invalid payment signature",
       sample_db [sample_payment "created"]).
Proof.
  destruct (verify_payment_signature sample_getenv sample_hmac
              (sample_db [sample_payment "created"]) 10 "pay_1" "order_1"
              (Some "whsec_1") None (sample_payment "created") eq_refl)
    as [Hstripe Hnone].
  - vm_compute. discriminate.
  - split.
    + apply (Hstripe eq_refl). exists "whsec_1". by split.
    + apply Hnone. by right.
Defined.

(** ** Webhooks *)

Section WebhookFacts.
Import PaymentWebhooks.
Variable getenv : string -> string -> string.
Variable hmac : string -> string -> string.
Variable py_str : py_value -> string.
Variable dict_slice_error : py_error.

(** The razorpay webhook either leaves the store alone or hands the event
    to [verify_payment] without a signature. *)
Lemma process_razorpay_webhook_cases db utcnow payload :
  let out :=
    _process_razorpay_webhook getenv hmac py_str dict_slice_error db utcnow
      payload in
  out.2 = db /\
  (forall r, out.1 = Returns r -> exists message, r = Processed true message)
  \/
  is_text (default PNone (dict_get payload "event")) "payment.captured"
    = true /\
  exists id order_id entity,
    out.1 = Returns (Verification
      (PaymentService.verify_payment getenv hmac db utcnow id order_id None
         (Some entity)).1) /\
    out.2 =
      (PaymentService.verify_payment getenv hmac db utcnow id order_id None
         (Some entity)).2.
Proof.
  intros out. subst out. unfold _process_razorpay_webhook.
  destruct (and_then _ _) as [payment_entity|e]; [|left; by split].
  destruct (is_text _ _) eqn:Hev.
  - destruct payment_entity as [| | | | | |entity]; try (left; by split).
    destruct (our_payment_id _ _ _) as [id|e]; [|left; by split].
    right. split; [done|].
    exists id, (order_id_text (default PNone (dict_get entity "order_id"))),
      entity.
    by destruct (PaymentService.verify_payment _ _ _ _ _ _ _ _).
  - left. split; [done|]. intros r [= <-]. by eexists.
Qed.

End WebhookFacts.

(** X4. [handle_webhook] writes to the store only for the razorpay event
    'payment.captured': a webhook of any other gateway, and a razorpay
    webhook with any other event, returns the store as it was, whatever
    the payload and the signature are; the stripe and paypal webhooks are
    always acknowledged, and a gateway that is none of the three is
    answered 'Unsupported gateway'. *)
Theorem handle_webhook_writes :
  forall getenv hmac py_str dict_slice_error db utcnow gateway payload sig,
    let out :=
      PaymentWebhooks.handle_webhook getenv hmac py_str dict_slice_error db
        utcnow gateway payload sig in
    (gateway <> "razorpay" \/
     is_text (default PNone (dict_get payload "event")) "payment.captured"
       = false ->
     out.2 = db) /\
    (gateway = "stripe" ->
     out.1 = Returns (PaymentWebhooks.Processed true
                        "Stripe webhook processed")) /\
    (gateway = "paypal" ->
     out.1 = Returns (PaymentWebhooks.Processed true
                        "PayPal webhook processed")) /\
    (gateway ∉ PaymentService.supported_gateways ->
     out.1 = Returns (PaymentWebhooks.Processed false
                        ("Unsupported gateway: " ++ gateway))).
Proof.
  intros getenv hmac py_str dict_slice_error db utcnow gateway payload sig
    out. subst out. unfold PaymentWebhooks.handle_webhook. cbn [negb
    PaymentWebhooks._verify_webhook_signature].
  split_and!.
  - intros Hno.
    destruct (decide (gateway = "razorpay")) as [->|_].
    + destruct Hno as [?|Hev]; [done|].
      destruct (process_razorpay_webhook_cases getenv hmac py_str
                  dict_slice_error db utcnow payload)
        as [[Hdb _]|[Hcap _]]; [exact Hdb | congruence].
    + by repeat destruct (decide _).
  - by intros ->.
  - by intros ->.
  - intros Hg. unfold PaymentService.supported_gateways in Hg.
    destruct (decide (gateway = "razorpay")) as [->|_]; [set_solver|].
    destruct (decide (gateway = "stripe")) as [->|_]; [set_solver|].
    destruct (decide (gateway = "paypal")) as [->|_]; [set_solver|].
    done.
Qed.

Lemma handle_webhook_writes_witness :
  PaymentWebhooks.handle_webhook sample_getenv sample_hmac
    (fun _ => "None") (Exn TypeError)
    (sample_db [sample_payment "created"]) 10 "stripe"
    [("type", PStr "payment_intent.succeeded")] None
  = (Returns (PaymentWebhooks.Processed true "Stripe webhook processed"),
     sample_db [sample_payment "created"]).
Proof.
  destruct (handle_webhook_writes sample_getenv sample_hmac
              (fun _ => "None") (Exn TypeError)
              (sample_db [sample_payment "created"]) 10 "stripe"
              [("type", PStr "payment_intent.succeeded")] None)
    as (Hdb & Hstripe & _).
  apply injective_projections; cbn [fst snd].
  - exact (Hstripe eq_refl).
  - apply Hdb. left. discriminate.
Defined.

(** X5. No webhook completes a payment whose gateway is 'razorpay' or
    'stripe': when every stored payment has one of these gateways,
    [handle_webhook] never answers with a successful verification, leaves
    wallets and transactions as they were, and leaves each payment as it
    was or marks it 'expired'. *)
Theorem handle_webhook_never_completes :
  forall getenv hmac py_str dict_slice_error db utcnow gateway payload sig,
    let out :=
      PaymentWebhooks.handle_webhook getenv hmac py_str dict_slice_error db
        utcnow gateway payload sig in
    Forall (fun p => Payment.gateway p = "razorpay" \/
                     Payment.gateway p = "stripe") (payments db) ->
    (forall r, out.1 = Returns (PaymentWebhooks.Verification r) ->
       PaymentService.verify_success r = false) /\
    users out.2 = users db /\
    transactions out.2 = transactions db /\
    (forall j q, payments db !! j = Some q ->
       payments out.2 !! j = Some q \/
       ((Payment.expires_at q < utcnow)%Z /\
        payments out.2 !! j = Some (Payment.set_status "expired" q))).
Proof.
  intros getenv hmac py_str dict_slice_error db utcnow gateway payload sig
    out Hall.
  assert (Hsame : out.2 = db ->
    (forall r, out.1 = Returns (PaymentWebhooks.Verification r) ->
       PaymentService.verify_success r = false) ->
    (forall r, out.1 = Returns (PaymentWebhooks.Verification r) ->
       PaymentService.verify_success r = false) /\
    users out.2 = users db /\
    transactions out.2 = transactions db /\
    (forall j q, payments db !! j = Some q ->
       payments out.2 !! j = Some q \/
       ((Payment.expires_at q < utcnow)%Z /\
        payments out.2 !! j = Some (Payment.set_status "expired" q)))).
  { intros -> Hr. split_and!; [exact Hr|done..|]. intros j q Hj. by left. }
  subst out. unfold PaymentWebhooks.handle_webhook in *.
  cbn [negb PaymentWebhooks._verify_webhook_signature] in *.
  destruct (decide (gateway = "razorpay")) as [_|_];
    [|repeat destruct (decide _); by apply Hsame].
  destruct (process_razorpay_webhook_cases getenv hmac py_str
              dict_slice_error db utcnow payload)
    as [[Hdb Hr]|(_ & id & order_id & entity & Hres & Hdb)].
  - apply Hsame; [exact Hdb|]. intros r Hout.
    destruct (Hr _ Hout) as [message ?]. done.
  - rewrite Hres, Hdb. clear Hsame Hres Hdb.
    assert (Hfail : PaymentService.verify_success
      (PaymentService.verify_payment getenv hmac db utcnow id order_id None
         (Some entity)).1 = false).
    { apply not_true_is_false. intros Hok.
      destruct (verify_payment_success getenv hmac db utcnow id order_id None
                  (Some entity) Hok) as (i & p & Hfind & _ & Hsig & _).
      apply list_find_Some in Hfind as (Hi & _ & _).
      rewrite (no_signature getenv hmac p (Some entity)) in Hsig; [done|].
      eapply Forall_lookup_1 in Hall; [exact Hall | exact Hi]. }
    destruct (verify_payment_cases getenv hmac db utcnow id order_id None
                (Some entity))
      as [[Hv _]|[(p & Hf & Hexp & Hv)|[(p & _ & _ & Hv)
         |(p & _ & _ & Hok & _)]]]; [| | |congruence].
    + rewrite Hv. split_and!; [by intros r [= <-]|done..|].
      intros j q Hj. by left.
    + rewrite Hv. cbn [fst snd]. split_and!; [by intros r [= <-]|done..|].
      intros j q Hj. cbn [payments with_payments].
      destruct (update_one_lookup (fun p => Payment.payment_id p = id)
                  (Payment.set_status "expired") _ _ _ Hj) as [Hq|[Hq Hq']].
      * by left.
      * right. split; [|exact Hq']. congruence.
    + rewrite Hv. split_and!; [by intros r [= <-]|done..|].
      intros j q Hj. by left.
Qed.

Lemma handle_webhook_never_completes_witness :
  let out :=
    PaymentWebhooks.handle_webhook sample_getenv sample_hmac
      (fun _ => "None") (Exn TypeError)
      (sample_db [sample_payment "created"]) 10 "razorpay"
      [("event", PStr "payment.captured");
       ("payload",
         PDict [("payment",
           PDict [("entity",
             PDict [("id", PStr "1"); ("status", PStr "COMPLETED")])])])]
      None in
  out.1 = Returns (PaymentWebhooks.Verification
                     (PaymentService.VerifyFailure
                        "Invalid payment signature")) /\
  users out.2 = users (sample_db [sample_payment "created"]).
Proof.
  split; [reflexivity|].
  refine (proj1 (proj2 (handle_webhook_never_completes sample_getenv
    sample_hmac (fun _ => "None") (Exn TypeError)
    (sample_db [sample_payment "created"]) 10 "razorpay" _ None _))).
  apply Forall_singleton. by right.
Defined.

(** ** A payment from initiation to refund *)

Section FindFacts.
Context {A : Type} (P : A -> Prop) `{forall x, Decision (P x)}.

Lemma list_find_snoc_fresh (l : list A) x :
  Forall (fun y => ~ P y) l -> P x ->
  list_find P (l ++ [x]) = Some (length l, x).
Proof.
  intros Hl Hx. apply list_find_Some. split_and!.
  - by rewrite lookup_app_r, Nat.sub_diag.
  - done.
  - intros j y Hj Hlt. rewrite lookup_app_l in Hj by done.
    eapply Forall_lookup_1 in Hl; [exact Hl | exact Hj].
Qed.

Lemma list_find_insert_same (l : list A) i x y :
  list_find P l = Some (i, x) -> P y ->
  list_find P (<[i := y]> l) = Some (i, y).
Proof.
  intros (Hi & _ & Hbefore)%list_find_Some Hy. apply list_find_Some.
  split_and!.
  - apply list_lookup_insert_eq. by eapply lookup_lt_Some.
  - done.
  - intros j z Hj Hlt. rewrite list_lookup_insert_ne in Hj by lia.
    by eapply Hbefore.
Qed.

End FindFacts.

(** X6. A payment that was just initiated under an identifier no stored
    payment has: verified more than thirty minutes later it is marked
    'expired', the failure 'Payment has expired' is reported and no wallet
    changes; and whenever its verification succeeds, at most thirty
    minutes have passed, the payment is 'completed', and the wallet of its
    user is credited with the amount (not the total with the fee) when the
    purpose is 'wallet_recharge' and not at all otherwise. *)
Theorem initiate_then_verify :
  forall getenv hmac str_of_float db t uuid1 uuid2 uuid3 user_id amount
         currency purpose gateway metadata payment_method r db1
         t' order_id sig data,
    PaymentService.initiate_payment getenv str_of_float db t uuid1 uuid2
      uuid3 user_id amount currency purpose gateway metadata payment_method
      = (Return r, db1) ->
    Forall (fun p => Payment.payment_id p <> "pay_" ++ uuid1) (payments db) ->
    let v := PaymentService.verify_payment getenv hmac db1 t'
               (PaymentService.i_payment_id r) order_id sig data in
    ((t + 30 * 60 * 1000000 < t')%Z ->
     v.1 = PaymentService.VerifyFailure "Payment has expired" /\
     users v.2 = users db /\
     Payment.status <$> payments v.2 !! length (payments db)
       = Some "expired") /\
    (PaymentService.verify_success v.1 = true ->
     (t' <= t + 30 * 60 * 1000000)%Z /\
     Payment.status <$> payments v.2 !! length (payments db)
       = Some "completed" /\
     users v.2 =
       (if decide (purpose = "wallet_recharge")
        then alter (User.inc_wallet_balance amount) user_id (users db)
        else users db)).
Proof.
  intros getenv hmac str_of_float db t uuid1 uuid2 uuid3 user_id amount
    currency purpose gateway metadata payment_method r db1 t' order_id sig
    data Hinit Hfresh v.
  destruct (initiate_payment_accepted _ _ _ _ _ _ _ _ _ _ _ _ _ _ _ _ Hinit)
    as (_ & _ & _ & p & -> & Hid & Hrid & Hu & Ha & _ & _ & Hpur & _ & _ & He).
  assert (Hfind :
    list_find (fun q => Payment.payment_id q = PaymentService.i_payment_id r)
      (payments (with_payments (insert_one p) db))
    = Some (length (payments db), p)).
  { cbn [payments with_payments]. unfold insert_one.
    apply list_find_snoc_fresh; [|congruence].
    eapply Forall_impl; [exact Hfresh|]. intros q Hq. cbn in Hq. congruence. }
  assert (Hone : find_one
    (fun q => Payment.payment_id q = PaymentService.i_payment_id r)
    (payments (with_payments (insert_one p) db)) = Some p).
  { apply find_one_Some. by eexists. }
  split.
  - intros Hlate.
    assert (Hexp : (Payment.expires_at p < t')%Z).
    { rewrite He. unfold PaymentService.minutes. lia. }
    subst v.
    rewrite (verify_payment_expired getenv hmac _ _ _ _ _ _ p Hone Hexp).
    cbn [fst snd users payments with_payments].
    split_and!; [done..|].
    rewrite (update_one_found _ _ _ _ _ Hfind).
    rewrite list_lookup_insert_eq; [done|].
    cbn [payments with_payments]. unfold insert_one.
    rewrite length_app. simpl. lia.
  - intros Hok.
    destruct (verify_payment_success getenv hmac _ _ _ _ _ _ Hok)
      as (i & q & Hfind' & Hexp & _ & Hp & Husers & _).
    fold v in Hp, Husers.
    rewrite Hfind in Hfind'. injection Hfind' as <- <-.
    rewrite He in Hexp. unfold PaymentService.minutes in Hexp.
    split_and!; [lia| |].
    + rewrite Hp. rewrite list_lookup_insert_eq; [done|].
      cbn [payments with_payments]. unfold insert_one.
      rewrite length_app. simpl. lia.
    + rewrite Husers, Hpur, Ha, Hu. done.
Qed.

Lemma initiate_then_verify_witness :
  let db1 :=
    (PaymentService.initiate_payment sample_getenv sample_str empty_db 0
       "a1" "b2" "c3" "u1" 100 "USD" "wallet_recharge" "stripe" None
       "card").2 in
  (PaymentService.verify_payment sample_getenv sample_hmac db1 1800000001
     "pay_a1" "order_b2" (Some "whsec_1") None).1
  = PaymentService.VerifyFailure "Payment has expired".
Proof.
  refine (proj1 (proj1 (initiate_then_verify sample_getenv sample_hmac
    sample_str empty_db 0 "a1" "b2" "c3" "u1" 100 "USD" "wallet_recharge"
    "stripe" None "card" _ _ 1800000001 "order_b2" (Some "whsec_1") None
    eq_refl _) _)).
  - apply Forall_nil_2.
  - reflexivity.
Defined.

(** X7. A refund cannot be repeated: after [process_refund] has
    succeeded, every further [process_refund] of the same payment
    identifier fails with 'Only completed payments can be refunded' and
    leaves the store as it is. *)
Theorem process_refund_once :
  forall db utcnow uuid payment_id amount reason
         utcnow' uuid' amount' reason',
    let first :=
      PaymentService.process_refund db utcnow uuid payment_id amount reason in
    PaymentService.refund_success first.1 = true ->
    PaymentService.process_refund first.2 utcnow' uuid' payment_id amount'
      reason'
    = (PaymentService.RefundFailure "Only completed payments can be refunded",
       first.2).
Proof.
  intros db utcnow uuid payment_id amount reason utcnow' uuid' amount'
    reason' first Hok.
  destruct (process_refund_success db utcnow uuid payment_id amount reason
              Hok) as (i & p & Hfind & _ & _ & Hrun).
  subst first. rewrite Hrun. cbn [snd].
  set (p' := Payment.set_refunded _ _ _ _ p).
  unfold PaymentService.process_refund at 1.
  cbn [payments with_transactions inc_wallet with_users with_payments].
  assert (Hfind' :
    find_one (fun q => Payment.payment_id q = payment_id)
      (<[i := p']> (payments db)) = Some p').
  { apply find_one_Some. exists i.
    apply (list_find_insert_same _ _ _ p); [exact Hfind|].
    apply list_find_Some in Hfind as (_ & Hid & _). exact Hid. }
  rewrite Hfind'. reflexivity.
Qed.

Lemma process_refund_once_witness :
  let paid := sample_db [sample_payment "completed"] in
  let first :=
    PaymentService.process_refund paid 20 "r1" "pay_1" None "change of mind"
  in
  PaymentService.process_refund first.2 30 "r2" "pay_1" (Some 1%Q) "again"
  = (PaymentService.RefundFailure "Only completed payments can be refunded",
     first.2).
Proof.
  exact (process_refund_once (sample_db [sample_payment "completed"]) 20 "r1"
           "pay_1" None "change of mind" 30 "r2" (Some 1%Q) "again" eq_refl).
Defined.



(** * One-time passwords: issue, verify, resend, clean up *)

Section OTPFacts.
Import OTPService.

(** [verify_otp] says yes exactly when some stored OTP is valid. *)
Lemma verify_otp_true_iff db utcnow email otp_code purpose :
  (verify_otp db utcnow email otp_code purpose).1 = true <->
  exists o, o ∈ otps db /\ valid_for email otp_code purpose utcnow o.
Proof.
  destruct (verify_otp_cases db utcnow email otp_code purpose)
    as [(Hok & i & o & Hf & _)|(Hno & _ & Hf)]; split.
  - intros _. apply list_find_Some in Hf as (Hi & Hv & _).
    exists o. split; [|done]. by eapply list_elem_of_lookup_2.
  - done.
  - congruence.
  - intros (o & Ho & Hv). apply list_find_None in Hf.
    eapply Forall_forall in Hf; [|exact Ho]. done.
Qed.



End OTPFacts.





(** X11. [cleanup_expired_otps] removes only OTPs that [verify_otp] would
    no longer accept: at the time of the clean-up and at any later time
    [verify_otp] gives the same answer with and without it. What it keeps
    is in the stored order, not expired and, when used, not older than an
    hour. *)
Theorem cleanup_keeps_valid :
  forall db t t' email otp_code purpose,
    let db1 := OTPCleanup.cleanup_expired_otps db t in
    ((t <= t')%Z ->
     (OTPService.verify_otp db1 t' email otp_code purpose).1 =
     (OTPService.verify_otp db t' email otp_code purpose).1) /\
    otps db1 `sublist_of` otps db /\
    Forall (fun o =>
              (t <= OTP.expires_at o)%Z /\
              (OTP.is_used o = true ->
               (t - 60 * 60 * 1000000 <= OTP.created_at o)%Z))
           (otps db1).
Proof.
  intros db t t' email otp_code purpose db1. subst db1.
  unfold OTPCleanup.cleanup_expired_otps. cbn [otps with_otps].
  split_and!.
  - intros Hle. apply eq_true_iff_eq.
    rewrite !verify_otp_true_iff. cbn [otps with_otps].
    split; intros (o & Ho & Hv); exists o; (split; [|done]).
    + apply list_elem_of_filter in Ho. tauto.
    + apply list_elem_of_filter. split; [|done].
      destruct Hv as (_ & _ & _ & Hu & Hexp).
      intros [?|[? _]]; [lia|congruence].
  - apply sublist_filter.
  - apply Forall_forall. intros o Ho.
    apply list_elem_of_filter in Ho as [Hns _].
    unfold OTPCleanup.stale, OTPCleanup.hours in Hns. split.
    + destruct (decide (t <= OTP.expires_at o)%Z); [done|].
      exfalso. apply Hns. left. lia.
    + intros Hu.
      destruct (decide (t - 60 * 60 * 1000000 <= OTP.created_at o)%Z);
        [done|].
      exfalso. apply Hns. right. split; [done|lia].
Qed.

Lemma cleanup_keeps_valid_witness :
  let db := (OTPService.create_otp empty_db 0 "482913" "a@example.com"
               "login").2 in
  (OTPService.verify_otp (OTPCleanup.cleanup_expired_otps db 5) 6
     "a@example.com" "482913" "login").1 = true.
Proof.
  cbn zeta.
  rewrite (proj1 (cleanup_keeps_valid
    (OTPService.create_otp empty_db 0 "482913" "a@example.com" "login").2
    5 6 "a@example.com" "482913" "login")) by lia.
  reflexivity.
Defined.

(** * Test analytics *)

(** ** Rounding is monotone and keeps whole numbers *)

Lemma round_half_even_bounds x :
  (Qfloor x <= round_half_even x <= Qfloor x + 1)%Z.
Proof.
  unfold round_half_even.
  repeat destruct (Qlt_bool _ _); try destruct (Z.even _); lia.
Qed.

Lemma round_half_even_mono x y :
  (x <= y)%Q -> (round_half_even x <= round_half_even y)%Z.
Proof.
  intros Hxy. pose proof (Qfloor_resp_le _ _ Hxy) as Hf.
  destruct (decide (Qfloor x = Qfloor y)) as [Heq|Hne].
  - unfold round_half_even. rewrite Heq.
    set (f := inject_Z (Qfloor y)).
    destruct (Qlt_bool (x - f) (1 # 2)) eqn:Hx1,
             (Qlt_bool (y - f) (1 # 2)) eqn:Hy1,
             (Qlt_bool (1 # 2) (x - f)) eqn:Hx2,
             (Qlt_bool (1 # 2) (y - f)) eqn:Hy2;
      rewrite ?Qlt_bool_iff, ?Qlt_bool_false_iff in *;
      try destruct (Z.even _); try lia; exfalso; lra.
  - pose proof (round_half_even_bounds x).
    pose proof (round_half_even_bounds y). lia.
Qed.

Lemma round2_mono x y : (x <= y)%Q -> (round2 x <= round2 y)%Q.
Proof.
  intros Hxy. unfold round2.
  assert (Hm : (round_half_even (x * 100) <= round_half_even (y * 100))%Z).
  { apply round_half_even_mono. lra. }
  unfold Qle. simpl. lia.
Qed.

Lemma round2_whole n : (round2 (inject_Z n) == inject_Z n)%Q.
Proof.
  unfold round2.
  assert (Hr : round_half_even (inject_Z n * 100) = (n * 100)%Z).
  { rewrite (round_half_even_proper _ (inject_Z (n * 100)))
      by (rewrite inject_Z_mult; reflexivity).
    unfold round_half_even. rewrite Qfloor_Z.
    replace (Qlt_bool (inject_Z (n * 100) - inject_Z (n * 100)) (1 # 2))
      with true; [done|].
    symmetry. apply Qlt_bool_iff. ring_simplify. reflexivity. }
  rewrite Hr. unfold Qeq. simpl. lia.
Qed.

Lemma round2_le_whole x n : (x <= inject_Z n)%Q -> (round2 x <= inject_Z n)%Q.
Proof.
  intros Hx. apply (Qle_trans _ (round2 (inject_Z n))).
  - by apply round2_mono.
  - rewrite round2_whole. apply Qle_refl.
Qed.

Lemma round2_ge_whole x n : (inject_Z n <= x)%Q -> (inject_Z n <= round2 x)%Q.
Proof.
  intros Hx. apply (Qle_trans _ (round2 (inject_Z n))).
  - rewrite round2_whole. apply Qle_refl.
  - by apply round2_mono.
Qed.

Section Analytics.
Import TestAnalytics.

Lemma max_int_spec l : forall x,
  (x <= max_int x l)%Z /\
  Forall (fun y => (y <= max_int x l)%Z) l /\
  max_int x l ∈ x :: l.
Proof.
  unfold max_int. induction l as [|y l IH]; intros x; simpl.
  - split_and!; [lia | constructor | by left].
  - destruct (IH (Z.max x y)) as (H1 & H2 & H3). split_and!.
    + lia.
    + constructor; [lia | exact H2].
    + apply elem_of_cons in H3 as [H3|H3]; [|by do 2 right].
      rewrite H3. destruct (Z.max_spec x y) as [[_ ->]|[_ ->]];
        [right|]; by left.
Qed.

Lemma min_int_spec l : forall x,
  (min_int x l <= x)%Z /\
  Forall (fun y => (min_int x l <= y)%Z) l /\
  min_int x l ∈ x :: l.
Proof.
  unfold min_int. induction l as [|y l IH]; intros x; simpl.
  - split_and!; [lia | constructor | by left].
  - destruct (IH (Z.min x y)) as (H1 & H2 & H3). split_and!.
    + lia.
    + constructor; [lia | exact H2].
    + apply elem_of_cons in H3 as [H3|H3]; [|by do 2 right].
      rewrite H3. destruct (Z.min_spec x y) as [[_ ->]|[_ ->]];
        [|right]; by left.
Qed.

Lemma sum_int_bounds lo hi (l : list Z) :
  Forall (fun s => (lo <= s <= hi)%Z) l ->
  (Z.of_nat (length l) * lo <= sum_int l <= Z.of_nat (length l) * hi)%Z.
Proof.
  induction 1 as [|s l Hs _ IH]; simpl; [lia|].
  unfold sum_int in *. simpl. nia.
Qed.

Lemma pass_count_le (l : list Q) : pass_count l <= length l.
Proof.
  unfold pass_count. induction l as [|p l IH]; simpl; [lia|].
  destruct (Qle_bool 40 p); simpl; lia.
Qed.

(** A quotient of whole numbers between two whole bounds. *)
Lemma quotient_between (s : Z) (n : nat) (lo hi : Z) :
  (0 < n)%nat ->
  (Z.of_nat n * lo <= s <= Z.of_nat n * hi)%Z ->
  (inject_Z lo <= inject_Z s / inject_Z (Z.of_nat n) <= inject_Z hi)%Q.
Proof.
  intros Hn [Hlo Hhi].
  assert (Hpos : (0 < inject_Z (Z.of_nat n))%Q).
  { change 0%Q with (inject_Z 0). rewrite <- Zlt_Qlt. lia. }
  split.
  - apply Qle_shift_div_l; [exact Hpos|].
    rewrite <- inject_Z_mult, <- Zle_Qle. lia.
  - apply Qle_shift_div_r; [exact Hpos|].
    rewrite <- inject_Z_mult, <- Zle_Qle. lia.
Qed.

End Analytics.

(** X12. For a non-empty list of attempts [calculate_analytics] gives a
    highest and a lowest score that are scores of attempts and bound every
    score, an average score between the two, and a pass rate between 0 and
    100; the key average_percentage is present exactly when the list is
    not empty. *)
Theorem calculate_analytics_bounds :
  forall attempts,
    ("average_percentage" ∈
       dict_keys (TestAnalytics.calculate_analytics attempts)
     <-> attempts <> []) /\
    (attempts <> [] ->
     exists average highest lowest rate,
       dict_get (TestAnalytics.calculate_analytics attempts) "average_score"
         = Some (PFloat average) /\
       dict_get (TestAnalytics.calculate_analytics attempts) "highest_score"
         = Some (PInt highest) /\
       dict_get (TestAnalytics.calculate_analytics attempts) "lowest_score"
         = Some (PInt lowest) /\
       dict_get (TestAnalytics.calculate_analytics attempts) "pass_rate"
         = Some (PFloat rate) /\
       Forall (fun a => (lowest <= TestAnalytics.score a <= highest)%Z)
              attempts /\
       highest ∈ TestAnalytics.score <$> attempts /\
       lowest ∈ TestAnalytics.score <$> attempts /\
       (inject_Z lowest <= average <= inject_Z highest)%Q /\
       (0 <= rate <= 100)%Q).
Proof.
  intros attempts. split.
  - destruct attempts as [|first rest]; split; try done.
    + intros Hin. apply (bool_decide_pack _) in Hin. vm_compute in Hin. done.
    + intros _. apply (bool_decide_unpack _). vm_compute. exact I.
  - destruct attempts as [|first rest]; [done|]. intros _.
    destruct (max_int_spec (TestAnalytics.score <$> rest)
                (TestAnalytics.score first)) as (Hmax1 & Hmax2 & Hmax3).
    destruct (min_int_spec (TestAnalytics.score <$> rest)
                (TestAnalytics.score first)) as (Hmin1 & Hmin2 & Hmin3).
    set (highest := TestAnalytics.max_int _ _) in *.
    set (lowest := TestAnalytics.min_int _ _) in *.
    assert (Hall : Forall (fun s => (lowest <= s <= highest)%Z)
                     (TestAnalytics.score <$> first :: rest)).
    { rewrite fmap_cons. constructor; [lia|].
      apply Forall_forall. intros s Hs.
      eapply Forall_forall in Hmax2; [|exact Hs].
      eapply Forall_forall in Hmin2; [|exact Hs]. lia. }
    eexists _, highest, lowest, _.
    split; [reflexivity|]. split; [reflexivity|]. split; [reflexivity|].
    split; [reflexivity|]. split_and!.
    + by apply Forall_fmap in Hall.
    + exact Hmax3.
    + exact Hmin3.
    + apply round2_ge_whole. unfold TestAnalytics.len_float.
      apply (quotient_between _ _ lowest highest);
        [rewrite length_fmap; simpl; lia|].
      by apply sum_int_bounds.
    + apply round2_le_whole. unfold TestAnalytics.len_float.
      apply (quotient_between _ _ lowest highest);
        [rewrite length_fmap; simpl; lia|].
      by apply sum_int_bounds.
    + apply (round2_ge_whole _ 0).
      pose proof (pass_count_le (TestAnalytics.percentage <$> first :: rest))
        as Hle. rewrite length_fmap in Hle.
      destruct (quotient_between
                  (Z.of_nat (TestAnalytics.pass_count
                     (TestAnalytics.percentage <$> first :: rest)))
                  (length (first :: rest)) 0 1) as [H0 _];
        [simpl; lia | lia |].
      unfold TestAnalytics.len_float. change (inject_Z 0) with 0%Q in *. lra.
    + apply (round2_le_whole _ 100).
      pose proof (pass_count_le (TestAnalytics.percentage <$> first :: rest))
        as Hle. rewrite length_fmap in Hle.
      destruct (quotient_between
                  (Z.of_nat (TestAnalytics.pass_count
                     (TestAnalytics.percentage <$> first :: rest)))
                  (length (first :: rest)) 0 1) as [_ H1];
        [simpl; lia | lia |].
      unfold TestAnalytics.len_float.
      change (inject_Z 1) with 1%Q in *. change (inject_Z 100) with 100%Q. lra.
Qed.

Lemma calculate_analytics_bounds_witness :
  exists average highest lowest rate,
    dict_get (TestAnalytics.calculate_analytics
                [sample_attempt 3 30; sample_attempt 8 80;
                 sample_attempt 5 50]) "average_score"
      = Some (PFloat average) /\
    highest = 8%Z /\ lowest = 3%Z /\
    (inject_Z lowest <= average <= inject_Z highest)%Q /\
    (0 <= rate <= 100)%Q.
Proof.
  destruct (proj2 (calculate_analytics_bounds
                     [sample_attempt 3 30; sample_attempt 8 80;
                      sample_attempt 5 50]))
    as (average & highest & lowest & rate & Ha & Hh & Hl & _ & _ & _ & _
        & Hav & Hrate); [discriminate|].
  exists average, highest, lowest, rate.
  injection Hh as <-. injection Hl as <-.
  split; [exact Ha|]. split; [reflexivity|]. split; [reflexivity|].
  split; [exact Hav | exact Hrate].
Defined.

Section Reports.
Import TestAnalytics.



End Reports.



(** * Pagination *)

(** X14. [paginated_response] raises [ZeroDivisionError] for a limit of
    zero. For a positive limit and a total that is not negative, the
    number of pages it reports is the least number of pages of that size
    that hold the total: none for an empty total, and otherwise the last
    page is not empty and no item is left over. The response carries the
    keys success, message, timestamp, data and meta. *)
Theorem paginated_response_pages :
  forall items total page limit message isoformat,
    (limit = 0%Z ->
     Pagination.paginated_response items total page limit message isoformat
       = Raises ZeroDivisionError) /\
    ((0 < limit)%Z -> (0 <= total)%Z ->
     exists response pages,
       Pagination.paginated_response items total page limit message isoformat
         = Returns response /\
       dict_keys response
         = ["success"; "message"; "timestamp"; "data"; "meta"] /\
       Pagination.pages_of response = Some (PInt pages) /\
       (total <= pages * limit)%Z /\
       ((pages - 1) * limit < total \/ (total = 0 /\ pages = 0))%Z).
Proof.
  intros items total page limit message isoformat. split.
  - intros ->. reflexivity.
  - intros Hlimit Htotal. unfold Pagination.paginated_response.
    destruct (limit =? 0)%Z eqn:Hz; [apply Z.eqb_eq in Hz; lia|].
    eexists _, ((total + limit - 1) / limit)%Z.
    split; [reflexivity|]. split; [reflexivity|]. split; [reflexivity|].
    pose proof (Z.div_mod (total + limit - 1) limit ltac:(lia)) as Hdm.
    pose proof (Z.mod_pos_bound (total + limit - 1) limit Hlimit) as Hmod.
    split; [nia|].
    destruct (decide (total = 0)%Z) as [->|Hne].
    + right. split; [done|]. apply Z.div_small. lia.
    + left. nia.
Qed.

Lemma paginated_response_pages_witness :
  exists response,
    Pagination.paginated_response [] 41 1 20 "Data retrieved successfully"
      "2026-01-01T00:00:00" = Returns response /\
    Pagination.pages_of response = Some (PInt 3).
Proof.
  destruct (proj2 (paginated_response_pages [] 41 1 20
                     "Data retrieved successfully" "2026-01-01T00:00:00"))
    as (response & pages & Hrun & _ & Hpages & _); [lia..|].
  exists response. split; [exact Hrun|].
  rewrite Hpages. injection Hrun as <-. vm_compute in Hpages.
  by injection Hpages as <-.
Defined.

(** * The rate-limiting middleware *)

Section Middleware.
Import RateLimitMiddleware.

Lemma limit_type_under_api path :
  String.prefix "/api" path = true -> limit_type_of path = "api".
Proof.
  intros Hp. unfold limit_type_of.
  destruct path as [|c1 [|c2 [|c3 path]]];
    cbn [String.prefix] in Hp;
    repeat match type of Hp with
           | context [Ascii.ascii_dec ?a ?b] =>
               destruct (Ascii.ascii_dec a b) as [<-|]
           end; try discriminate Hp.
  reflexivity.
Qed.

Lemma rate_limit_positive limit_type :
  (0 < (RateLimiter.rate_limit limit_type).1)%Z.
Proof.
  unfold RateLimiter.rate_limit, RateLimiter.rate_limits.
  cbn [PaymentService.get]. repeat case_decide; reflexivity.
Qed.

End Middleware.

(** X15. Which limit the middleware applies is decided by the start of
    the path alone: under the prefix the routers are mounted at, '/api',
    every request, the ones to the auth and the AI routes too, is limited
    as 'api', at 100 requests per 60 seconds. A request over the limit is
    answered 429 without the rest of the stack being run; a request within
    the limit is handed on, and its answer is passed back. *)
Theorem middleware_limits :
  forall (R W : Type) rs now client_host path (call_next : W -> R * W) w,
    let out :=
      RateLimitMiddleware.rate_limiting_middleware rs now client_host path
        call_next w in
    let key := default "unknown" client_host in
    let allowed :=
      (RateLimiter.is_allowed rs now key
         (RateLimitMiddleware.limit_type_of path)).1 in
    (String.prefix "/api" path = true ->
     RateLimitMiddleware.limit_type_of path = "api" /\
     RateLimiter.rate_limit (RateLimitMiddleware.limit_type_of path)
       = (100%Z, 60%Q)) /\
    (allowed = false ->
     exists content, out = (RateLimitMiddleware.JSONResponse 429 content,
                            (RateLimiter.is_allowed rs now key
                               (RateLimitMiddleware.limit_type_of path)).2,
                            w)) /\
    (allowed = true ->
     out = (RateLimitMiddleware.Passed (call_next w).1,
            (RateLimiter.is_allowed rs now key
               (RateLimitMiddleware.limit_type_of path)).2,
            (call_next w).2)).
Proof.
  intros R W rs now client_host path call_next w out key allowed.
  subst out allowed. unfold RateLimitMiddleware.rate_limiting_middleware.
  fold key. split_and!.
  - intros Hp. rewrite (limit_type_under_api _ Hp). by split.
  - destruct (RateLimiter.is_allowed _ _ _ _) as [ok rs']. cbn [fst snd].
    intros ->. by eexists.
  - destruct (RateLimiter.is_allowed _ _ _ _) as [ok rs']. cbn [fst snd].
    intros ->. cbn [negb]. by destruct (call_next w).
Qed.

Lemma middleware_limits_witness :
  RateLimitMiddleware.limit_type_of "/api/v1/auth/login" = "api" /\
  RateLimiter.rate_limit
    (RateLimitMiddleware.limit_type_of "/api/v1/auth/login")
    = (100%Z, 60%Q).
Proof.
  apply (proj1 (middleware_limits unit unit ∅ 0 None "/api/v1/auth/login"
                  (fun w => (tt, w)) tt)).
  reflexivity.
Defined.

(** X16. A client that has been silent for a whole window is admitted
    again: when every time kept for the key is 60 seconds old or older,
    [is_allowed] returns True and keeps for the key the time of this
    request only. *)
Theorem is_allowed_after_silence :
  forall rs now key limit_type,
    Forall (fun t => (60 <= now - t)%Q) (RateLimiter.times_of rs key) ->
    (RateLimiter.is_allowed rs now key limit_type).1 = true /\
    RateLimiter.times_of (RateLimiter.is_allowed rs now key limit_type).2 key
      = [now].
Proof.
  intros rs now key limit_type Hold.
  assert (Hkept : List.filter (RateLimiter.recent now 60)
                    (RateLimiter.times_of rs key) = []).
  { induction Hold as [|t l Ht _ IH]; [done|]. simpl.
    destruct (RateLimiter.recent now 60 t) eqn:Hr; [|exact IH].
    apply recent_iff in Hr. exfalso. exact (Qlt_not_le _ _ Hr Ht). }
  destruct (is_allowed_spec rs now key limit_type) as (Hok & Hkey & _).
  rewrite Hkept in Hok, Hkey. cbn [length] in Hok, Hkey.
  pose proof (rate_limit_positive limit_type) as Hpos.
  assert (Hle : ((RateLimiter.rate_limit limit_type).1 <=? Z.of_nat 0)%Z
                = false) by (apply Z.leb_gt; lia).
  rewrite Hle in Hok, Hkey. by split.
Qed.

Lemma is_allowed_after_silence_witness :
  let full :=
    (foldl (fun rs t => (RateLimiter.is_allowed rs t "10.0.0.7" "auth").2)
       ∅ [0; 1; 2; 3; 4]%Q) in
  (RateLimiter.is_allowed full 5 "10.0.0.7" "auth").1 = false /\
  (RateLimiter.is_allowed full 64 "10.0.0.7" "auth").1 = true.
Proof.
  split; [vm_compute; reflexivity|].
  apply is_allowed_after_silence.
  repeat constructor; vm_compute; discriminate.
Defined.

(** * The cache *)

Section Cache.
Import Caching.

Lemma delete_is_delete (c : store) key : delete c key = base.delete key c.
Proof.
  unfold delete. destruct (c !! key) eqn:E; [done|].
  symmetry. by apply delete_id.
Qed.

Lemma lookup_delete_all (c : store) keys key :
  foldl (fun c key => base.delete key c) c keys !! key
    = if decide (key ∈ keys) then None else c !! key.
Proof.
  revert c. induction keys as [|k keys IH]; intros c; [done|].
  cbn [foldl]. rewrite IH, lookup_delete.
  destruct (decide (key ∈ keys)) as [Hin|Hout].
  - rewrite decide_True; [done|]. by right.
  - destruct (decide (k = key)) as [->|Hne].
    + rewrite decide_True; [done|]. by left.
    + rewrite decide_False; [done|].
      intros [->|?]%elem_of_cons; done.
Qed.

Lemma foldl_delete (c : store) keys :
  foldl delete c keys = foldl (fun c key => base.delete key c) c keys.
Proof.
  revert c. induction keys as [|k keys IH]; intros c; [done|].
  cbn [foldl]. by rewrite delete_is_delete, IH.
Qed.

Lemma append_cons a s b : String a s ++ b = String a (s ++ b).
Proof. reflexivity. Qed.

Lemma prefix_iff pattern key :
  String.prefix pattern key = true <-> exists b, key = pattern ++ b.
Proof.
  revert key. induction pattern as [|a pattern IH]; intros key.
  - destruct key; cbn; (split; [by eexists|done]).
  - destruct key as [|a' key]; cbn.
    + split; [done|]. by intros (b & ?).
    + destruct (Ascii.ascii_dec a a') as [<-|Hne].
      * rewrite IH.
        split; intros (b & Hb); exists b; rewrite append_cons in *;
          congruence.
      * split; [done|]. intros (b & Hb). rewrite append_cons in Hb.
        congruence.
Qed.

Lemma contains_iff pattern key :
  contains pattern key = true <-> exists a b, key = a ++ pattern ++ b.
Proof.
  induction key as [|x key IH]; cbn [contains].
  - rewrite orb_false_r, prefix_iff. split.
    + intros (b & Hb). by exists "", b.
    + intros ([|y a] & b & Hab); [by exists b|discriminate].
  - rewrite orb_true_iff, prefix_iff, IH. split.
    + intros [(b & Hb)|(a & b & Hab)].
      * by exists "", b.
      * exists (String x a), b. by rewrite append_cons, Hab.
    + intros ([|y a] & b & Hab).
      * left. by exists b.
      * right. exists a, b. rewrite append_cons in Hab. congruence.
Qed.

Lemma lookup_clear_expired (c : store) now key :
  clear_expired_cache c now !! key
    = match c !! key with
      | Some it => if Qlt_bool (expires it) now then None else Some it
      | None => None
      end.
Proof.
  unfold clear_expired_cache. rewrite lookup_delete_all.
  destruct (c !! key) as [it|] eqn:E.
  - destruct (Qlt_bool (expires it) now) eqn:Hx.
    + rewrite decide_True; [done|].
      apply list_elem_of_fmap. exists (key, it). split; [done|].
      apply list_elem_of_In, List.filter_In. split; [|exact Hx].
      by apply list_elem_of_In, elem_of_map_to_list.
    + rewrite decide_False; [done|].
      intros ([k it'] & -> & Hin)%list_elem_of_fmap.
      apply list_elem_of_In, List.filter_In in Hin as [Hin Hx'].
      apply list_elem_of_In, elem_of_map_to_list in Hin.
      cbn in E, Hin, Hx'. congruence.
  - by case_decide.
Qed.

Lemma get_after_set (c : store) t key v ttl t' :
  (t' < t + inject_Z ttl)%Q ->
  get (set c t key v ttl) t' key = (v, set c t key v ttl).
Proof.
  intros Hlt. unfold get, set. rewrite lookup_insert_eq. cbn [expires].
  apply Qlt_bool_iff in Hlt. by rewrite Hlt.
Qed.

End Cache.

(** X17. What [set] stores, [get] returns for as long as the clock is
    before the time of [set] plus the TTL, and the cache is left as it
    is; from that time on [get] returns None and removes the entry. A
    [get] of any other key returns what it returned before the [set]. *)
Theorem cache_set_get :
  forall c t key v ttl t',
    ((t' < t + inject_Z ttl)%Q ->
     Caching.get (Caching.set c t key v ttl) t' key
       = (v, Caching.set c t key v ttl)) /\
    ((t + inject_Z ttl <= t')%Q ->
     Caching.get (Caching.set c t key v ttl) t' key
       = (PNone, base.delete key c)) /\
    (forall other, other <> key ->
       (Caching.get (Caching.set c t key v ttl) t' other).1
         = (Caching.get c t' other).1).
Proof.
  intros c t key v ttl t'. unfold Caching.get, Caching.set. split_and!.
  - apply get_after_set.
  - intros Hle. rewrite lookup_insert_eq. cbn [Caching.expires].
    apply Qlt_bool_false_iff in Hle. rewrite Hle.
    by rewrite delete_insert_eq.
  - intros other Hne. rewrite lookup_insert_ne by done.
    destruct (c !! other) as [it|]; [|done].
    by destruct (Qlt_bool t' (Caching.expires it)).
Qed.

Lemma cache_set_get_witness :
  Caching.get (Caching.set ∅ 0 "k" (PInt 7) 300) 299 "k"
    = (PInt 7, Caching.set ∅ 0 "k" (PInt 7) 300) /\
  Caching.get (Caching.set ∅ 0 "k" (PInt 7) 300) 300 "k"
    = (PNone, base.delete "k" ∅).
Proof.
  pose proof (cache_set_get ∅ 0 "k" (PInt 7) 300 299) as (Hhit & _ & _).
  pose proof (cache_set_get ∅ 0 "k" (PInt 7) 300 300) as (_ & Hgone & _).
  split; [apply Hhit; reflexivity|apply Hgone; discriminate].
Defined.

(** X18. A function behind [cached]: when the cache has nothing to give
    for the key and the function returns a value, the value is returned
    and stored. While the clock is before the time of storing plus the
    TTL, a later call returns that value without running the function,
    unless the value is None: a None is stored but never served, and the
    function runs at every call. *)
Theorem cached_hit_skips_function :
  forall (W : Type) ttl key (func later : W -> outcome py_value * W)
         c t1 t2 t3 t4 w w1 w' v,
    (Caching.get c t1 key).1 = PNone ->
    func w = (Return v, w1) ->
    let c1 := Caching.set (Caching.get c t1 key).2 t2 key v ttl in
    Caching.cached ttl key func c t1 t2 w = (Return v, c1, w1) /\
    (v <> PNone -> (t3 < t2 + inject_Z ttl)%Q ->
     Caching.cached ttl key later c1 t3 t4 w' = (Return v, c1, w')) /\
    (v = PNone ->
     (Caching.cached ttl key later c1 t3 t4 w').1.1 = (later w').1 /\
     (Caching.cached ttl key later c1 t3 t4 w').2 = (later w').2).
Proof.
  intros W ttl key func later c t1 t2 t3 t4 w w1 w' v Hmiss Hrun c1.
  split_and!.
  - unfold Caching.cached. destruct (Caching.get c t1 key) as [r c0].
    cbn [fst snd] in *. subst r. cbn [Caching.is_none negb].
    by rewrite Hrun.
  - intros Hv Hlt. unfold Caching.cached.
    pose proof (get_after_set (Caching.get c t1 key).2 t2 key v ttl t3 Hlt)
      as Hhit.
    fold c1 in Hhit. rewrite Hhit.
    destruct v; try done.
  - intros ->. unfold Caching.cached.
    assert (Hnone : (Caching.get c1 t3 key).1 = PNone).
    { unfold Caching.get, c1, Caching.set. rewrite lookup_insert_eq.
      cbn [Caching.value Caching.expires]. by destruct (Qlt_bool _ _). }
    destruct (Caching.get c1 t3 key) as [r c2]. cbn [fst] in Hnone.
    subst r. cbn [Caching.is_none negb].
    by destruct (later w') as [[r|e] w2].
Qed.

Lemma cached_hit_skips_function_witness :
  Caching.cached 300 "k" (counting (PInt 7)) ∅ 0 1 0%nat
    = (Return (PInt 7), Caching.set ∅ 1 "k" (PInt 7) 300, 1%nat) /\
  Caching.cached 300 "k" (counting (PInt 8))
    (Caching.set ∅ 1 "k" (PInt 7) 300) 300 300 1%nat
    = (Return (PInt 7), Caching.set ∅ 1 "k" (PInt 7) 300, 1%nat).
Proof.
  pose proof (cached_hit_skips_function nat 300 "k" (counting (PInt 7))
                (counting (PInt 8)) ∅ 0 1 300 300 0%nat 1%nat 1%nat
                (PInt 7) eq_refl eq_refl) as (Hfirst & Hsecond & _).
  split; [exact Hfirst|].
  apply Hsecond; [discriminate|reflexivity].
Defined.

(** X19. [clear_expired_cache] removes exactly the entries whose expiry
    lies before the current time, and no [get] at that time returns
    anything else than before. An entry that expires at the current time
    itself is kept, although [get] no longer returns it. *)
Theorem clear_expired_cache_keeps_live :
  forall c now key,
    (forall it,
       Caching.clear_expired_cache c now !! key = Some it <->
       c !! key = Some it /\ (now <= Caching.expires it)%Q) /\
    (Caching.get (Caching.clear_expired_cache c now) now key).1
      = (Caching.get c now key).1 /\
    (forall it, c !! key = Some it -> (Caching.expires it == now)%Q ->
       Caching.clear_expired_cache c now !! key = Some it /\
       (Caching.get c now key).1 = PNone).
Proof.
  intros c now key.
  assert (Hlookup : forall it,
             Caching.clear_expired_cache c now !! key = Some it <->
             c !! key = Some it /\ (now <= Caching.expires it)%Q).
  { intros it. rewrite lookup_clear_expired.
    destruct (c !! key) as [it'|] eqn:E.
    - destruct (Qlt_bool (Caching.expires it') now) eqn:Hx.
      + apply Qlt_bool_iff in Hx. split; [done|].
        intros [[= ->] Hle]. exfalso. exact (Qlt_not_le _ _ Hx Hle).
      + apply Qlt_bool_false_iff in Hx. split.
        * by intros [= ->].
        * by intros [? _].
    - split; [done|]. by intros [? _]. }
  split_and!; [exact Hlookup| |].
  - unfold Caching.get. rewrite lookup_clear_expired.
    destruct (c !! key) as [it|] eqn:E; [|done].
    destruct (Qlt_bool (Caching.expires it) now) eqn:Hx.
    + apply Qlt_bool_iff in Hx.
      assert (Hn : Qlt_bool now (Caching.expires it) = false).
      { apply Qlt_bool_false_iff. by apply Qlt_le_weak. }
      by rewrite Hn.
    + by destruct (Qlt_bool now (Caching.expires it)).
  - intros it Hit Heq. split.
    + apply Hlookup. split; [done|]. rewrite Heq. apply Qle_refl.
    + unfold Caching.get. rewrite Hit.
      assert (Hn : Qlt_bool now (Caching.expires it) = false).
      { apply Qlt_bool_false_iff. rewrite Heq. apply Qle_refl. }
      by rewrite Hn.
Qed.

Lemma clear_expired_cache_keeps_live_witness :
  Caching.clear_expired_cache sample_cache 300 !! "user:get_profile:ab12"
    = Some {| Caching.value := PStr "profile"; Caching.expires := 0 + 300 |}
  /\ (Caching.get sample_cache 300 "user:get_profile:ab12").1 = PNone.
Proof.
  apply (proj2 (proj2 (clear_expired_cache_keeps_live sample_cache 300
                         "user:get_profile:ab12")));
    reflexivity.
Defined.

(** X20. [invalidate_cache] removes every entry whose key has the pattern
    as a substring and leaves every other entry as it is; with the empty
    pattern it empties the cache. *)
Theorem invalidate_cache_substring :
  forall c pattern,
    (forall key a b, key = a ++ pattern ++ b ->
       Caching.invalidate_cache c pattern !! key = None) /\
    (forall key, (forall a b, key <> a ++ pattern ++ b) ->
       Caching.invalidate_cache c pattern !! key = c !! key) /\
    Caching.invalidate_cache c "" = ∅.
Proof.
  intros c pattern.
  assert (Hlookup : forall pattern key,
             Caching.invalidate_cache c pattern !! key
               = if Caching.contains pattern key then None else c !! key).
  { intros p key. unfold Caching.invalidate_cache.
    rewrite foldl_delete, lookup_delete_all.
    destruct (Caching.contains p key) eqn:Hc.
    - destruct (c !! key) as [it|] eqn:E; [|by case_decide].
      rewrite decide_True; [done|].
      apply list_elem_of_In, List.filter_In. split; [|exact Hc].
      apply list_elem_of_In, list_elem_of_fmap. exists (key, it).
      split; [done|]. by apply elem_of_map_to_list.
    - rewrite decide_False; [done|].
      intros Hin%list_elem_of_In%List.filter_In. destruct Hin. congruence. }
  split_and!.
  - intros key a b Hkey. rewrite Hlookup.
    assert (Hc : Caching.contains pattern key = true)
      by (apply contains_iff; eauto).
    by rewrite Hc.
  - intros key Hno. rewrite Hlookup.
    destruct (Caching.contains pattern key) eqn:Hc; [|done].
    apply contains_iff in Hc as (a & b & Hab). by destruct (Hno a b).
  - apply map_eq. intros key. rewrite Hlookup, lookup_empty.
    assert (Hc : Caching.contains "" key = true)
      by (apply contains_iff; by exists "", key).
    by rewrite Hc.
Qed.

Lemma invalidate_cache_substring_witness :
  Caching.invalidate_cache sample_cache "get_profile"
    !! "user:get_profile:ab12" = None.
Proof.
  apply (proj1 (invalidate_cache_substring sample_cache "get_profile")
           _ "user:" ":ab12").
  reflexivity.
Defined.

(** * Sessions, from booking to refusal *)

Section SessionRounds.
Import FacultyRoutes.

Lemma update_session_returns db utcnow session_id update user i session :
  list_find (fun s => Session.session_id s = session_id) (sessions db)
    = Some (i, session) ->
  Session.faculty_id session = user ->
  match (update_session db utcnow session_id update user).1 with
  | Return _ => is_Some (users db !! user)
  | Raise e => e = TypeError /\ users db !! user = None
  end.
Proof.
  intros Hfind Hown. unfold update_session.
  assert (find_one (fun s => Session.session_id s = session_id) (sessions db)
          = Some session) as -> by (apply find_one_Some; by exists i).
  rewrite Hown, String.eqb_refl. cbn [negb].
  set (db2 := with_sessions _ _).
  assert (Hu : users db2 !! user = None <-> users db !! user = None).
  { subst db2. cbn [users with_sessions].
    destruct (refund_due _ _); [|done].
    cbn [users with_transactions inc_wallet with_users].
    destruct (decide (Session.student_id session = user)) as [->|Hne].
    - rewrite lookup_alter_eq. by destruct (users db !! user).
    - by rewrite lookup_alter_ne. }
  destruct (users db2 !! user) as [faculty|] eqn:E; cbn [fst].
  - destruct (users db !! user) eqn:E'; [done|].
    pose proof (proj2 Hu eq_refl). discriminate.
  - split; [done|]. by apply Hu.
Qed.

End SessionRounds.



(** X22. [update_session] refuses before it writes: an unknown session id
    gives HTTP 404 and a session of another faculty gives HTTP 403, and
    the store is unchanged in both cases. For a session of the caller the
    call returns exactly when the caller's own user document exists; when
    it does not, the call raises TypeError after the session has been
    updated. *)
Theorem update_session_refusals :
  forall db utcnow session_id update user,
    let out :=
      FacultyRoutes.update_session db utcnow session_id update user in
    (list_find (fun s => Session.session_id s = session_id) (sessions db)
       = None ->
     out = (Raise (HTTPException 404 "Session not found"), db)) /\
    (forall i session,
       list_find (fun s => Session.session_id s = session_id) (sessions db)
         = Some (i, session) ->
       (Session.faculty_id session <> user ->
        out = (Raise
                 (HTTPException 403 "Not authorized to update this session"),
               db)) /\
       (Session.faculty_id session = user ->
        ((exists response, out.1 = Return response) <->
         is_Some (users db !! user)) /\
        (users db !! user = None ->
         out.1 = Raise TypeError /\
         exists session',
           sessions out.2 = <[i := session']> (sessions db) /\
           forall st, FacultyRoutes.status update = Some st ->
             Session.status session' = FacultyRoutes.status_name st))).
Proof.
  intros db utcnow session_id update user out. split.
  - intros Hnone. subst out. unfold FacultyRoutes.update_session.
    assert (find_one (fun s => Session.session_id s = session_id)
              (sessions db) = None) as -> by by apply find_one_None.
    reflexivity.
  - intros i session Hfind. split.
    + intros Hne. subst out. unfold FacultyRoutes.update_session.
      assert (find_one (fun s => Session.session_id s = session_id)
                (sessions db) = Some session) as ->
        by (apply find_one_Some; by exists i).
      apply String.eqb_neq in Hne. by rewrite Hne.
    + intros Hown.
      pose proof (update_session_returns db utcnow session_id update user
                    i session Hfind Hown) as Hret.
      destruct (update_session_owned db utcnow session_id update user
                  i session Hfind Hown) as (Hs & _).
      fold out in Hret, Hs. split.
      * destruct out.1 as [response|e].
        -- split; [done|]. by eexists.
        -- destruct Hret as [_ Hnone]. rewrite Hnone. split.
           ++ by intros (response & ?).
           ++ by intros [? ?].
      * intros Hnone. split.
        -- destruct out.1 as [response|e].
           ++ rewrite Hnone in Hret. by destruct Hret.
           ++ by destruct Hret as [-> _].
        -- eexists. split; [exact Hs|].
           intros st Hst. cbn. by rewrite Hst.
Qed.

Lemma update_session_refusals_witness :
  FacultyRoutes.update_session
    (sample_sessions_db [sample_session "pending" "pending"]) 9 "sess_1"
    (sample_update FacultyRoutes.accepted) "f2"
  = (Raise (HTTPException 403 "Not authorized to update this session"),
     sample_sessions_db [sample_session "pending" "pending"]).
Proof.
  apply (proj2 (update_session_refusals
                  (sample_sessions_db [sample_session "pending" "pending"])
                  9 "sess_1" (sample_update FacultyRoutes.accepted) "f2")
           0%nat (sample_session "pending" "pending")).
  - reflexivity.
  - discriminate.
Defined.

(** * Assignments and enrolments *)

Section Coursework.
Import Assignments.

Lemma find_none_students user subs :
  List.find (fun sub => String.eqb (student_id sub) user) subs = None <->
  user ∉ student_id <$> subs.
Proof.
  induction subs as [|s subs IH]; cbn.
  - split; [intros _; apply not_elem_of_nil | done].
  - destruct (String.eqb (student_id s) user) eqn:E.
    + apply String.eqb_eq in E. split; [done|].
      intros Hn. exfalso. apply Hn. rewrite E. by left.
    + apply String.eqb_neq in E. rewrite IH, not_elem_of_cons.
      split; [by intros ? | by intros [_ ?]]; split; congruence.
Qed.

Lemma grade_first_found student marks text subs subs' :
  grade_first student marks text subs = (subs', true) ->
  exists j s,
    subs !! j = Some s /\ student_id s = student /\
    (forall k s', (k < j)%nat -> subs !! k = Some s' ->
       student_id s' <> student) /\
    subs' = <[j := grade marks text s]> subs.
Proof.
  revert subs'. induction subs as [|s subs IH]; intros subs'; cbn.
  - intros [= _ ?].
  - destruct (String.eqb (student_id s) student) eqn:E.
    + intros [= <-]. apply String.eqb_eq in E. exists 0%nat, s.
      split_and!; [done | done | intros; lia | done].
    + destruct (grade_first student marks text subs) as [rest found].
      intros [= <- ->]. apply String.eqb_neq in E.
      destruct (IH rest eq_refl) as (j & s0 & Hj & Hs & Hfirst & ->).
      exists (S j), s0. split_and!; [done | done | | done].
      intros [|k] s' Hk Hs'; cbn in Hs'.
      * by injection Hs' as <-.
      * apply (Hfirst k); [lia | done].
Qed.

Lemma grade_first_missing student marks text subs subs' :
  grade_first student marks text subs = (subs', false) -> subs' = subs.
Proof.
  revert subs'. induction subs as [|s subs IH]; intros subs'; cbn.
  - by intros [= <-].
  - destruct (String.eqb (student_id s) student); [by intros [= _ ?]|].
    destruct (grade_first student marks text subs) as [rest found].
    intros [= <- ->]. by rewrite (IH rest eq_refl).
Qed.

Lemma list_find_by_key {A} (f : A -> string) (l : list A) i a :
  NoDup (f <$> l) -> l !! i = Some a ->
  list_find (fun x => f x = f a) l = Some (i, a).
Proof.
  intros Hnd Hi. apply list_find_Some. split_and!; [done | done |].
  intros j y Hj Hlt Heq.
  assert (i = j); [|lia].
  apply (NoDup_lookup (f <$> l) i j (f a) Hnd).
  - by rewrite list_lookup_fmap, Hi.
  - by rewrite list_lookup_fmap, Hj, <- Heq.
Qed.

Lemma submit_assignment_cases ObjectId assignments utcnow id text file user :
  let out := submit_assignment ObjectId assignments utcnow id text file user in
  (exists e, out = (Raises e, assignments)) \/
  (exists oid i a,
     ObjectId id = Some oid /\
     list_find (fun a => _id a = oid) assignments = Some (i, a) /\
     user ∈ assigned_to a /\
     (user ∉ students a) /\
     out =
       (Returns
          (Helpers.success_response
             (PDict [("assignment_id", PStr id); ("submitted", PBool true)])
             "Assignment submitted successfully"),
        <[i := push {| student_id := user; submission_text := text;
                       file_url := file; submitted_at := utcnow;
                       marks_obtained := None; feedback := None |} a]>
          assignments)).
Proof.
  intros out. subst out. unfold submit_assignment.
  destruct (ObjectId id) as [oid|] eqn:Hid; [|left; by eexists].
  destruct (find_one _ assignments) as [a|] eqn:Hfind; [|left; by eexists].
  destruct (bool_decide (user ∈ assigned_to a)) eqn:Hin;
    [|left; by eexists].
  destruct (List.find _ (submissions a)) as [sub|] eqn:Hsub;
    [left; by eexists|].
  cbn [negb]. right.
  apply find_one_Some in Hfind as [i Hfind].
  apply bool_decide_eq_true in Hin.
  apply find_none_students in Hsub.
  exists oid, i, a. split_and!; try done.
  by rewrite (update_one_found _ _ _ _ _ Hfind).
Qed.

End Coursework.

(** X23. A student submits an assignment at most once. [submit_assignment]
    changes nothing when it raises. When it returns, the caller is among
    the students the assignment is assigned to and had no submission in
    it, the submission is appended to that assignment, ungraded, and
    nothing else changes; assignments that held at most one submission of
    each student still do; and every further [submit_assignment] of the
    caller for that assignment is refused with HTTP 400 and changes
    nothing. *)
Theorem submit_assignment_once :
  forall ObjectId assignments t1 t2 id text file text' file' user,
    let out :=
      Assignments.submit_assignment ObjectId assignments t1 id text file
        user in
    (forall e, out.1 = Raises e -> out.2 = assignments) /\
    (forall response, out.1 = Returns response ->
       (exists i a,
          assignments !! i = Some a /\
          user ∈ Assignments.assigned_to a /\
          (user ∉ Assignments.students a) /\
          out.2 =
            <[i := Assignments.push
                     {| Assignments.student_id := user;
                        Assignments.submission_text := text;
                        Assignments.file_url := file;
                        Assignments.submitted_at := t1;
                        Assignments.marks_obtained := None;
                        Assignments.feedback := None |} a]> assignments) /\
       (Forall (fun a => NoDup (Assignments.students a)) assignments ->
        Forall (fun a => NoDup (Assignments.students a)) out.2) /\
       Assignments.submit_assignment ObjectId out.2 t2 id text' file' user
         = (Raises
              (Exn (HTTPException 400
                      "You have already submitted this assignment")),
            out.2)).
Proof.
  intros ObjectId assignments t1 t2 id text file text' file' user out.
  destruct (submit_assignment_cases ObjectId assignments t1 id text file
              user)
    as [[e He]|(oid & i & a & Hid & Hfind & Hin & Hsub & Hout)];
    fold out in He || fold out in Hout.
  { rewrite He. by split. }
  rewrite Hout. cbn [fst snd]. split; [done|]. intros response _.
  set (new := {| Assignments.student_id := user;
                 Assignments.submission_text := text |}).
  pose proof Hfind as (Hi & Ha & _)%list_find_Some.
  split_and!.
  - by exists i, a.
  - intros Hinv. apply Forall_insert; [done|].
    unfold Assignments.students, Assignments.push. cbn.
    rewrite fmap_app. apply NoDup_app. split_and!.
    + eapply Forall_lookup_1 in Hinv; [exact Hinv | exact Hi].
    + intros x Hx [->|[]%elem_of_nil]%elem_of_cons. done.
    + apply NoDup_singleton.
  - unfold Assignments.submit_assignment. rewrite Hid.
    assert (find_one (fun a => Assignments._id a = oid)
              (<[i := Assignments.push new a]> assignments)
            = Some (Assignments.push new a)) as ->.
    { apply find_one_Some. exists i.
      by apply list_find_insert_same with (x := a). }
    cbn [Assignments.push Assignments.assigned_to Assignments.submissions].
    rewrite (bool_decide_eq_true_2 _ Hin). cbn [negb].
    destruct (List.find _ (Assignments.submissions a ++ [new])%list)
      as [sub|] eqn:Hagain; [done|].
    apply find_none_students in Hagain. exfalso. apply Hagain.
    rewrite fmap_app. apply elem_of_app. right. by left.
Qed.

Lemma submit_assignment_once_witness :
  let out :=
    Assignments.submit_assignment sample_object_id [sample_assignment] 5
      "a1" (Some "essay") None "u1" in
  Assignments.students <$> out.2 = [["u1"]] /\
  Assignments.submit_assignment sample_object_id out.2 6 "a1"
    (Some "again") None "u1"
  = (Raises
       (Exn (HTTPException 400
               "You have already submitted this assignment")),
     out.2).
Proof.
  intros out. split; [reflexivity|].
  apply (proj2 (submit_assignment_once sample_object_id [sample_assignment]
                  5 6 "a1" (Some "essay") None (Some "again") None "u1")
           (Helpers.success_response
              (PDict [("assignment_id", PStr "a1");
                      ("submitted", PBool true)])
              "Assignment submitted successfully")).
  reflexivity.
Defined.

(** X24. [grade_submission] grades one submission and touches nothing
    else. In a collection whose documents have distinct [_id]s: when it
    raises, nothing changes; when it returns, the assignment was created
    by the caller, the graded submission is the first one of the named
    student in it, that submission gets the given marks and feedback and
    keeps its other fields, and the other submissions, their order and
    the other assignments are as before. *)
Theorem grade_submission_first :
  forall ObjectId assignments id student marks text user,
    NoDup (Assignments._id <$> assignments) ->
    let out :=
      Assignments.grade_submission ObjectId assignments id student marks
        text user in
    (forall e, out.1 = Raises e -> out.2 = assignments) /\
    (forall response, out.1 = Returns response ->
       exists i a j s,
         assignments !! i = Some a /\
         Assignments.created_by a = user /\
         Assignments.submissions a !! j = Some s /\
         Assignments.student_id s = student /\
         (forall k s', (k < j)%nat ->
            Assignments.submissions a !! k = Some s' ->
            Assignments.student_id s' <> student) /\
         out.2 =
           <[i := Assignments.set_submissions
                    (<[j := Assignments.grade marks text s]>
                       (Assignments.submissions a)) a]> assignments /\
         Assignments.students
           (Assignments.set_submissions
              (<[j := Assignments.grade marks text s]>
                 (Assignments.submissions a)) a)
         = Assignments.students a).
Proof.
  intros ObjectId assignments id student marks text user Hnd out.
  subst out. unfold Assignments.grade_submission.
  destruct (ObjectId id) as [oid|] eqn:Hid; [|by split].
  destruct (find_one _ assignments) as [a|] eqn:Hfind; [|by split].
  destruct (Assignments.grade_first student marks text
              (Assignments.submissions a)) as [subs found] eqn:Hgrade.
  destruct found; cbn [negb fst snd]; [|by split].
  split; [done|]. intros response _.
  apply find_one_Some in Hfind as [i Hfind].
  apply list_find_Some in Hfind as (Hi & [Hoid Hby] & _).
  destruct (grade_first_found _ _ _ _ _ Hgrade)
    as (j & s & Hj & Hs & Hfirst & ->).
  exists i, a, j, s. split_and!; try done.
  - apply update_one_found. rewrite <- Hoid.
    by apply (list_find_by_key Assignments._id).
  - unfold Assignments.students, Assignments.set_submissions. cbn.
    rewrite list_fmap_insert. cbn.
    apply list_insert_id. by rewrite list_lookup_fmap, Hj.
Qed.

Lemma grade_submission_first_witness :
  let graded :=
    Assignments.grade_submission sample_object_id
      (Assignments.submit_assignment sample_object_id [sample_assignment] 5
         "a1" (Some "essay") None "u1").2
      "a1" "u1" 8 (Some "good") in
  Assignments.submissions <$> (graded "f1").2
  = [[{| Assignments.student_id := "u1";
         Assignments.submission_text := Some "essay";
         Assignments.file_url := None;
         Assignments.submitted_at := 5;
         Assignments.marks_obtained := Some 8%Z;
         Assignments.feedback := Some "good" |}]].
Proof.
  intros graded.
  destruct (grade_submission_first sample_object_id
              (Assignments.submit_assignment sample_object_id
                 [sample_assignment] 5 "a1" (Some "essay") None "u1").2
              "a1" "u1" 8 (Some "good") "f1") as [_ Hok].
  - repeat constructor. apply not_elem_of_nil.
  - destruct (Hok _ eq_refl) as (i & a & j & s & _). reflexivity.
Defined.

Lemma find_one_among {A} (P : A -> Prop) `{forall x, Decision (P x)}
    (l : list A) x :
  x ∈ l -> P x -> exists y, find_one P l = Some y.
Proof.
  intros Hin Hx. destruct (find_one P l) as [y|] eqn:E; [by exists y|].
  apply find_one_None in E. apply (list_find_None _ l) in E.
  rewrite Forall_forall in E. by destruct (E x Hin).
Qed.

Section Enrolment.
Import Enrollments.

Lemma enroll_in_course_cases ObjectId respond courses enrollments id
    enrollment user :
  let out :=
    enroll_in_course ObjectId respond courses enrollments id enrollment
      user in
  let new :=
    {| student_id := c_student_id enrollment;
       course_id := c_course_id enrollment;
       enrolled_at := c_enrolled_at enrollment;
       status := c_status enrollment;
       progress_percentage := 0 |} in
  (exists e, out = (Raises e, enrollments)) \/
  (c_student_id enrollment = user /\
   (exists oid, ObjectId (c_course_id enrollment) = Some oid /\
                oid ∈ courses) /\
   Forall (fun e => ~ (student_id e = c_student_id enrollment /\
                       course_id e = c_course_id enrollment)) enrollments /\
   out = (respond new id, (enrollments ++ [new])%list)).
Proof.
  intros out new. subst out. unfold enroll_in_course.
  destruct (String.eqb _ user) eqn:Hown; cbn [negb]; [|left; by eexists].
  destruct (ObjectId _) as [oid|] eqn:Hid; [|left; by eexists].
  destruct (find_one _ courses) as [c|] eqn:Hc; [|left; by eexists].
  destruct (find_one _ enrollments) as [old|] eqn:Hold;
    [left; by eexists|].
  right. apply String.eqb_eq in Hown. split_and!; try done.
  - exists oid. split; [done|].
    pose proof (find_one_holds _ _ _ Hc) as Hoid. cbn in Hoid.
    apply find_one_Some in Hc as [i Hi].
    apply list_find_Some in Hi as (Hi & _). subst c.
    by eapply list_elem_of_lookup_2.
  - apply find_one_None in Hold.
    by apply (list_find_None _ enrollments) in Hold.
Qed.

End Enrolment.

(** X25. A student is enrolled in a course at most once.
    [enroll_in_course] either leaves the enrolments as they are or
    appends one enrolment, which is the caller's own, at progress 0, in a
    course that exists, for a pair of student and course that was not
    enrolled; enrolments without a repeated pair stay so; and once an
    enrolment is stored, the same request is refused with HTTP 400 and
    changes nothing. The enrolment is stored before the response is
    built, so it is stored also when building the response fails. *)
Theorem enroll_in_course_once :
  forall ObjectId respond courses enrollments id1 id2 enrollment user,
    let out :=
      Enrollments.enroll_in_course ObjectId respond courses enrollments
        id1 enrollment user in
    let pair e := (Enrollments.student_id e, Enrollments.course_id e) in
    (out.2 = enrollments \/
     exists e oid,
       out = (respond e id1, (enrollments ++ [e])%list) /\
       Enrollments.student_id e = user /\
       Enrollments.course_id e = Enrollments.c_course_id enrollment /\
       Enrollments.progress_percentage e = 0%Q /\
       ObjectId (Enrollments.course_id e) = Some oid /\
       oid ∈ courses /\
       (pair e ∉ pair <$> enrollments)) /\
    (NoDup (pair <$> enrollments) -> NoDup (pair <$> out.2)) /\
    (forall e, out.2 = (enrollments ++ [e])%list ->
       Enrollments.enroll_in_course ObjectId respond courses out.2 id2
         enrollment user
       = (Raises (Exn (HTTPException 400 "Already enrolled in this course")),
          out.2)).
Proof.
  intros ObjectId respond courses enrollments id1 id2 enrollment user out
    pair.
  assert (Hsame : forall e, (enrollments ++ [e])%list <> enrollments).
  { intros e Heq. apply (f_equal length) in Heq.
    rewrite length_app in Heq. cbn in Heq. lia. }
  destruct (enroll_in_course_cases ObjectId respond courses enrollments id1
              enrollment user)
    as [[e He]|(Hown & (oid & Hid & Hc) & Hnone & Hout)];
    fold out in He || fold out in Hout.
  { rewrite He. cbn [snd].
    split_and!; [by left | done | intros e' He'; by destruct (Hsame e')]. }
  set (new := {| Enrollments.student_id :=
                   Enrollments.c_student_id enrollment |}) in *.
  rewrite Hout. cbn [snd].
  assert (Hfresh : pair new ∉ pair <$> enrollments).
  { intros (e & He & Hin)%list_elem_of_fmap.
    rewrite Forall_forall in Hnone. apply (Hnone e Hin).
    injection He as Hs Hcr. by split. }
  split_and!.
  - right. exists new, oid. split_and!; done.
  - intros Hnd. rewrite fmap_app. apply NoDup_app. split_and!.
    + done.
    + intros x Hx [->|[]%elem_of_nil]%elem_of_cons. done.
    + apply NoDup_singleton.
  - intros e _. unfold Enrollments.enroll_in_course.
    rewrite Hown, String.eqb_refl, Hid. cbn [negb].
    destruct (find_one_among (fun c => c = oid) courses oid Hc eq_refl)
      as [c ->].
    destruct (find_one_among
                (fun e => Enrollments.student_id e = user /\
                          Enrollments.course_id e
                            = Enrollments.c_course_id enrollment)
                (enrollments ++ [new])%list new) as [e' He'].
    + apply elem_of_app. right. by left.
    + by split.
    + rewrite <- Hown in He' |- *. by rewrite He'.
Qed.

Lemma enroll_in_course_once_witness :
  let request :=
    {| Enrollments.c_student_id := "u1"; Enrollments.c_course_id := "c1";
       Enrollments.c_enrolled_at := 3; Enrollments.c_status := "active" |} in
  let respond (e : Enrollments.t) (id : string) : raising py_dict :=
    Raises (Exn TypeError) in
  let out :=
    Enrollments.enroll_in_course sample_object_id respond ["c1"] [] "e1"
      request "u1" in
  length out.2 = 1%nat /\
  Enrollments.enroll_in_course sample_object_id respond ["c1"] out.2 "e2"
    request "u1"
  = (Raises (Exn (HTTPException 400 "Already enrolled in this course")),
     out.2).
Proof.
  intros request respond out. split; [reflexivity|].
  apply (proj2 (proj2 (enroll_in_course_once sample_object_id respond
                         ["c1"] [] "e1" "e2" request "u1"))
           {| Enrollments.student_id := "u1"; Enrollments.course_id := "c1";
              Enrollments.enrolled_at := 3; Enrollments.status := "active";
              Enrollments.progress_percentage := 0 |}).
  reflexivity.
Defined.

(** * Verifying a payment again *)



(** * What the payment routes refuse *)

Lemma process_refund_refused db utcnow uuid payment_id amount reason :
  PaymentService.refund_success
    (PaymentService.process_refund db utcnow uuid payment_id amount
       reason).1 = false ->
  (PaymentService.process_refund db utcnow uuid payment_id amount reason).2
    = db.
Proof.
  unfold PaymentService.process_refund.
  destruct (find_one _ (payments db)) as [p|]; [|done].
  destruct (negb _); [done|].
  destruct (Qlt_bool _ _); [done|].
  cbn. discriminate.
Qed.

(** X27. The verification and the refund route answer every failure of
    the service with HTTP 400 and raise nothing else. A refused refund
    has written nothing. A refused verification has written nothing
    either, with one exception: for a payment past its expiry the route
    raises HTTP 400 'Payment has expired' and the payment is stored with
    the status 'expired'. *)
Theorem payment_routes_refusals :
  forall getenv hmac db utcnow uuid payment_id verification refund user,
    let verified :=
      PaymentRoutes.verify_payment getenv hmac db utcnow verification
        user in
    let refunded :=
      PaymentRoutes.refund_payment db utcnow uuid payment_id refund user in
    let expired :=
      with_payments
        (update_one
           (fun p =>
              Payment.payment_id p = PaymentRoutes.payment_id verification)
           (Payment.set_status "expired")) db in
    (forall e, refunded.1 = Raise e ->
       (exists message, e = HTTPException 400 message) /\
       refunded.2 = db) /\
    (forall e, verified.1 = Raise e ->
       (exists message, e = HTTPException 400 message) /\
       (verified.2 = db \/
        (e = HTTPException 400 "Payment has expired" /\
         verified.2 = expired))) /\
    (forall p,
       find_one
         (fun p =>
            Payment.payment_id p = PaymentRoutes.payment_id verification)
         (payments db) = Some p ->
       (Payment.expires_at p < utcnow)%Z ->
       verified = (Raise (HTTPException 400 "Payment has expired"),
                   expired)).
Proof.
  intros getenv hmac db utcnow uuid payment_id verification refund user
    verified refunded expired.
  split_and!.
  - intros e. subst refunded. unfold PaymentRoutes.refund_payment.
    pose proof (process_refund_refused db utcnow uuid payment_id
                  (PaymentRoutes.r_amount refund)
                  (PaymentRoutes.reason refund)) as Hsame.
    destruct (PaymentService.process_refund _ _ _ _ _ _) as [r db'].
    cbn [fst snd] in Hsame.
    destruct (PaymentService.refund_success r); cbn [negb fst snd];
      [done|].
    intros [= <-]. split; [by eexists | by apply Hsame].
  - intros e. subst verified. unfold PaymentRoutes.verify_payment.
    destruct (verify_payment_cases getenv hmac db utcnow
                (PaymentRoutes.payment_id verification)
                (PaymentRoutes.order_id verification)
                (PaymentRoutes.signature verification)
                (PaymentRoutes.gateway_data verification))
      as [[Hv _]|[(p & _ & _ & Hv)|[(p & _ & _ & Hv)|(p & _ & _ & Hv & _)]]].
    + rewrite Hv. cbn. intros [= <-]. split; [by eexists | by left].
    + rewrite Hv. cbn. intros [= <-]. split; [by eexists | by right].
    + rewrite Hv. cbn. intros [= <-]. split; [by eexists | by left].
    + destruct (PaymentService.verify_payment _ _ _ _ _ _ _ _) as [r db'].
      cbn [fst] in Hv. by rewrite Hv.
  - intros p Hf Hexp. subst verified. unfold PaymentRoutes.verify_payment.
    by rewrite (verify_payment_expired getenv hmac db utcnow _ _ _ _ p Hf
                  Hexp).
Qed.

Lemma payment_routes_refusals_witness :
  PaymentRoutes.verify_payment sample_getenv sample_hmac
    (sample_db [sample_payment "created"]) 2000
    {| PaymentRoutes.payment_id := "pay_1";
       PaymentRoutes.order_id := "order_1";
       PaymentRoutes.signature := Some "whsec_1";
       PaymentRoutes.gateway_data := None |} "u1"
  = (Raise (HTTPException 400 "Payment has expired"),
     sample_db [sample_payment "expired"]).
Proof.
  apply (proj2 (proj2 (payment_routes_refusals sample_getenv sample_hmac
                         (sample_db [sample_payment "created"]) 2000 "r1"
                         "pay_1"
                         {| PaymentRoutes.payment_id := "pay_1";
                            PaymentRoutes.order_id := "order_1";
                            PaymentRoutes.signature := Some "whsec_1";
                            PaymentRoutes.gateway_data := None |}
                         {| PaymentRoutes.r_amount := None;
                            PaymentRoutes.reason := "none" |} "u1"))
           (sample_payment "created")); reflexivity.
Defined.
